(** * A2A agent with AP2 payments: mandates, single-use carts and the task
      life cycle

    A shallow embedding of the two AP2 variants of the agent,
    [agent_production.py] (with [database.py], [models.py] and [config.py])
    and [agent_ap2.py], followed by the properties proved about them.

    Conventions of the embedding.
    - A Python [dict] used as a table is a [gmap string _]; the catalogue
      [PRICING], whose key order the code iterates over, is an association
      list.
    - [datetime] values are integers (seconds); [timedelta(hours=h)] is
      [3600 * h].  One request reads the clock once.
    - A price is a number of cents ([50.00] is [5000]).  The cart stores
      [str(price)] and the payment reads [float(value)] back: the model
      keeps the number itself in [value].
    - [uuid.uuid4()] and the generation engine are external: every request
      carries an environment giving the identifiers drawn during the
      request and the engine's answer to a prompt.
    - A [str] is kept as its UTF-8 bytes; [len] and slices count
      characters, not bytes.
    - A request to agent_production.py carries the parameters of its method
      as the pydantic model of the method holds them: a body that is not a
      JSON object, and parameters that have not the fields and types of
      the model, are no requests of the embedding.
    - Exceptions are values of [Py.exn]; a handler is a computation in the
      state-and-exception monad [Py.M] over the stored tables.  Every
      repository method commits on its own, so the state reached when an
      exception is raised is kept.
    - The persistence engine fails in one way only: an [INSERT] whose
      primary key is already present raises.
    - Requests are served by the one event loop of [uvicorn.run(app)].  The
      endpoint awaits the body of the request and then the handler, and
      no handler suspends (the engine and the tables are called without
      [await]): once the tables are looked at, a request is served to its
      end before the next one is. *)

From stdpp Require Import base strings gmap list option pretty sorting.
From Stdlib Require Import ZArith.

#[local] Open Scope string_scope.
#[local] Open Scope Z_scope.

(** ** Python: exceptions and the state-and-exception monad *)

Module Py.

Inductive exn : Type :=
| HTTPException (status_code : Z) (detail : string)
| ValueError (msg : string)
| Exception (msg : string).

(** [str(e)] *)
Definition str (e : exn) : string :=
  match e with
  | HTTPException c d => pretty c +:+ ": " +:+ d
  | ValueError m => m
  | Exception m => m
  end.

(** [isinstance(e, ValueError)] *)
Definition is_ValueError (e : exn) : bool :=
  match e with ValueError _ => true | _ => false end.

(** [isinstance(e, HTTPException)] *)
Definition is_HTTPException (e : exn) : bool :=
  match e with HTTPException _ _ => true | _ => false end.

Inductive result (A : Type) : Type :=
| Return (a : A)
| Raise (e : exn).
Arguments Return {A} a.
Arguments Raise {A} e.

Definition M (St A : Type) : Type := St → result A * St.

Definition ret {St A} (a : A) : M St A := λ s, (Return a, s).

Definition bind {St A B} (c : M St A) (k : A → M St B) : M St B :=
  λ s, match c s with
       | (Return a, s') => k a s'
       | (Raise e, s') => (Raise e, s')
       end.

Definition raise {St A} (e : exn) : M St A := λ s, (Raise e, s).

(** [try: c  except Exception as e: h e] *)
Definition try_except {St A} (c : M St A) (h : exn → M St A) : M St A :=
  λ s, match c s with
       | (Return a, s') => (Return a, s')
       | (Raise e, s') => h e s'
       end.

Definition gets {St A} (f : St → A) : M St A := λ s, (Return (f s), s).

Definition modify {St} (f : St → St) : M St unit := λ s, (Return tt, f s).

(** The truth value of an [Optional[str]]: [None] and [""] are false. *)
Definition truthy (o : option string) : bool :=
  match o with
  | Some s => negb (String.eqb s "")
  | None => false
  end.

(** [d[k]] on a dict with string keys kept in insertion order. *)
Fixpoint lookup_key {A} (k : string) (d : list (string * A)) : option A :=
  match d with
  | [] => None
  | (k', a) :: d' => if String.eqb k k' then Some a else lookup_key k d'
  end.

(** [k in d] *)
Definition has_key {A} (k : string) (d : list (string * A)) : bool :=
  match lookup_key k d with Some _ => true | None => false end.

(** [d[k]], raising [KeyError] when the key is missing; the message is
    [str] of the error, the key as [repr] writes it (between single
    quotes, for a key that needs no escape). *)
Definition getitem {St A} (d : list (string * A)) (k : string) : M St A :=
  match lookup_key k d with
  | Some a => ret a
  | None => raise (Exception ("'" +:+ k +:+ "'"))
  end.

(** [needle in hay] on strings. *)
Fixpoint contains (needle hay : string) : bool :=
  String.prefix needle hay ||
  match hay with
  | EmptyString => false
  | String _ hay' => contains needle hay'
  end.

(** A byte [10xxxxxx] of a [str] continues the character begun before
    it. *)
Definition continues (b : Ascii.ascii) : bool :=
  match b with
  | Ascii.Ascii _ _ _ _ _ _ false true => true
  | _ => false
  end.

(** [len(s)]: the number of characters of [s]. *)
Fixpoint len (s : string) : nat :=
  match s with
  | EmptyString => 0%nat
  | String b s' => if continues b then len s' else S (len s')
  end.

(** [s[:n]]: the first [n] characters of [s]. *)
Fixpoint slice_to (n : nat) (s : string) : string :=
  match s with
  | EmptyString => EmptyString
  | String b s' =>
      if continues b then String b (slice_to n s')
      else match n with
           | O => EmptyString
           | S n' => String b (slice_to n' s')
           end
  end.

(** The digits of a number of cents that is not negative: [2500] is
    [25.0], [2505] is [25.05]. *)
Definition decimal (cents : Z) : string :=
  let whole := pretty (cents / 100) in
  let frac := cents mod 100 in
  if frac mod 10 =? 0 then whole +:+ "." +:+ pretty (frac / 10)
  else if frac <? 10 then whole +:+ ".0" +:+ pretty frac
  else whole +:+ "." +:+ pretty frac.

(** [str(x)] for a float with at most two decimals, given in cents, of
    magnitude below [1e16] (from there on Python writes an exponent). *)
Definition str_float (cents : Z) : string :=
  if cents <? 0 then "-" +:+ decimal (- cents) else decimal cents.

End Py.

Notation "x <- c ;; k" := (Py.bind c (λ x, k))
  (at level 100, c at next level, right associativity).
Notation "c ;;; k" := (Py.bind c (λ _, k))
  (at level 100, right associativity).

(** ** config.py *)

Module Config.

Record SkillDetails : Type := {
  price : Z;
  description : string
}.

(** [PRICING] *)
Definition PRICING : list (string * SkillDetails) :=
  [ ("business-analysis",
     {| price := 5000; description := "Comprehensive business analysis" |});
    ("market-research",
     {| price := 7500; description := "Market research and competitive analysis" |});
    ("strategy-planning",
     {| price := 10000; description := "Strategic business planning" |});
    ("quick-consult",
     {| price := 2500; description := "Quick consultation (15 min equivalent)" |}) ].

(** The fields of [Settings] that the handlers read. *)
Record Settings : Type := {
  agent_name : string;
  merchant_id : string;
  default_currency : string;
  refund_period_days : Z;
  cart_expiry_hours : Z;
  intent_expiry_hours : Z
}.

(** [get_settings()] with no environment variable set. *)
Definition get_settings : Settings := {|
  agent_name := "Business Consultant Agent (AP2)";
  merchant_id := "consulting-agent-merchant-001";
  default_currency := "USD";
  refund_period_days := 30;
  cart_expiry_hours := 1;
  intent_expiry_hours := 24
|}.

End Config.

(** What a request finds around it: the settings and the catalogue of the
    module, the clock, the identifiers [uuid.uuid4()] returns (the [n]-th
    call of the request gives [uuid4 n]) and the generation engine, which
    answers a prompt with a text or fails with a message. *)
Record Env : Type := {
  settings : Config.Settings;
  PRICING : list (string * Config.SkillDetails);
  utcnow : Z;
  uuid4 : nat → string;
  generate_content : string → string + string
}.

(** [timedelta(hours=h)] *)
Definition hours (h : Z) : Z := 3600 * h.

(** ** models.py: request parameters and their validation *)

Module Models.

Inductive PartType : Type := text_part | image_part | file_part.
Inductive Role : Type := user | agent | system.

Record MessagePart : Type := {
  type : PartType;
  text : option string;
  url : option string;
  mimeType : option string
}.

Record Message : Type := {
  role : Role;
  parts : list MessagePart
}.

Record TaskParams : Type := {
  taskId : option string;
  skillId : string;
  message : Message;
  paymentMandateId : option string
}.

Record TaskStatusParams : Type := { status_taskId : string }.

Record SendMessageParams : Type := {
  send_taskId : string;
  send_message : Message
}.

Record IntentMandateParams : Type := {
  intent_description : string;
  intent_skillId : option string
}.

Record CartMandateParams : Type := {
  cart_skillId : string;
  taskDescription : string
}.

Record PaymentMethodData : Type := {
  method_name : string;
  details : list (string * string);
  payer_name : option string;
  payer_email : option string
}.

Record ProcessPaymentParams : Type := {
  cartId : string;
  paymentMethod : PaymentMethodData;
  userAuthorization : option string
}.

(** [', '.join(keys)] *)
Fixpoint join_keys (ks : list string) : string :=
  match ks with
  | [] => ""
  | [k] => k
  | k :: ks' => k +:+ ", " +:+ join_keys ks'
  end.

(** [Field(..., min_length=lo, max_length=hi)]: the bounds are on the
    number of characters. *)
Definition length_between (lo hi : nat) (s : string) : bool :=
  (lo <=? Py.len s)%nat && (Py.len s <=? hi)%nat.

(** The validation of parameters that have the fields and types of their
    model: what is left to fail are the length bounds and the
    [validate_skill] validators.  pydantic gathers the failures in one
    [ValidationError], a [ValueError] whose [str] is a report of its own
    making; the embedding keeps the message of the first field that
    failed, and the handlers only pass [str(e)] on. *)
Section Validation.
Context {St : Type} (PRICING : list (string * Config.SkillDetails)).

(** [TaskParams(params)]: the [validate_skill] validator. *)
Definition validate_TaskParams (p : TaskParams) : Py.M St TaskParams :=
  if Py.has_key (skillId p) PRICING then Py.ret p
  else Py.raise (Py.ValueError
         ("Invalid skillId: " +:+ skillId p +:+ ". Must be one of: "
          +:+ join_keys (fst <$> PRICING))).

(** [IntentMandateParams(params)] *)
Definition validate_IntentMandateParams (p : IntentMandateParams)
  : Py.M St IntentMandateParams :=
  if negb (length_between 1 500 (intent_description p))
  then Py.raise (Py.ValueError "description: String should have between 1 and 500 characters")
  else match intent_skillId p with
       | None => Py.ret p
       | Some v =>
           if Py.has_key v PRICING then Py.ret p
           else Py.raise (Py.ValueError ("Invalid skillId: " +:+ v))
       end.

(** [CartMandateParams(params)] *)
Definition validate_CartMandateParams (p : CartMandateParams)
  : Py.M St CartMandateParams :=
  if negb (Py.has_key (cart_skillId p) PRICING)
  then Py.raise (Py.ValueError ("Invalid skillId: " +:+ cart_skillId p))
  else if negb (length_between 1 1000 (taskDescription p))
  then Py.raise (Py.ValueError "taskDescription: String should have between 1 and 1000 characters")
  else Py.ret p.
End Validation.

(** The loop that collects the text of a message:
    [if part.type == "text" and part.text: user_message += part.text] *)
Fixpoint collect_text (ps : list MessagePart) (acc : string) : string :=
  match ps with
  | [] => acc
  | p :: ps' =>
      match type p, text p with
      | text_part, Some t =>
          if Py.truthy (Some t) then collect_text ps' (acc +:+ t)
          else collect_text ps' acc
      | _, _ => collect_text ps' acc
      end
  end.

End Models.

(** ** The mandate types of the AP2 library, as far as the agent builds and
       reads them *)

Module AP2Types.

Record PaymentCurrencyAmount : Type := {
  currency : string;
  value : Z
}.

Record PaymentItem : Type := {
  label : string;
  amount : PaymentCurrencyAmount;
  refund_period : Z
}.

Record PaymentMethodData : Type := {
  supported_methods : string;
  data : list (string * string)
}.

Record PaymentDetailsInit : Type := {
  details_id : string;
  total : PaymentItem;
  display_items : list PaymentItem
}.

Record PaymentRequest : Type := {
  method_data : list PaymentMethodData;
  details : PaymentDetailsInit
}.

Record CartContents : Type := {
  contents_id : string;
  cart_confirmation_required : bool;
  payment_request : PaymentRequest;
  cart_expiry : Z;
  merchant_name : string
}.

Record CartMandate : Type := {
  contents : CartContents;
  merchant_authorization : string
}.

Record IntentMandate : Type := {
  user_cart_confirmation_required : bool;
  natural_language_description : string;
  merchants : list string;
  skus : option (list string);
  requires_refundability : bool;
  intent_expiry : Z
}.

Record PaymentResponse : Type := {
  request_id : string;
  method_name : string;
  response_details : list (string * string);
  payer_name : option string;
  payer_email : option string
}.

Record PaymentMandateContents : Type := {
  payment_mandate_id : string;
  payment_details_id : string;
  payment_details_total : PaymentItem;
  payment_response : PaymentResponse;
  merchant_agent : string;
  timestamp : Z
}.

Record PaymentMandate : Type := {
  payment_mandate_contents : PaymentMandateContents;
  user_authorization : string
}.

End AP2Types.

(** ** database.py *)

Module Database.

Module Task.
Record t : Type := {
  id : string;
  skill_id : string;
  status : string;
  user_message : option string;
  result : option string;
  price : Z;
  currency : string;
  payment_status : option string;
  payment_mandate_id : option string;
  cart_id : option string;
  created_at : option Z;
  started_at : option Z;
  completed_at : option Z;
  error : option string
}.
End Task.

Module CartMandateDB.
Record t : Type := {
  id : string;
  skill_id : string;
  task_description : option string;
  cart_data : AP2Types.CartMandate;
  created_at : option Z;
  expires_at : Z;
  is_used : bool
}.
End CartMandateDB.

Module PaymentMandateDB.
Record t : Type := {
  id : string;
  cart_id : string;
  payment_data : AP2Types.PaymentMandate;
  amount : Z;
  currency : string;
  status : string;
  created_at : option Z;
  processed_at : option Z
}.
End PaymentMandateDB.

(** The three tables, keyed by their primary key. *)
Record Session : Type := {
  tasks : gmap string Task.t;
  cart_mandates : gmap string CartMandateDB.t;
  payment_mandates : gmap string PaymentMandateDB.t
}.

(** [init_db()] on a new database. *)
Definition init_db : Session := {|
  tasks := ∅; cart_mandates := ∅; payment_mandates := ∅
|}.

Definition IntegrityError (table : string) : Py.exn :=
  Py.Exception ("UNIQUE constraint failed: " +:+ table +:+ ".id").

(** The entries of the [updates] dicts that [process_task], the one caller
    of [TaskRepository.update], passes: these five keys, with values
    that are not [None]. *)
Inductive TaskUpdate : Type :=
| set_status (v : string)
| set_started_at (v : Z)
| set_result (v : string)
| set_completed_at (v : Z)
| set_error (v : string).

(** [setattr(task, key, value)] *)
Definition setattr (task : Task.t) (u : TaskUpdate) : Task.t :=
  match u with
  | set_status v =>
      {| Task.id := Task.id task; Task.skill_id := Task.skill_id task;
         Task.status := v;
         Task.user_message := Task.user_message task;
         Task.result := Task.result task; Task.price := Task.price task;
         Task.currency := Task.currency task;
         Task.payment_status := Task.payment_status task;
         Task.payment_mandate_id := Task.payment_mandate_id task;
         Task.cart_id := Task.cart_id task;
         Task.created_at := Task.created_at task;
         Task.started_at := Task.started_at task;
         Task.completed_at := Task.completed_at task;
         Task.error := Task.error task |}
  | set_started_at v =>
      {| Task.id := Task.id task; Task.skill_id := Task.skill_id task;
         Task.status := Task.status task;
         Task.user_message := Task.user_message task;
         Task.result := Task.result task; Task.price := Task.price task;
         Task.currency := Task.currency task;
         Task.payment_status := Task.payment_status task;
         Task.payment_mandate_id := Task.payment_mandate_id task;
         Task.cart_id := Task.cart_id task;
         Task.created_at := Task.created_at task;
         Task.started_at := Some v;
         Task.completed_at := Task.completed_at task;
         Task.error := Task.error task |}
  | set_result v =>
      {| Task.id := Task.id task; Task.skill_id := Task.skill_id task;
         Task.status := Task.status task;
         Task.user_message := Task.user_message task;
         Task.result := Some v; Task.price := Task.price task;
         Task.currency := Task.currency task;
         Task.payment_status := Task.payment_status task;
         Task.payment_mandate_id := Task.payment_mandate_id task;
         Task.cart_id := Task.cart_id task;
         Task.created_at := Task.created_at task;
         Task.started_at := Task.started_at task;
         Task.completed_at := Task.completed_at task;
         Task.error := Task.error task |}
  | set_completed_at v =>
      {| Task.id := Task.id task; Task.skill_id := Task.skill_id task;
         Task.status := Task.status task;
         Task.user_message := Task.user_message task;
         Task.result := Task.result task; Task.price := Task.price task;
         Task.currency := Task.currency task;
         Task.payment_status := Task.payment_status task;
         Task.payment_mandate_id := Task.payment_mandate_id task;
         Task.cart_id := Task.cart_id task;
         Task.created_at := Task.created_at task;
         Task.started_at := Task.started_at task;
         Task.completed_at := Some v;
         Task.error := Task.error task |}
  | set_error v =>
      {| Task.id := Task.id task; Task.skill_id := Task.skill_id task;
         Task.status := Task.status task;
         Task.user_message := Task.user_message task;
         Task.result := Task.result task; Task.price := Task.price task;
         Task.currency := Task.currency task;
         Task.payment_status := Task.payment_status task;
         Task.payment_mandate_id := Task.payment_mandate_id task;
         Task.cart_id := Task.cart_id task;
         Task.created_at := Task.created_at task;
         Task.started_at := Task.started_at task;
         Task.completed_at := Task.completed_at task;
         Task.error := Some v |}
  end.

Definition with_tasks (f : gmap string Task.t → gmap string Task.t)
    (db : Session) : Session :=
  {| tasks := f (tasks db); cart_mandates := cart_mandates db;
     payment_mandates := payment_mandates db |}.

Definition with_cart_mandates
    (f : gmap string CartMandateDB.t → gmap string CartMandateDB.t)
    (db : Session) : Session :=
  {| tasks := tasks db; cart_mandates := f (cart_mandates db);
     payment_mandates := payment_mandates db |}.

Definition with_payment_mandates
    (f : gmap string PaymentMandateDB.t → gmap string PaymentMandateDB.t)
    (db : Session) : Session :=
  {| tasks := tasks db; cart_mandates := cart_mandates db;
     payment_mandates := f (payment_mandates db) |}.

(** [Task(task_data)] as it is inserted at time [now]: [created_at],
    when it is not given, takes the column default [datetime.utcnow]. *)
Definition new_task (now : Z) (task_data : Task.t) : Task.t :=
  {| Task.id := Task.id task_data;
     Task.skill_id := Task.skill_id task_data;
     Task.status := Task.status task_data;
     Task.user_message := Task.user_message task_data;
     Task.result := Task.result task_data;
     Task.price := Task.price task_data;
     Task.currency := Task.currency task_data;
     Task.payment_status := Task.payment_status task_data;
     Task.payment_mandate_id := Task.payment_mandate_id task_data;
     Task.cart_id := Task.cart_id task_data;
     Task.created_at := Some (default now (Task.created_at task_data));
     Task.started_at := Task.started_at task_data;
     Task.completed_at := Task.completed_at task_data;
     Task.error := Task.error task_data |}.

(** [CartMandateDB(cart_data)], likewise; [is_used], which the agent never
    gives, comes with its column default [False]. *)
Definition new_cart (now : Z) (cart_data : CartMandateDB.t) : CartMandateDB.t :=
  {| CartMandateDB.id := CartMandateDB.id cart_data;
     CartMandateDB.skill_id := CartMandateDB.skill_id cart_data;
     CartMandateDB.task_description := CartMandateDB.task_description cart_data;
     CartMandateDB.cart_data := CartMandateDB.cart_data cart_data;
     CartMandateDB.created_at :=
       Some (default now (CartMandateDB.created_at cart_data));
     CartMandateDB.expires_at := CartMandateDB.expires_at cart_data;
     CartMandateDB.is_used := CartMandateDB.is_used cart_data |}.

(** [PaymentMandateDB(payment_data)], likewise. *)
Definition new_payment (now : Z) (payment_data : PaymentMandateDB.t)
  : PaymentMandateDB.t :=
  {| PaymentMandateDB.id := PaymentMandateDB.id payment_data;
     PaymentMandateDB.cart_id := PaymentMandateDB.cart_id payment_data;
     PaymentMandateDB.payment_data := PaymentMandateDB.payment_data payment_data;
     PaymentMandateDB.amount := PaymentMandateDB.amount payment_data;
     PaymentMandateDB.currency := PaymentMandateDB.currency payment_data;
     PaymentMandateDB.status := PaymentMandateDB.status payment_data;
     PaymentMandateDB.created_at :=
       Some (default now (PaymentMandateDB.created_at payment_data));
     PaymentMandateDB.processed_at := PaymentMandateDB.processed_at payment_data |}.

Module TaskRepository.

(** [create], at time [now]:
    [task = Task(task_data); db.add(task); db.commit(); db.refresh(task)] *)
Definition create (now : Z) (task_data : Task.t) : Py.M Session Task.t :=
  λ db, let task := new_task now task_data in
        match tasks db !! Task.id task with
        | Some _ => (Py.Raise (IntegrityError "tasks"), db)
        | None =>
            (Py.Return task, with_tasks (insert (Task.id task) task) db)
        end.

(** [get] *)
Definition get (task_id : string) : Py.M Session (option Task.t) :=
  Py.gets (λ db, tasks db !! task_id).

(** [update]: nothing is written when the task is not stored. *)
Definition update (task_id : string) (updates : list TaskUpdate)
  : Py.M Session (option Task.t) :=
  task <- get task_id ;;
  match task with
  | Some task =>
      let task' := foldl setattr task updates in
      Py.modify (with_tasks (insert task_id task')) ;;;
      Py.ret (Some task')
  | None => Py.ret None
  end.

End TaskRepository.

Module CartMandateRepository.

Definition create (now : Z) (cart_data : CartMandateDB.t)
  : Py.M Session CartMandateDB.t :=
  λ db, let cart := new_cart now cart_data in
        match cart_mandates db !! CartMandateDB.id cart with
        | Some _ => (Py.Raise (IntegrityError "cart_mandates"), db)
        | None =>
            (Py.Return cart,
             with_cart_mandates (insert (CartMandateDB.id cart) cart) db)
        end.

Definition get (cart_id : string) : Py.M Session (option CartMandateDB.t) :=
  Py.gets (λ db, cart_mandates db !! cart_id).

(** [cart.is_used = True] *)
Definition set_is_used (cart : CartMandateDB.t) : CartMandateDB.t :=
  {| CartMandateDB.id := CartMandateDB.id cart;
     CartMandateDB.skill_id := CartMandateDB.skill_id cart;
     CartMandateDB.task_description := CartMandateDB.task_description cart;
     CartMandateDB.cart_data := CartMandateDB.cart_data cart;
     CartMandateDB.created_at := CartMandateDB.created_at cart;
     CartMandateDB.expires_at := CartMandateDB.expires_at cart;
     CartMandateDB.is_used := true |}.

(** [mark_used]: reads the cart and sets the flag, whatever it was. *)
Definition mark_used (cart_id : string) : Py.M Session bool :=
  cart <- get cart_id ;;
  match cart with
  | Some cart =>
      Py.modify (with_cart_mandates (insert cart_id (set_is_used cart))) ;;;
      Py.ret true
  | None => Py.ret false
  end.

End CartMandateRepository.

Module PaymentMandateRepository.

Definition create (now : Z) (payment_data : PaymentMandateDB.t)
  : Py.M Session PaymentMandateDB.t :=
  λ db, let payment := new_payment now payment_data in
        match payment_mandates db !! PaymentMandateDB.id payment with
        | Some _ => (Py.Raise (IntegrityError "payment_mandates"), db)
        | None =>
            (Py.Return payment,
             with_payment_mandates
               (insert (PaymentMandateDB.id payment) payment) db)
        end.

Definition get (payment_id : string)
  : Py.M Session (option PaymentMandateDB.t) :=
  Py.gets (λ db, payment_mandates db !! payment_id).

End PaymentMandateRepository.

End Database.

(** ** agent_production.py *)

Module AgentProduction.
Import Database.

(** The stored tables together with the prompts sent to the generation
    engine so far, latest first. *)
Record World : Type := {
  db : Session;
  engine_calls : list string
}.

Definition start : World := {| db := init_db; engine_calls := [] |}.

(** A repository call made by a handler. *)
Definition on_db {A} (c : Py.M Session A) : Py.M World A :=
  λ w, let '(r, db') := c (db w) in
       (r, {| db := db'; engine_calls := engine_calls w |}).

(** [model.generate_content(prompt).text] *)
Definition model_generate_content (env : Env) (prompt : string)
  : Py.M World string :=
  λ w, let w' := {| db := db w; engine_calls := prompt :: engine_calls w |} in
       match generate_content env prompt with
       | inl text => (Py.Return text, w')
       | inr msg => (Py.Raise (Py.Exception msg), w')
       end.

Record IntentResult : Type := {
  intent_success : bool;
  intent_mandate : AP2Types.IntentMandate;
  intent_message : string
}.

Record CartResult : Type := {
  cart_success : bool;
  cart_id : string;
  cart_mandate : AP2Types.CartMandate;
  cart_message : string
}.

Record PaymentResult : Type := {
  success : bool;
  task_id : string;
  payment_mandate_id : string;
  payment_mandate : AP2Types.PaymentMandate;
  payment_status : string;
  payment_message : string
}.

Record Artifact : Type := {
  artifact_type : string;
  name : string;
  artifact_mimeType : string;
  data : string
}.

Record Metadata : Type := {
  service : string;
  price : Z;
  currency : string;
  billable : bool;
  payment_protocol : option string
}.

Record TaskResult : Type := {
  taskId : string;
  status : string;
  message : option Models.Message;
  artifacts : list Artifact;
  metadata : option Metadata;
  next_steps : list (string * list (string * string))
}.

(** [{"role": "agent", "parts": [{"type": "text", "text": t}]}] *)
Definition agent_text (t : string) : Models.Message :=
  {| Models.role := Models.agent;
     Models.parts := [ {| Models.type := Models.text_part;
                          Models.text := Some t;
                          Models.url := None;
                          Models.mimeType := None |} ] |}.

(** [create_intent_mandate] *)
Definition create_intent_mandate (env : Env)
    (params : Models.IntentMandateParams) : Py.M World IntentResult :=
  Py.try_except
    (validated_params <- Models.validate_IntentMandateParams (PRICING env) params ;;
     let intent :=
       {| AP2Types.user_cart_confirmation_required := true;
          AP2Types.natural_language_description :=
            Models.intent_description validated_params;
          AP2Types.merchants := [Config.merchant_id (settings env)];
          AP2Types.skus :=
            (if Py.truthy (Models.intent_skillId validated_params)
             then (λ s, [s]) <$> Models.intent_skillId validated_params
             else None);
          AP2Types.requires_refundability := true;
          AP2Types.intent_expiry :=
            utcnow env + hours (Config.intent_expiry_hours (settings env)) |} in
     Py.ret {| intent_success := true;
               intent_mandate := intent;
               intent_message := "Intent mandate created. Proceed to create cart." |})
    (λ e, if Py.is_ValueError e
          then Py.raise (Py.HTTPException 400 (Py.str e))
          else Py.raise e).

(** [create_cart_mandate] *)
Definition create_cart_mandate (env : Env)
    (params : Models.CartMandateParams) : Py.M World CartResult :=
  Py.try_except
    (validated_params <- Models.validate_CartMandateParams (PRICING env) params ;;
     let cart_id := uuid4 env 0%nat in
     details <- Py.getitem (PRICING env) (Models.cart_skillId validated_params) ;;
     let price := Config.price details in
     let default_currency := Config.default_currency (settings env) in
     let refund := Config.refund_period_days (settings env) in
     let payment_request :=
       {| AP2Types.method_data :=
            [ {| AP2Types.supported_methods := "https://pay.google.com/payment";
                 AP2Types.data :=
                   [("merchantId", Config.merchant_id (settings env))] |} ];
          AP2Types.details :=
            {| AP2Types.details_id := cart_id;
               AP2Types.total :=
                 {| AP2Types.label := Config.description details;
                    AP2Types.amount :=
                      {| AP2Types.currency := default_currency;
                         AP2Types.value := price |};
                    AP2Types.refund_period := refund |};
               AP2Types.display_items :=
                 [ {| AP2Types.label :=
                        Models.cart_skillId validated_params +:+ " - " +:+
                        Py.slice_to 50 (Models.taskDescription validated_params);
                      AP2Types.amount :=
                        {| AP2Types.currency := default_currency;
                           AP2Types.value := price |};
                      AP2Types.refund_period := refund |} ] |} |} in
     let cart_contents :=
       {| AP2Types.contents_id := cart_id;
          AP2Types.cart_confirmation_required := true;
          AP2Types.payment_request := payment_request;
          AP2Types.cart_expiry :=
            utcnow env + hours (Config.cart_expiry_hours (settings env));
          AP2Types.merchant_name := Config.agent_name (settings env) |} in
     let cart_mandate :=
       {| AP2Types.contents := cart_contents;
          AP2Types.merchant_authorization := "MERCHANT_SIG_" +:+ cart_id |} in
     on_db (CartMandateRepository.create (utcnow env)
       {| CartMandateDB.id := cart_id;
          CartMandateDB.skill_id := Models.cart_skillId validated_params;
          CartMandateDB.task_description :=
            Some (Models.taskDescription validated_params);
          CartMandateDB.cart_data := cart_mandate;
          CartMandateDB.created_at := None;
          CartMandateDB.expires_at := AP2Types.cart_expiry cart_contents;
          CartMandateDB.is_used := false |}) ;;;
     Py.ret {| cart_success := true;
               cart_id := cart_id;
               cart_mandate := cart_mandate;
               cart_message := "Cart created. User must confirm and authorize payment." |})
    (λ e, if Py.is_ValueError e
          then Py.raise (Py.HTTPException 400 (Py.str e))
          else Py.raise (Py.HTTPException 500 "Failed to create cart")).

(** [process_payment] *)
Definition process_payment (env : Env)
    (params : Models.ProcessPaymentParams) : Py.M World PaymentResult :=
  Py.try_except
    (let validated_params := params in
     cart_db <- on_db (CartMandateRepository.get (Models.cartId validated_params)) ;;
     match cart_db with
     | None => Py.raise (Py.HTTPException 404 "Cart not found or expired")
     | Some cart_db =>
         if CartMandateDB.is_used cart_db
         then Py.raise (Py.HTTPException 400 "Cart already used")
         else if CartMandateDB.expires_at cart_db <? utcnow env
         then Py.raise (Py.HTTPException 400 "Cart expired")
         else
           let cart_mandate := CartMandateDB.cart_data cart_db in
           let payment_mandate_id := uuid4 env 0%nat in
           let total :=
             AP2Types.total (AP2Types.details
               (AP2Types.payment_request (AP2Types.contents cart_mandate))) in
           let payment_response :=
             {| AP2Types.request_id := Models.cartId validated_params;
                AP2Types.method_name :=
                  Models.method_name (Models.paymentMethod validated_params);
                AP2Types.response_details :=
                  Models.details (Models.paymentMethod validated_params);
                AP2Types.payer_name :=
                  Models.payer_name (Models.paymentMethod validated_params);
                AP2Types.payer_email :=
                  Models.payer_email (Models.paymentMethod validated_params) |} in
           let payment_mandate_contents :=
             {| AP2Types.payment_mandate_id := payment_mandate_id;
                AP2Types.payment_details_id := Models.cartId validated_params;
                AP2Types.payment_details_total := total;
                AP2Types.payment_response := payment_response;
                AP2Types.merchant_agent := Config.merchant_id (settings env);
                AP2Types.timestamp := utcnow env |} in
           let payment_mandate :=
             {| AP2Types.payment_mandate_contents := payment_mandate_contents;
                AP2Types.user_authorization :=
                  (if Py.truthy (Models.userAuthorization validated_params)
                   then default "" (Models.userAuthorization validated_params)
                   else "USER_SIG_" +:+ payment_mandate_id) |} in
           on_db (PaymentMandateRepository.create (utcnow env)
             {| PaymentMandateDB.id := payment_mandate_id;
                PaymentMandateDB.cart_id := Models.cartId validated_params;
                PaymentMandateDB.payment_data := payment_mandate;
                PaymentMandateDB.amount := AP2Types.value (AP2Types.amount total);
                PaymentMandateDB.currency :=
                  AP2Types.currency (AP2Types.amount total);
                PaymentMandateDB.status := "authorized";
                PaymentMandateDB.created_at := None;
                PaymentMandateDB.processed_at := Some (utcnow env) |}) ;;;
           on_db (CartMandateRepository.mark_used (Models.cartId validated_params)) ;;;
           let task_id := uuid4 env 1%nat in
           on_db (TaskRepository.create (utcnow env)
             {| Task.id := task_id;
                Task.skill_id := CartMandateDB.skill_id cart_db;
                Task.status := "payment_authorized";
                Task.user_message := None;
                Task.result := None;
                Task.price := AP2Types.value (AP2Types.amount total);
                Task.currency := Config.default_currency (settings env);
                Task.payment_status := Some "authorized_ap2";
                Task.payment_mandate_id := Some payment_mandate_id;
                Task.cart_id := Some (Models.cartId validated_params);
                Task.created_at := Some (utcnow env);
                Task.started_at := None;
                Task.completed_at := None;
                Task.error := None |}) ;;;
           Py.ret {| success := true;
                     task_id := task_id;
                     payment_mandate_id := payment_mandate_id;
                     payment_mandate := payment_mandate;
                     payment_status := "payment_authorized";
                     payment_message := "Payment authorized. Task will be processed." |}
     end)
    (λ e, if Py.is_HTTPException e then Py.raise e
          else Py.raise (Py.HTTPException 500 "Payment processing failed")).

(** [service_context] of [process_task] *)
Definition service_context : list (string * string) :=
  [ ("business-analysis",
     "You are a business analyst. Provide comprehensive business analysis with actionable insights.");
    ("market-research",
     "You are a market research expert. Provide detailed market analysis with data-driven insights.");
    ("strategy-planning",
     "You are a strategic planning consultant. Provide strategic recommendations and implementation plans.");
    ("quick-consult",
     "You are a business consultant. Provide quick, actionable advice.") ].

Definition newline : string := String (Ascii.ascii_of_nat 10) EmptyString.

(** The prompt built by [process_task]. *)
Definition consulting_prompt (context user_message : string) : string :=
  context +:+ newline +:+ newline +:+ "Client Request: " +:+ user_message
  +:+ newline +:+ newline +:+ "Provide professional consulting response:".

(** [process_task] *)
Definition process_task (env : Env) (task_id skill_id user_message : string)
  : Py.M World TaskResult :=
  Py.try_except
    (on_db (TaskRepository.update task_id
              [set_status "working"; set_started_at (utcnow env)]) ;;;
     context <- Py.getitem service_context skill_id ;;
     let prompt := consulting_prompt context user_message in
     result_text <- model_generate_content env prompt ;;
     on_db (TaskRepository.update task_id
              [set_status "completed"; set_result result_text;
               set_completed_at (utcnow env)]) ;;;
     details <- Py.getitem (PRICING env) skill_id ;;
     Py.ret {| taskId := task_id;
               status := "completed";
               message := Some (agent_text result_text);
               artifacts :=
                 [ {| artifact_type := "text";
                      name := skill_id +:+ "_report";
                      artifact_mimeType := "text/plain";
                      data := result_text |} ];
               metadata :=
                 Some {| service := skill_id;
                         price := Config.price details;
                         currency := Config.default_currency (settings env);
                         billable := true;
                         payment_protocol := Some "ap2" |};
               next_steps := [] |})
    (λ e,
       on_db (TaskRepository.update task_id
                [set_status "failed"; set_error (Py.str e)]) ;;;
       Py.raise (Py.HTTPException 500
                   ("Task processing failed: " +:+ Py.str e))).

(** The [next_steps] value of a [payment_required] answer. *)
Definition ap2_next_steps : list (string * list (string * string)) :=
  [ ("ap2_flow",
     [ ("1", "createIntentMandate");
       ("2", "createCartMandate");
       ("3", "processPayment") ]) ].

(** [submit_task] *)
Definition submit_task (env : Env) (params : Models.TaskParams)
  : Py.M World TaskResult :=
  Py.try_except
    (validated_params <- Models.validate_TaskParams (PRICING env) params ;;
     let task_id :=
       if Py.truthy (Models.taskId validated_params)
       then default "" (Models.taskId validated_params)
       else uuid4 env 0%nat in
     let skill_id := Models.skillId validated_params in
     let user_message :=
       Models.collect_text (Models.parts (Models.message validated_params)) "" in
     let payment_mandate_id := Models.paymentMandateId validated_params in
     let payment_required :=
       details <- Py.getitem (PRICING env) skill_id ;;
       on_db (TaskRepository.create (utcnow env)
         {| Task.id := task_id;
            Task.skill_id := skill_id;
            Task.status := "payment_required";
            Task.user_message := Some user_message;
            Task.result := None;
            Task.price := Config.price details;
            Task.currency := Config.default_currency (settings env);
            Task.payment_status := Some "pending";
            Task.payment_mandate_id := None;
            Task.cart_id := None;
            Task.created_at := Some (utcnow env);
            Task.started_at := None;
            Task.completed_at := None;
            Task.error := None |}) ;;;
       Py.ret {| taskId := task_id;
                 status := "payment_required";
                 message :=
                   Some (agent_text
                     ("Payment required: $" +:+ Py.str_float (Config.price details)
                      +:+ " " +:+ Config.default_currency (settings env)
                      +:+ ". Use AP2 flow to authorize payment."));
                 artifacts := [];
                 metadata := None;
                 next_steps := ap2_next_steps |} in
     if Py.truthy payment_mandate_id then
       payment <- on_db (PaymentMandateRepository.get (default "" payment_mandate_id)) ;;
       match payment with
       | Some payment =>
           if String.eqb (PaymentMandateDB.status payment) "authorized"
           then process_task env task_id skill_id user_message
           else payment_required
       | None => payment_required
       end
     else payment_required)
    (λ e, if Py.is_ValueError e
          then Py.raise (Py.HTTPException 400 (Py.str e))
          else Py.raise (Py.HTTPException 500 "Task submission failed")).

(** [get_task_status] *)
Definition get_task_status (params : Models.TaskStatusParams)
  : Py.M World TaskResult :=
  Py.try_except
    (let validated_params := params in
     task <- on_db (TaskRepository.get (Models.status_taskId validated_params)) ;;
     match task with
     | None => Py.raise (Py.HTTPException 404 "Task not found")
     | Some task =>
         if String.eqb (Task.status task) "completed" then
           Py.ret {| taskId := Task.id task;
                     status := Task.status task;
                     message :=
                       Some (agent_text
                         (if Py.truthy (Task.result task)
                          then default "" (Task.result task)
                          else "Task completed"));
                     artifacts := [];
                     metadata :=
                       Some {| service := Task.skill_id task;
                               price := Task.price task;
                               currency := Task.currency task;
                               billable := true;
                               payment_protocol := None |};
                     next_steps := [] |}
         else
           Py.ret {| taskId := Task.id task;
                     status := Task.status task;
                     message := None;
                     artifacts := [];
                     metadata := None;
                     next_steps := [] |}
     end)
    (λ e, if Py.is_HTTPException e then Py.raise e
          else Py.raise (Py.HTTPException 500 "Failed to get task status")).

(** [send_message] *)
Definition send_message (env : Env) (params : Models.SendMessageParams)
  : Py.M World TaskResult :=
  Py.try_except
    (let validated_params := params in
     task <- on_db (TaskRepository.get (Models.send_taskId validated_params)) ;;
     match task with
     | None => Py.raise (Py.HTTPException 404 "Task not found")
     | Some task =>
         let user_message :=
           Models.collect_text
             (Models.parts (Models.send_message validated_params)) "" in
         response_text <-
           model_generate_content env
             ("Continue the consulting conversation: " +:+ user_message) ;;
         Py.ret {| taskId := Models.send_taskId validated_params;
                   status := "working";
                   message := Some (agent_text response_text);
                   artifacts := [];
                   metadata := None;
                   next_steps := [] |}
     end)
    (λ e, if Py.is_HTTPException e then Py.raise e
          else Py.raise (Py.HTTPException 500 "Failed to send message")).

End AgentProduction.

(** ** agent_ap2.py: the variant that keeps its tables in module-level
       dicts *)

Module AgentAP2.

Definition AGENT_NAME : string := "Business Consultant Agent (AP2)".
Definition MERCHANT_ID : string := "consulting-agent-merchant-001".

(** A value of the [tasks] dict; a key that was never assigned is
    [None]. *)
Record TaskDict : Type := {
  skillId : string;
  status : string;
  cartId : option string;
  paymentMandateId : option string;
  userMessage : option string;
  price : Z;
  currency : string;
  paymentStatus : option string;
  startTime : Z;
  result : option string;
  completedTime : option Z;
  error : option string
}.

(** The module-level dicts, and the prompts sent to the engine so far. *)
Record World : Type := {
  tasks : gmap string TaskDict;
  cart_mandates : gmap string AP2Types.CartMandate;
  payment_mandates : gmap string AP2Types.PaymentMandate;
  engine_calls : list string
}.

Definition start : World := {|
  tasks := ∅; cart_mandates := ∅; payment_mandates := ∅; engine_calls := []
|}.

Definition with_tasks (f : gmap string TaskDict → gmap string TaskDict)
    (w : World) : World :=
  {| tasks := f (tasks w); cart_mandates := cart_mandates w;
     payment_mandates := payment_mandates w;
     engine_calls := engine_calls w |}.

Definition with_cart_mandates
    (f : gmap string AP2Types.CartMandate → gmap string AP2Types.CartMandate)
    (w : World) : World :=
  {| tasks := tasks w; cart_mandates := f (cart_mandates w);
     payment_mandates := payment_mandates w;
     engine_calls := engine_calls w |}.

Definition with_payment_mandates
    (f : gmap string AP2Types.PaymentMandate → gmap string AP2Types.PaymentMandate)
    (w : World) : World :=
  {| tasks := tasks w; cart_mandates := cart_mandates w;
     payment_mandates := f (payment_mandates w);
     engine_calls := engine_calls w |}.

Definition model_generate_content (env : Env) (prompt : string)
  : Py.M World string :=
  λ w, let w' := {| tasks := tasks w; cart_mandates := cart_mandates w;
                    payment_mandates := payment_mandates w;
                    engine_calls := prompt :: engine_calls w |} in
       match generate_content env prompt with
       | inl text => (Py.Return text, w')
       | inr msg => (Py.Raise (Py.Exception msg), w')
       end.

(** Request parameters are read with [params.get]: a missing key is
    [None]. *)
Record CartParams : Type := {
  cart_skillId : option string;
  taskDescription : option string
}.

Record PaymentMethod : Type := {
  method_name : option string;
  details : option (list (string * string));
  payer_name : option string;
  payer_email : option string
}.

Record PaymentParams : Type := {
  payment_cartId : option string;
  paymentMethod : option PaymentMethod;
  userAuthorization : option string
}.

Record Part : Type := {
  type : option string;
  text : option string
}.

Record TaskParams : Type := {
  task_taskId : option string;
  task_skillId : option string;
  message_parts : option (list Part);
  task_paymentMandateId : option string
}.

Inductive CartResult : Type :=
| cart_error (error : string)
| cart_created (cart_id : string) (cart_mandate : AP2Types.CartMandate)
    (message : string).

Inductive PaymentResult : Type :=
| payment_error (error : string)
| payment_done (task_id payment_mandate_id : string)
    (payment_mandate : AP2Types.PaymentMandate) (status message : string).

(** The ["success"] entry of an answer. *)
Definition payment_success (r : PaymentResult) : bool :=
  match r with payment_error _ => false | payment_done _ _ _ _ _ => true end.

Record TaskResult : Type := {
  taskId : option string;
  result_status : string;
  message : option Models.Message;
  artifacts : list AgentProduction.Artifact;
  metadata : option AgentProduction.Metadata;
  next_steps : list (string * list (string * string))
}.

(** [str(x)] of an optional string inside an f-string. *)
Definition fmt (o : option string) : string := default "None" o.

(** [k in d] for a key that may be [None]. *)
Definition has_opt_key {A} (k : option string) (d : list (string * A)) : bool :=
  match k with Some k => Py.has_key k d | None => false end.

(** [create_cart_mandate] *)
Definition create_cart_mandate (env : Env) (params : CartParams)
  : Py.M World CartResult :=
  let skill_id := cart_skillId params in
  let task_description := default "" (taskDescription params) in
  if negb (has_opt_key skill_id (PRICING env))
  then Py.ret (cart_error ("Unknown service: " +:+ fmt skill_id))
  else
    let skill_id := default "" skill_id in
    let cart_id := uuid4 env 0%nat in
    details <- Py.getitem (PRICING env) skill_id ;;
    let price := Config.price details in
    let payment_request :=
      {| AP2Types.method_data :=
           [ {| AP2Types.supported_methods := "https://pay.google.com/payment";
                AP2Types.data := [("merchantId", MERCHANT_ID)] |} ];
         AP2Types.details :=
           {| AP2Types.details_id := cart_id;
              AP2Types.total :=
                {| AP2Types.label := Config.description details;
                   AP2Types.amount :=
                     {| AP2Types.currency := "USD"; AP2Types.value := price |};
                   AP2Types.refund_period := 30 |};
              AP2Types.display_items :=
                [ {| AP2Types.label :=
                       skill_id +:+ " - " +:+ Py.slice_to 50 task_description;
                     AP2Types.amount :=
                       {| AP2Types.currency := "USD"; AP2Types.value := price |};
                     AP2Types.refund_period := 30 |} ] |} |} in
    let cart_contents :=
      {| AP2Types.contents_id := cart_id;
         AP2Types.cart_confirmation_required := true;
         AP2Types.payment_request := payment_request;
         AP2Types.cart_expiry := utcnow env + hours 1;
         AP2Types.merchant_name := AGENT_NAME |} in
    let cart_mandate :=
      {| AP2Types.contents := cart_contents;
         AP2Types.merchant_authorization := "MERCHANT_SIG_" +:+ cart_id |} in
    Py.modify (with_cart_mandates (insert cart_id cart_mandate)) ;;;
    Py.ret (cart_created cart_id cart_mandate
              "Cart created. User must confirm and authorize payment.").

(** The inner loop of the skill extraction: the first key of the
    catalogue that occurs in the label. *)
Definition first_skill_in (label : string) (keys : list string)
  : option string :=
  List.find (λ skill, Py.contains skill label) keys.

(** The outer loop: every display item is looked at, a later match
    replaces an earlier one. *)
Fixpoint extract_skill (keys : list string) (items : list AP2Types.PaymentItem)
    (skill_id : option string) : option string :=
  match items with
  | [] => skill_id
  | item :: items' =>
      extract_skill keys items'
        (match first_skill_in (AP2Types.label item) keys with
         | Some skill => Some skill
         | None => skill_id
         end)
  end.

(** [process_payment] *)
Definition process_payment (env : Env) (params : PaymentParams)
  : Py.M World PaymentResult :=
  let cart_id := payment_cartId params in
  let payment_method :=
    default {| method_name := None; details := None;
               payer_name := None; payer_email := None |}
            (paymentMethod params) in
  let user_authorization := default "" (userAuthorization params) in
  found <- Py.gets (λ w, cart_id ≫= λ c, cart_mandates w !! c) ;;
  match cart_id, found with
  | Some cart_id, Some cart_mandate =>
      let payment_mandate_id := uuid4 env 0%nat in
      let total :=
        AP2Types.total (AP2Types.details
          (AP2Types.payment_request (AP2Types.contents cart_mandate))) in
      let payment_response :=
        {| AP2Types.request_id := cart_id;
           AP2Types.method_name := default "card" (method_name payment_method);
           AP2Types.response_details := default [] (details payment_method);
           AP2Types.payer_name := payer_name payment_method;
           AP2Types.payer_email := payer_email payment_method |} in
      let payment_mandate_contents :=
        {| AP2Types.payment_mandate_id := payment_mandate_id;
           AP2Types.payment_details_id := cart_id;
           AP2Types.payment_details_total := total;
           AP2Types.payment_response := payment_response;
           AP2Types.merchant_agent := MERCHANT_ID;
           AP2Types.timestamp := utcnow env |} in
      let payment_mandate :=
        {| AP2Types.payment_mandate_contents := payment_mandate_contents;
           AP2Types.user_authorization :=
             (if Py.truthy (Some user_authorization) then user_authorization
              else "USER_SIG_" +:+ payment_mandate_id) |} in
      Py.modify (with_payment_mandates (insert payment_mandate_id payment_mandate)) ;;;
      let task_id := uuid4 env 1%nat in
      let skill_id :=
        extract_skill (fst <$> PRICING env)
          (AP2Types.display_items (AP2Types.details
             (AP2Types.payment_request (AP2Types.contents cart_mandate))))
          None in
      if negb (Py.truthy skill_id)
      then Py.ret (payment_error "Could not determine service type from cart")
      else
        Py.modify (with_tasks (insert task_id
          {| skillId := default "" skill_id;
             status := "payment_authorized";
             cartId := Some cart_id;
             paymentMandateId := Some payment_mandate_id;
             userMessage := None;
             price := AP2Types.value (AP2Types.amount total);
             currency := "USD";
             paymentStatus := None;
             startTime := utcnow env;
             result := None;
             completedTime := None;
             error := None |})) ;;;
        Py.ret (payment_done task_id payment_mandate_id payment_mandate
                  "payment_authorized"
                  "Payment authorized. Task will be processed.")
  | _, _ => Py.ret (payment_error "Cart not found or expired")
  end.

(** [tasks[task_id][key] = value]; [KeyError] when the task is missing. *)
Definition update_task (task_id : string) (f : TaskDict → TaskDict)
  : Py.M World unit :=
  λ w, match tasks w !! task_id with
       | Some t => (Py.Return tt, with_tasks (insert task_id (f t)) w)
       | None => (Py.Raise (Py.Exception ("'" +:+ task_id +:+ "'")), w)
       end.

Definition set_completed (result_text : string) (now : Z) (t : TaskDict)
  : TaskDict :=
  {| skillId := skillId t; status := "completed"; cartId := cartId t;
     paymentMandateId := paymentMandateId t; userMessage := userMessage t;
     price := price t; currency := currency t;
     paymentStatus := paymentStatus t; startTime := startTime t;
     result := Some result_text; completedTime := Some now;
     error := error t |}.

Definition set_failed (msg : string) (t : TaskDict) : TaskDict :=
  {| skillId := skillId t; status := "failed"; cartId := cartId t;
     paymentMandateId := paymentMandateId t; userMessage := userMessage t;
     price := price t; currency := currency t;
     paymentStatus := paymentStatus t; startTime := startTime t;
     result := result t; completedTime := completedTime t;
     error := Some msg |}.

(** [process_task] *)
Definition process_task (env : Env) (task_id skill_id user_message : string)
  : Py.M World TaskResult :=
  Py.try_except
    (context <- Py.getitem AgentProduction.service_context skill_id ;;
     let prompt := AgentProduction.consulting_prompt context user_message in
     result_text <- model_generate_content env prompt ;;
     update_task task_id (set_completed result_text (utcnow env)) ;;;
     details <- Py.getitem (PRICING env) skill_id ;;
     Py.ret {| taskId := Some task_id;
               result_status := "completed";
               message := Some (AgentProduction.agent_text result_text);
               artifacts :=
                 [ {| AgentProduction.artifact_type := "text";
                      AgentProduction.name := skill_id +:+ "_report";
                      AgentProduction.artifact_mimeType := "text/plain";
                      AgentProduction.data := result_text |} ];
               metadata :=
                 Some {| AgentProduction.service := skill_id;
                         AgentProduction.price := Config.price details;
                         AgentProduction.currency := "USD";
                         AgentProduction.billable := true;
                         AgentProduction.payment_protocol := Some "ap2" |};
               next_steps := [] |})
    (λ e,
       update_task task_id (set_failed (Py.str e)) ;;;
       Py.ret {| taskId := Some task_id;
                 result_status := "failed";
                 message :=
                   Some (AgentProduction.agent_text
                           ("Error processing request: " +:+ Py.str e));
                 artifacts := [];
                 metadata := None;
                 next_steps := [] |}).

(** The loop of [submit_task] and [send_message] over the parts:
    [if part.get("type") == "text": user_message += part.get("text", "")] *)
Fixpoint collect_text (ps : list Part) (acc : string) : string :=
  match ps with
  | [] => acc
  | p :: ps' =>
      match type p with
      | Some ty =>
          if String.eqb ty "text"
          then collect_text ps' (acc +:+ default "" (text p))
          else collect_text ps' acc
      | None => collect_text ps' acc
      end
  end.

(** [submit_task] *)
Definition submit_task (env : Env) (params : TaskParams)
  : Py.M World TaskResult :=
  let task_id :=
    if Py.truthy (task_taskId params) then default "" (task_taskId params)
    else uuid4 env 0%nat in
  let skill_id := task_skillId params in
  let payment_mandate_id := task_paymentMandateId params in
  if negb (has_opt_key skill_id (PRICING env))
  then Py.ret {| taskId := Some task_id;
                 result_status := "failed";
                 message :=
                   Some (AgentProduction.agent_text
                           ("Unknown service: " +:+ fmt skill_id));
                 artifacts := [];
                 metadata := None;
                 next_steps := [] |}
  else
    let skill_id := default "" skill_id in
    let user_message := collect_text (default [] (message_parts params)) "" in
    known <- Py.gets (λ w,
      bool_decide (is_Some (payment_mandate_id ≫= λ p, payment_mandates w !! p))) ;;
    let payment_status :=
      if Py.truthy payment_mandate_id && known
      then "authorized_ap2" else "payment_required" in
    details <- Py.getitem (PRICING env) skill_id ;;
    stored <- Py.gets (λ w, bool_decide (is_Some (tasks w !! task_id))) ;;
    (if negb stored
     then Py.modify (with_tasks (insert task_id
            {| skillId := skill_id;
               status :=
                 (if String.eqb payment_status "authorized_ap2"
                  then "working" else "payment_required");
               cartId := None;
               paymentMandateId := None;
               userMessage := Some user_message;
               price := Config.price details;
               currency := "USD";
               paymentStatus := Some payment_status;
               startTime := utcnow env;
               result := None;
               completedTime := None;
               error := None |}))
     else Py.ret tt) ;;;
    if String.eqb payment_status "authorized_ap2"
    then process_task env task_id skill_id user_message
    else Py.ret {| taskId := Some task_id;
                   result_status := "payment_required";
                   message :=
                     Some (AgentProduction.agent_text
                       ("Payment required: $" +:+ Py.str_float (Config.price details)
                        +:+ " USD. Use AP2 flow or provide payment."));
                   artifacts := [];
                   metadata := None;
                   next_steps := AgentProduction.ap2_next_steps |}.

(** [get_task_status] *)
Definition get_task_status (task_id : option string) : Py.M World TaskResult :=
  found <- Py.gets (λ w, task_id ≫= λ i, tasks w !! i) ;;
  match found with
  | None =>
      Py.ret {| taskId := task_id;
                result_status := "failed";
                message := Some (AgentProduction.agent_text "Task not found");
                artifacts := [];
                metadata := None;
                next_steps := [] |}
  | Some task =>
      if String.eqb (status task) "completed" then
        Py.ret {| taskId := task_id;
                  result_status := status task;
                  message :=
                    Some (AgentProduction.agent_text
                            (default "Task completed" (result task)));
                  artifacts := [];
                  metadata :=
                    Some {| AgentProduction.service := skillId task;
                            AgentProduction.price := price task;
                            AgentProduction.currency := currency task;
                            AgentProduction.billable := true;
                            AgentProduction.payment_protocol := None |};
                  next_steps := [] |}
      else
        Py.ret {| taskId := task_id;
                  result_status := status task;
                  message := None;
                  artifacts := [];
                  metadata := None;
                  next_steps := [] |}
  end.

Record IntentParams : Type := {
  intent_description : option string;
  intent_skillId : option string
}.

Inductive IntentResult : Type :=
| intent_error (error : string)
| intent_created (intent_mandate : AP2Types.IntentMandate) (message : string).

(** [create_intent_mandate] *)
Definition create_intent_mandate (env : Env) (params : IntentParams)
  : Py.M World IntentResult :=
  let natural_language_description := default "" (intent_description params) in
  let skill_id := intent_skillId params in
  if Py.truthy skill_id && negb (has_opt_key skill_id (PRICING env))
  then Py.ret (intent_error ("Unknown service: " +:+ fmt skill_id))
  else
    Py.ret (intent_created
      {| AP2Types.user_cart_confirmation_required := true;
         AP2Types.natural_language_description := natural_language_description;
         AP2Types.merchants := [MERCHANT_ID];
         AP2Types.skus :=
           (if Py.truthy skill_id then (λ s, [s]) <$> skill_id else None);
         AP2Types.requires_refundability := true;
         AP2Types.intent_expiry := utcnow env + hours 24 |}
      "Intent mandate created. Proceed to create cart.").

Record MessageParams : Type := {
  send_taskId : option string;
  send_parts : option (list Part)
}.

(** [send_message]: the engine is called outside any [try]. *)
Definition send_message (env : Env) (params : MessageParams)
  : Py.M World TaskResult :=
  let task_id := send_taskId params in
  found <- Py.gets (λ w, task_id ≫= λ i, tasks w !! i) ;;
  match found with
  | None =>
      Py.ret {| taskId := task_id;
                result_status := "failed";
                message := None;
                artifacts := [];
                metadata := None;
                next_steps := [] |}
  | Some _ =>
      let user_message := collect_text (default [] (send_parts params)) "" in
      response_text <-
        model_generate_content env
          ("Continue the consulting conversation: " +:+ user_message) ;;
      Py.ret {| taskId := task_id;
                result_status := "working";
                message := Some (AgentProduction.agent_text response_text);
                artifacts := [];
                metadata := None;
                next_steps := [] |}
  end.

(** The methods of the endpoint with their parameters. *)
Inductive Request : Type :=
| submitTask (params : TaskParams)
| getTaskStatus (task_id : option string)
| sendMessage (params : MessageParams)
| createIntentMandate (params : IntentParams)
| createCartMandate (params : CartParams)
| processPayment (params : PaymentParams)
| other_method (method : option string).

Inductive Result : Type :=
| task_result (r : TaskResult)
| intent_result (r : IntentResult)
| cart_result (r : CartResult)
| payment_result (r : PaymentResult).

(** The body of a JSON-RPC answer: a result, or an error with its code. *)
Inductive Content : Type :=
| rpc_result (r : Result)
| rpc_error (code : Z) (message : string).

(** [handle_a2a_request]: an exception of a handler is not caught
    here. *)
Definition handle_a2a_request (env : Env) (req : Request)
  : Py.M World Content :=
  match req with
  | submitTask p => r <- submit_task env p ;; Py.ret (rpc_result (task_result r))
  | getTaskStatus i => r <- get_task_status i ;; Py.ret (rpc_result (task_result r))
  | sendMessage p => r <- send_message env p ;; Py.ret (rpc_result (task_result r))
  | createIntentMandate p =>
      r <- create_intent_mandate env p ;; Py.ret (rpc_result (intent_result r))
  | createCartMandate p =>
      r <- create_cart_mandate env p ;; Py.ret (rpc_result (cart_result r))
  | processPayment p =>
      r <- process_payment env p ;; Py.ret (rpc_result (payment_result r))
  | other_method m =>
      Py.ret (rpc_error (-32601) ("Method not found: " +:+ fmt m))
  end.

End AgentAP2.

(** ** The endpoint of agent_production.py *)

Module A2A.
Import AgentProduction.

(** The methods of the endpoint with their parameters, as the pydantic
    model of the method holds them once it is built; [other_method] is any
    method that is not in the [handlers] table. *)
Inductive Request : Type :=
| submitTask (params : Models.TaskParams)
| getTaskStatus (params : Models.TaskStatusParams)
| sendMessage (params : Models.SendMessageParams)
| createIntentMandate (params : Models.IntentMandateParams)
| createCartMandate (params : Models.CartMandateParams)
| processPayment (params : Models.ProcessPaymentParams)
| other_method (method : string).

Inductive Result : Type :=
| task_result (r : TaskResult)
| intent_result (r : IntentResult)
| cart_result (r : CartResult)
| payment_result (r : PaymentResult).

(** The [handlers] table and the call of the handler found. *)
Definition handler (env : Env) (req : Request) : Py.M World Result :=
  match req with
  | submitTask p => r <- submit_task env p ;; Py.ret (task_result r)
  | getTaskStatus p => r <- get_task_status p ;; Py.ret (task_result r)
  | sendMessage p => r <- send_message env p ;; Py.ret (task_result r)
  | createIntentMandate p =>
      r <- create_intent_mandate env p ;; Py.ret (intent_result r)
  | createCartMandate p =>
      r <- create_cart_mandate env p ;; Py.ret (cart_result r)
  | processPayment p =>
      r <- process_payment env p ;; Py.ret (payment_result r)
  | other_method m =>
      Py.raise (Py.HTTPException 400 ("Method not found: " +:+ m))
  end.

Inductive Content : Type :=
| rpc_result (r : Result)
| rpc_error (code : Z) (message : string).

Record JSONResponse : Type := {
  status_code : Z;
  content : Content
}.

(** [handle_a2a_request]: every exception becomes an error answer. *)
Definition handle_a2a_request (env : Env) (req : Request) (w : World)
  : JSONResponse * World :=
  match handler env req w with
  | (Py.Return r, w') =>
      ({| status_code := 200; content := rpc_result r |}, w')
  | (Py.Raise (Py.HTTPException code detail), w') =>
      ({| status_code := code; content := rpc_error code detail |}, w')
  | (Py.Raise _, w') =>
      ({| status_code := 500; content := rpc_error (-32603) "Internal error" |}, w')
  end.

(** Requests served one after the other, each in its environment. *)
Fixpoint serve (reqs : list (Env * Request)) (w : World)
  : list JSONResponse * World :=
  match reqs with
  | [] => ([], w)
  | (env, req) :: reqs' =>
      let '(r, w') := handle_a2a_request env req w in
      let '(rs, w'') := serve reqs' w' in
      (r :: rs, w'')
  end.

End A2A.

(** ** middleware.py: the rate limiter

    [time.time()] is read in whole seconds, so that [int] of a difference
    of times is the difference itself. *)

Module Middleware.

(** [RateLimitMiddleware]: the limits and, for every client address, the
    times of its admitted requests, oldest first. *)
Record RateLimitMiddleware : Type := {
  calls : Z;
  period : Z;
  clients : gmap string (list Z)
}.

(** [RateLimitMiddleware(app, calls, period)] *)
Definition init (calls period : Z) : RateLimitMiddleware :=
  {| calls := calls; period := period; clients := ∅ |}.

(** [while client_history and client_history[0] < cutoff:
       client_history.popleft()] *)
Fixpoint clean (cutoff : Z) (client_history : list Z) : list Z :=
  match client_history with
  | [] => []
  | (t :: rest)%list => if t <? cutoff then clean cutoff rest else client_history
  end.

Inductive Verdict : Type :=
| call_next
| rate_limit_exceeded (retry_after : Z).

(** [dispatch]: the verdict on a request of [client_ip] at time [now]. *)
Definition dispatch (client_ip : string) (now : Z)
  : Py.M RateLimitMiddleware Verdict :=
  λ self,
    let client_history :=
      clean (now - period self) (default [] (clients self !! client_ip)) in
    let cleaned :=
      {| calls := calls self; period := period self;
         clients := <[client_ip := client_history]> (clients self) |} in
    if calls self <=? Z.of_nat (List.length client_history) then
      match client_history with
      | [] => (Py.Raise (Py.Exception "deque index out of range"), cleaned)
      | (oldest :: _)%list =>
          (Py.Return (rate_limit_exceeded (period self - (now - oldest))), cleaned)
      end
    else
      (Py.Return call_next,
       {| calls := calls self; period := period self;
          clients := <[client_ip := (client_history ++ [now])%list]> (clients self) |}).

(** The recorded times of a client. *)
Definition history (client_ip : string) (self : RateLimitMiddleware) : list Z :=
  default [] (clients self !! client_ip).

(** Requests of one client at the given times, one after the other; the
    verdicts, a raised exception counting as none. *)
Fixpoint dispatch_all (client_ip : string) (times : list Z)
    (self : RateLimitMiddleware) : list (option Verdict) * RateLimitMiddleware :=
  match times with
  | [] => ([], self)
  | now :: times' =>
      let '(r, self') := dispatch client_ip now self in
      let '(rs, self'') := dispatch_all client_ip times' self' in
      (match r with Py.Return v => Some v | Py.Raise _ => None end :: rs, self'')
  end.

(** The times of the requests that were admitted. *)
Fixpoint admitted (times : list Z) (verdicts : list (option Verdict)) : list Z :=
  match times, verdicts with
  | (now :: times')%list, (Some call_next :: verdicts')%list =>
      (now :: admitted times' verdicts')%list
  | (_ :: times')%list, (_ :: verdicts')%list => admitted times' verdicts'
  | _, _ => []
  end.

End Middleware.

(** ** What the properties are stated with *)

Module Observations.
Import Database.

(** A computation whose final state is always related to its initial
    one by [R]. *)
Definition within {St A} (R : St → St → Prop) (c : Py.M St A) : Prop :=
  ∀ s, R s (c s).2.

Section Production.
Import AgentProduction.

(** The stored payment mandates that name cart [c]. *)
Definition payments_for (c : string) (w : World)
  : gmap string PaymentMandateDB.t :=
  filter (λ kv, PaymentMandateDB.cart_id kv.2 = c) (payment_mandates (db w)).

(** Cart [c] is stored with [is_used] set. *)
Definition cart_used (c : string) (w : World) : bool :=
  match cart_mandates (db w) !! c with
  | Some cart => CartMandateDB.is_used cart
  | None => false
  end.

(** The request is a [processPayment] on cart [c] and its answer is a
    result with [success] true. *)
Definition payment_ok (c : string) (req : A2A.Request)
    (r : A2A.JSONResponse) : bool :=
  match req, A2A.content r with
  | A2A.processPayment p, A2A.rpc_result (A2A.payment_result a) =>
      bool_decide (Models.cartId p = c) && success a
  | _, _ => false
  end.

(** How many [processPayment] calls on cart [c] succeeded. *)
Fixpoint successes (c : string) (reqs : list (Env * A2A.Request))
    (rs : list A2A.JSONResponse) : nat :=
  match reqs, rs with
  | (_, req) :: reqs', r :: rs' =>
      ((if payment_ok c req r then 1 else 0) + successes c reqs' rs')%nat
  | _, _ => 0%nat
  end.

(** Only the task table and the engine log may differ. *)
Definition same_mandates (w w' : World) : Prop :=
  cart_mandates (db w') = cart_mandates (db w) ∧
  payment_mandates (db w') = payment_mandates (db w).

(** Every stored task is still stored, with the price and currency it
    had. *)
Definition keeps_billing (w w' : World) : Prop :=
  ∀ i t, tasks (db w) !! i = Some t →
    ∃ t', tasks (db w') !! i = Some t' ∧
          Task.price t' = Task.price t ∧ Task.currency t' = Task.currency t.

(** The row of task [i], when stored, is left as it is. *)
Definition keeps_row (i : string) (w w' : World) : Prop :=
  ∀ t, tasks (db w) !! i = Some t → tasks (db w') !! i = Some t.

(** The state after [TaskRepository.update]. *)
Definition updated (task_id : string) (updates : list TaskUpdate)
    (w : World) : World :=
  (on_db (TaskRepository.update task_id updates) w).2.

(** The state after a prompt was sent to the engine. *)
Definition prompted (prompt : string) (w : World) : World :=
  {| db := db w; engine_calls := prompt :: engine_calls w |}.

(** The task id [submit_task] works on. *)
Definition task_id_of (env : Env) (p : Models.TaskParams) : string :=
  if Py.truthy (Models.taskId p) then default "" (Models.taskId p)
  else uuid4 env 0%nat.

(** [paymentMandateId] is given and names a stored payment mandate
    whose status is [authorized]. *)
Definition authorized (p : Models.TaskParams) (w : World) : bool :=
  Py.truthy (Models.paymentMandateId p) &&
  match payment_mandates (db w) !! default "" (Models.paymentMandateId p) with
  | Some payment => String.eqb (PaymentMandateDB.status payment) "authorized"
  | None => false
  end.

(** The row [submit_task] stores on the [payment_required] path. *)
Definition required_row (env : Env) (p : Models.TaskParams)
    (details : Config.SkillDetails) : Task.t :=
  {| Task.id := task_id_of env p;
     Task.skill_id := Models.skillId p;
     Task.status := "payment_required";
     Task.user_message :=
       Some (Models.collect_text (Models.parts (Models.message p)) "");
     Task.result := None;
     Task.price := Config.price details;
     Task.currency := Config.default_currency (settings env);
     Task.payment_status := Some "pending";
     Task.payment_mandate_id := None;
     Task.cart_id := None;
     Task.created_at := Some (utcnow env);
     Task.started_at := None;
     Task.completed_at := None;
     Task.error := None |}.

(** The answer of [submit_task] on the [payment_required] path. *)
Definition required_answer (env : Env) (p : Models.TaskParams)
    (details : Config.SkillDetails) : TaskResult :=
  {| taskId := task_id_of env p;
     status := "payment_required";
     message :=
       Some (agent_text
         ("Payment required: $" +:+ Py.str_float (Config.price details)
          +:+ " " +:+ Config.default_currency (settings env)
          +:+ ". Use AP2 flow to authorize payment."));
     artifacts := [];
     metadata := None;
     next_steps := ap2_next_steps |}.

(** The answer of [process_task] when the engine returned [text]. *)
Definition completed_answer (env : Env) (task_id skill_id text : string)
    (details : Config.SkillDetails) : TaskResult :=
  {| taskId := task_id;
     status := "completed";
     message := Some (agent_text text);
     artifacts :=
       [ {| artifact_type := "text";
            name := skill_id +:+ "_report";
            artifact_mimeType := "text/plain";
            data := text |} ];
     metadata :=
       Some {| service := skill_id;
               price := Config.price details;
               currency := Config.default_currency (settings env);
               billable := true;
               payment_protocol := Some "ap2" |};
     next_steps := [] |}.

(** The request is a [submitTask] that works on task [i] and carries an
    authorized payment mandate. *)
Definition reruns (i : string) (env : Env) (req : A2A.Request)
    (w : World) : Prop :=
  match req with
  | A2A.submitTask p =>
      Py.has_key (Models.skillId p) (PRICING env) = true ∧
      task_id_of env p = i ∧ authorized p w = true
  | _ => False
  end.

(** The cart mandate [create_cart_mandate] builds. *)
Definition new_cart_mandate (env : Env) (p : Models.CartMandateParams)
    (details : Config.SkillDetails) : AP2Types.CartMandate :=
  let cart_id := uuid4 env 0%nat in
  let amount :=
    {| AP2Types.currency := Config.default_currency (settings env);
       AP2Types.value := Config.price details |} in
  let refund := Config.refund_period_days (settings env) in
  {| AP2Types.contents :=
       {| AP2Types.contents_id := cart_id;
          AP2Types.cart_confirmation_required := true;
          AP2Types.payment_request :=
            {| AP2Types.method_data :=
                 [ {| AP2Types.supported_methods :=
                        "https://pay.google.com/payment";
                      AP2Types.data :=
                        [("merchantId", Config.merchant_id (settings env))] |} ];
               AP2Types.details :=
                 {| AP2Types.details_id := cart_id;
                    AP2Types.total :=
                      {| AP2Types.label := Config.description details;
                         AP2Types.amount := amount;
                         AP2Types.refund_period := refund |};
                    AP2Types.display_items :=
                      [ {| AP2Types.label :=
                             Models.cart_skillId p +:+ " - " +:+
                             Py.slice_to 50 (Models.taskDescription p);
                           AP2Types.amount := amount;
                           AP2Types.refund_period := refund |} ] |} |};
          AP2Types.cart_expiry :=
            utcnow env + hours (Config.cart_expiry_hours (settings env));
          AP2Types.merchant_name := Config.agent_name (settings env) |};
     AP2Types.merchant_authorization := "MERCHANT_SIG_" +:+ cart_id |}.

(** The row it stores. *)
Definition new_cart_row (env : Env) (p : Models.CartMandateParams)
    (details : Config.SkillDetails) : CartMandateDB.t :=
  {| CartMandateDB.id := uuid4 env 0%nat;
     CartMandateDB.skill_id := Models.cart_skillId p;
     CartMandateDB.task_description := Some (Models.taskDescription p);
     CartMandateDB.cart_data := new_cart_mandate env p details;
     CartMandateDB.created_at := Some (utcnow env);
     CartMandateDB.expires_at :=
       utcnow env + hours (Config.cart_expiry_hours (settings env));
     CartMandateDB.is_used := false |}.

(** The total of a stored cart. *)
Definition the_total (cart_db : CartMandateDB.t) : AP2Types.PaymentItem :=
  AP2Types.total (AP2Types.details (AP2Types.payment_request
    (AP2Types.contents (CartMandateDB.cart_data cart_db)))).

(** The payment mandate [process_payment] builds for the cart it read. *)
Definition the_payment_mandate (env : Env)
    (params : Models.ProcessPaymentParams) (cart_db : CartMandateDB.t)
  : AP2Types.PaymentMandate :=
  {| AP2Types.payment_mandate_contents :=
       {| AP2Types.payment_mandate_id := uuid4 env 0%nat;
          AP2Types.payment_details_id := Models.cartId params;
          AP2Types.payment_details_total := the_total cart_db;
          AP2Types.payment_response :=
            {| AP2Types.request_id := Models.cartId params;
               AP2Types.method_name :=
                 Models.method_name (Models.paymentMethod params);
               AP2Types.response_details :=
                 Models.details (Models.paymentMethod params);
               AP2Types.payer_name :=
                 Models.payer_name (Models.paymentMethod params);
               AP2Types.payer_email :=
                 Models.payer_email (Models.paymentMethod params) |};
          AP2Types.merchant_agent := Config.merchant_id (settings env);
          AP2Types.timestamp := utcnow env |};
     AP2Types.user_authorization :=
       (if Py.truthy (Models.userAuthorization params)
        then default "" (Models.userAuthorization params)
        else "USER_SIG_" +:+ uuid4 env 0%nat) |}.

(** The payment mandate row it stores. *)
Definition the_payment_row (env : Env)
    (params : Models.ProcessPaymentParams) (cart_db : CartMandateDB.t)
  : PaymentMandateDB.t :=
  {| PaymentMandateDB.id := uuid4 env 0%nat;
     PaymentMandateDB.cart_id := Models.cartId params;
     PaymentMandateDB.payment_data := the_payment_mandate env params cart_db;
     PaymentMandateDB.amount := AP2Types.value (AP2Types.amount (the_total cart_db));
     PaymentMandateDB.currency :=
       AP2Types.currency (AP2Types.amount (the_total cart_db));
     PaymentMandateDB.status := "authorized";
     PaymentMandateDB.created_at := Some (utcnow env);
     PaymentMandateDB.processed_at := Some (utcnow env) |}.

(** The task row it stores. *)
Definition the_task_row (env : Env)
    (params : Models.ProcessPaymentParams) (cart_db : CartMandateDB.t)
  : Task.t :=
  {| Task.id := uuid4 env 1%nat;
     Task.skill_id := CartMandateDB.skill_id cart_db;
     Task.status := "payment_authorized";
     Task.user_message := None;
     Task.result := None;
     Task.price := AP2Types.value (AP2Types.amount (the_total cart_db));
     Task.currency := Config.default_currency (settings env);
     Task.payment_status := Some "authorized_ap2";
     Task.payment_mandate_id := Some (uuid4 env 0%nat);
     Task.cart_id := Some (Models.cartId params);
     Task.created_at := Some (utcnow env);
     Task.started_at := None;
     Task.completed_at := None;
     Task.error := None |}.

(** Its answer. *)
Definition the_answer (env : Env)
    (params : Models.ProcessPaymentParams) (cart_db : CartMandateDB.t)
  : PaymentResult :=
  {| success := true;
     task_id := uuid4 env 1%nat;
     payment_mandate_id := uuid4 env 0%nat;
     payment_mandate := the_payment_mandate env params cart_db;
     payment_status := "payment_authorized";
     payment_message := "Payment authorized. Task will be processed." |}.

(** With [n] successful payments on cart [c] so far: none of them and
    no payment mandate while the cart is unused, at most one of each
    once it is used. *)
Definition single_use_inv (c : string) (n : nat) (w : World) : Prop :=
  (n ≤ if cart_used c w then 1 else 0)%nat ∧
  (size (payments_for c w) ≤ if cart_used c w then 1 else 0)%nat.

End Production.

Section InMemory.
Import AgentAP2.

(** The task id [AgentAP2.submit_task] works on. *)
Definition ap2_task_id_of (env : Env) (p : TaskParams) : string :=
  if Py.truthy (task_taskId p) then default "" (task_taskId p)
  else uuid4 env 0%nat.

(** [paymentMandateId] is given and is a key of [payment_mandates]. *)
Definition ap2_authorized (p : TaskParams) (w : World) : bool :=
  Py.truthy (task_paymentMandateId p) &&
  bool_decide (is_Some (task_paymentMandateId p ≫= λ i, payment_mandates w !! i)).

(** The request writes to the entry of task [i] when that entry exists: a
    [submitTask] on [i] carrying a stored payment mandate, or a
    [processPayment] whose new task id is [i]. *)
Definition ap2_rewrites (i : string) (env : Env) (req : Request)
    (w : World) : Prop :=
  match req with
  | submitTask p =>
      has_opt_key (task_skillId p) (PRICING env) = true ∧
      ap2_task_id_of env p = i ∧ ap2_authorized p w = true
  | processPayment p => uuid4 env 1%nat = i
  | _ => False
  end.

(** The entry of task [i], when there is one, is left as it is. *)
Definition ap2_keeps_row (i : string) (w w' : World) : Prop :=
  ∀ t, tasks w !! i = Some t → tasks w' !! i = Some t.

(** The mandates are left as they are. *)
Definition ap2_same_mandates (w w' : World) : Prop :=
  cart_mandates w' = cart_mandates w ∧
  payment_mandates w' = payment_mandates w.

(** The state after a prompt was sent to the engine. *)
Definition ap2_prompted (prompt : string) (w : World) : World :=
  {| tasks := tasks w; cart_mandates := cart_mandates w;
     payment_mandates := payment_mandates w;
     engine_calls := prompt :: engine_calls w |}.

(** The answers of [AgentAP2.process_task]. *)
Definition ap2_failed_answer (task_id msg : string) : TaskResult :=
  {| taskId := Some task_id;
     result_status := "failed";
     message :=
       Some (AgentProduction.agent_text ("Error processing request: " +:+ msg));
     artifacts := [];
     metadata := None;
     next_steps := [] |}.

Definition ap2_completed_answer (task_id skill_id text : string)
    (details : Config.SkillDetails) : TaskResult :=
  {| taskId := Some task_id;
     result_status := "completed";
     message := Some (AgentProduction.agent_text text);
     artifacts :=
       [ {| AgentProduction.artifact_type := "text";
            AgentProduction.name := skill_id +:+ "_report";
            AgentProduction.artifact_mimeType := "text/plain";
            AgentProduction.data := text |} ];
     metadata :=
       Some {| AgentProduction.service := skill_id;
               AgentProduction.price := Config.price details;
               AgentProduction.currency := "USD";
               AgentProduction.billable := true;
               AgentProduction.payment_protocol := Some "ap2" |};
     next_steps := [] |}.

(** The text [AgentAP2.submit_task] collects. *)
Definition ap2_user_message (p : TaskParams) : string :=
  collect_text (default [] (message_parts p)) "".

(** The entry [AgentAP2.submit_task] stores for a task id that is new. *)
Definition ap2_new_row (env : Env) (p : TaskParams)
    (details : Config.SkillDetails) (paid : bool) : TaskDict :=
  {| skillId := default "" (task_skillId p);
     status := (if paid then "working" else "payment_required");
     cartId := None;
     paymentMandateId := None;
     userMessage := Some (ap2_user_message p);
     price := Config.price details;
     currency := "USD";
     paymentStatus := Some (if paid then "authorized_ap2" else "payment_required");
     startTime := utcnow env;
     result := None;
     completedTime := None;
     error := None |}.

(** The state after [AgentAP2.submit_task] has stored, or found, its
    task. *)
Definition ap2_registered (env : Env) (p : TaskParams)
    (details : Config.SkillDetails) (w : World) : World :=
  match tasks w !! ap2_task_id_of env p with
  | Some _ => w
  | None =>
      with_tasks (insert (ap2_task_id_of env p)
                    (ap2_new_row env p details (ap2_authorized p w))) w
  end.

Definition ap2_required_answer (env : Env) (p : TaskParams)
    (details : Config.SkillDetails) : TaskResult :=
  {| taskId := Some (ap2_task_id_of env p);
     result_status := "payment_required";
     message :=
       Some (AgentProduction.agent_text
         ("Payment required: $" +:+ Py.str_float (Config.price details)
          +:+ " USD. Use AP2 flow or provide payment."));
     artifacts := [];
     metadata := None;
     next_steps := AgentProduction.ap2_next_steps |}.

End InMemory.

End Observations.

(** ** Concrete requests and environments *)

Module Examples.

Definition engine_ok : string → string + string := λ _, inl "Advice.".
Definition engine_down : string → string + string :=
  λ _, inr "503 service unavailable".

(** The identifiers drawn by a request: [a] first, then [b]. *)
Definition ids (a b : string) : nat → string :=
  λ n, match n with O => a | _ => b end.

Definition env_at (now : Z) (uuids : nat → string)
    (engine : string → string + string) : Env :=
  {| settings := Config.get_settings;
     PRICING := Config.PRICING;
     utcnow := now;
     uuid4 := uuids;
     generate_content := engine |}.

Definition user_text (t : string) : Models.Message :=
  {| Models.role := Models.user;
     Models.parts := [ {| Models.type := Models.text_part;
                          Models.text := Some t;
                          Models.url := None;
                          Models.mimeType := None |} ] |}.

(** A text of [n] characters of two bytes each ([n] times U+00E9). *)
Definition accented (n : nat) : string :=
  String.concat ""
    (replicate n (String (Ascii.ascii_of_nat 195)
                    (String (Ascii.ascii_of_nat 169) EmptyString))).

Definition quick_cart : Models.CartMandateParams :=
  {| Models.cart_skillId := "quick-consult";
     Models.taskDescription := "pricing help" |}.

Definition card : Models.PaymentMethodData :=
  {| Models.method_name := "card"; Models.details := [];
     Models.payer_name := None; Models.payer_email := None |}.

Definition pay (c : string) : Models.ProcessPaymentParams :=
  {| Models.cartId := c; Models.paymentMethod := card;
     Models.userAuthorization := None |}.

Definition submit (task_id payment_id : option string) (skill : string)
  : Models.TaskParams :=
  {| Models.taskId := task_id; Models.skillId := skill;
     Models.message := user_text "Analyze my startup idea";
     Models.paymentMandateId := payment_id |}.

(** agent_production.py after [createCartMandate] at time 0 gave cart
    [cart-1]. *)
Definition with_cart : AgentProduction.World :=
  (AgentProduction.create_cart_mandate
     (env_at 0 (ids "cart-1" "") engine_ok) quick_cart
     AgentProduction.start).2.

(** ... and after [processPayment] at time 10 gave payment mandate [pm-1]
    and task [task-1]. *)
Definition with_payment : AgentProduction.World :=
  (AgentProduction.process_payment
     (env_at 10 (ids "pm-1" "task-1") engine_ok) (pay "cart-1") with_cart).2.

(** The same for agent_ap2.py. *)
Definition ap2_quick_cart (description : string) : AgentAP2.CartParams :=
  {| AgentAP2.cart_skillId := Some "quick-consult";
     AgentAP2.taskDescription := Some description |}.

Definition ap2_pay (c : string) : AgentAP2.PaymentParams :=
  {| AgentAP2.payment_cartId := Some c;
     AgentAP2.paymentMethod := None;
     AgentAP2.userAuthorization := None |}.

Definition ap2_submit (task_id payment_id : option string) (skill : string)
  : AgentAP2.TaskParams :=
  {| AgentAP2.task_taskId := task_id;
     AgentAP2.task_skillId := Some skill;
     AgentAP2.message_parts :=
       Some [ {| AgentAP2.type := Some "text";
                 AgentAP2.text := Some "Analyze my startup idea" |} ];
     AgentAP2.task_paymentMandateId := payment_id |}.

Definition ap2_with_cart (description : string) : AgentAP2.World :=
  (AgentAP2.create_cart_mandate
     (env_at 0 (ids "cart-1" "") engine_ok) (ap2_quick_cart description)
     AgentAP2.start).2.

Definition ap2_with_payment : AgentAP2.World :=
  (AgentAP2.process_payment
     (env_at 10 (ids "pm-1" "task-1") engine_ok) (ap2_pay "cart-1")
     (ap2_with_cart "pricing help")).2.

(** The catalogue after the price of every skill was raised. *)
Definition raised_PRICING : list (string * Config.SkillDetails) :=
  [ ("business-analysis",
     {| Config.price := 9900; Config.description := "Comprehensive business analysis" |});
    ("market-research",
     {| Config.price := 9900; Config.description := "Market research and competitive analysis" |});
    ("strategy-planning",
     {| Config.price := 9900; Config.description := "Strategic business planning" |});
    ("quick-consult",
     {| Config.price := 9900; Config.description := "Quick consultation (15 min equivalent)" |}) ].

Definition raised_env_at (now : Z) (uuids : nat → string)
    (engine : string → string + string) : Env :=
  {| settings := Config.get_settings;
     PRICING := raised_PRICING;
     utcnow := now;
     uuid4 := uuids;
     generate_content := engine |}.

(** agent_production.py with cart [cart-1] paid and task [t-1] waiting for
    payment, priced from the catalogue of config.py. *)
Definition with_waiting_task : AgentProduction.World :=
  (AgentProduction.submit_task
     (env_at 15 (ids "" "") engine_ok)
     (submit (Some "t-1") None "quick-consult") with_payment).2.

End Examples.

(** * Properties *)

Import Database Observations.

#[local] Arguments Py.lookup_key : simpl never.
#[local] Arguments AgentProduction.process_task : simpl never.

(** ** The monad: how [within] composes *)

Section Within.
Context {St : Type} (R : St → St → Prop) `{!PreOrder R}.

Lemma within_ret {A} (a : A) : within R (Py.ret a).
Proof. intros s. simpl. reflexivity. Qed.

Lemma within_raise {A} e : within R (@Py.raise St A e).
Proof. intros s. simpl. reflexivity. Qed.

Lemma within_gets {A} (f : St → A) : within R (Py.gets f).
Proof. intros s. simpl. reflexivity. Qed.

Lemma within_bind {A B} (c : Py.M St A) (k : A → Py.M St B) :
  within R c → (∀ a, within R (k a)) → within R (Py.bind c k).
Proof.
  intros Hc Hk s. unfold Py.bind. specialize (Hc s).
  destruct (c s) as [[a|e] s']; simpl in *; [|done].
  etrans; [exact Hc | apply Hk].
Qed.

Lemma within_try_except {A} (c : Py.M St A) (h : Py.exn → Py.M St A) :
  within R c → (∀ e, within R (h e)) → within R (Py.try_except c h).
Proof.
  intros Hc Hh s. unfold Py.try_except. specialize (Hc s).
  destruct (c s) as [[a|e] s']; simpl in *; [done|].
  etrans; [exact Hc | apply Hh].
Qed.

Lemma within_getitem {A} (d : list (string * A)) k :
  within R (Py.getitem d k).
Proof.
  unfold Py.getitem.
  destruct (Py.lookup_key k d); [apply within_ret | apply within_raise].
Qed.
End Within.

Ltac solve_preorder :=
  lazymatch goal with |- PreOrder _ => exact _ | _ => idtac end.

(** One step through the structure of a handler. *)
Ltac within_step :=
  first
    [ apply within_ret | apply within_raise | apply within_gets
    | apply within_getitem
    | apply within_bind; [ .. | intros ?]
    | apply within_try_except; [ .. | intros ?]
    | match goal with
      | |- within _ (if ?b then _ else _) => destruct b
      | |- within _ (match ?x with _ => _ end) => destruct x
      end ];
  solve_preorder.

(** ** agent_production.py: the outcomes of the handlers *)

Section ProductionOutcomes.
Import AgentProduction.

Lemma process_payment_cases env params w :
  process_payment env params w =
  match cart_mandates (db w) !! Models.cartId params with
  | None => (Py.Raise (Py.HTTPException 404 "Cart not found or expired"), w)
  | Some cart_db =>
      if CartMandateDB.is_used cart_db
      then (Py.Raise (Py.HTTPException 400 "Cart already used"), w)
      else if CartMandateDB.expires_at cart_db <? utcnow env
      then (Py.Raise (Py.HTTPException 400 "Cart expired"), w)
      else
        match payment_mandates (db w) !! uuid4 env 0%nat with
        | Some _ =>
            (Py.Raise (Py.HTTPException 500 "Payment processing failed"), w)
        | None =>
            let db1 :=
              with_cart_mandates
                (insert (Models.cartId params)
                        (CartMandateRepository.set_is_used cart_db))
                (with_payment_mandates
                   (insert (uuid4 env 0%nat)
                           (the_payment_row env params cart_db))
                   (db w)) in
            match tasks (db w) !! uuid4 env 1%nat with
            | Some _ =>
                (Py.Raise (Py.HTTPException 500 "Payment processing failed"),
                 {| db := db1; engine_calls := engine_calls w |})
            | None =>
                (Py.Return (the_answer env params cart_db),
                 {| db := with_tasks
                            (insert (uuid4 env 1%nat)
                               (the_task_row env params cart_db))
                            db1;
                    engine_calls := engine_calls w |})
            end
        end
  end.
Proof.
  destruct w as [d l].
  unfold process_payment, Py.try_except, Py.bind, on_db,
    CartMandateRepository.get, Py.gets. simpl.
  destruct (cart_mandates d !! Models.cartId params) as [c|] eqn:Hc;
    simpl; [|done].
  destruct (CartMandateDB.is_used c); simpl; [done|].
  destruct (CartMandateDB.expires_at c <? utcnow env); simpl; [done|].
  unfold PaymentMandateRepository.create; simpl.
  destruct (payment_mandates d !! uuid4 env 0%nat) eqn:Hp; simpl; [done|].
  unfold CartMandateRepository.mark_used, Py.bind,
    CartMandateRepository.get, Py.gets, Py.modify, Py.ret; simpl.
  rewrite Hc. simpl.
  unfold TaskRepository.create; simpl.
  destruct (tasks d !! uuid4 env 1%nat) eqn:Ht; simpl; done.
Qed.

Lemma process_task_cases env task_id skill_id user_message w :
  process_task env task_id skill_id user_message w =
  let w1 := updated task_id
              [set_status "working"; set_started_at (utcnow env)] w in
  match Py.lookup_key skill_id service_context with
  | None =>
      let msg := "'" +:+ skill_id +:+ "'" in
      (Py.Raise (Py.HTTPException 500 ("Task processing failed: " +:+ msg)),
       updated task_id [set_status "failed"; set_error msg] w1)
  | Some context =>
      let prompt := consulting_prompt context user_message in
      let w2 := prompted prompt w1 in
      match generate_content env prompt with
      | inr msg =>
          (Py.Raise (Py.HTTPException 500 ("Task processing failed: " +:+ msg)),
           updated task_id [set_status "failed"; set_error msg] w2)
      | inl text =>
          let w3 := updated task_id
                      [set_status "completed"; set_result text;
                       set_completed_at (utcnow env)] w2 in
          match Py.lookup_key skill_id (PRICING env) with
          | None =>
              let msg := "'" +:+ skill_id +:+ "'" in
              (Py.Raise (Py.HTTPException 500
                           ("Task processing failed: " +:+ msg)),
               updated task_id [set_status "failed"; set_error msg] w3)
          | Some details =>
              (Py.Return (completed_answer env task_id skill_id text details),
               w3)
          end
      end
  end.
Proof.
  destruct w as [d l].
  unfold process_task, updated, prompted, Py.try_except, Py.bind, on_db,
    TaskRepository.update, TaskRepository.get, Py.gets, Py.getitem,
    Py.modify, Py.ret, Py.raise, model_generate_content, Py.bind. simpl.
  destruct (tasks d !! task_id) as [t|] eqn:Ht; simpl.
  - destruct (Py.lookup_key skill_id service_context) as [ctx|]; simpl.
    + destruct (generate_content env _) as [text|msg]; simpl.
      * rewrite lookup_insert_eq. simpl.
        destruct (Py.lookup_key skill_id (PRICING env)); simpl.
        -- done.
        -- rewrite lookup_insert_eq. done.
      * rewrite lookup_insert_eq. done.
    + rewrite lookup_insert_eq. done.
  - destruct (Py.lookup_key skill_id service_context) as [ctx|]; simpl.
    + destruct (generate_content env _) as [text|msg]; simpl.
      * rewrite Ht. simpl.
        destruct (Py.lookup_key skill_id (PRICING env)); simpl.
        -- done.
        -- rewrite Ht. done.
      * rewrite Ht. done.
    + rewrite Ht. done.
Qed.

Lemma process_task_raises env task_id skill_id user_message w e w' :
  process_task env task_id skill_id user_message w = (Py.Raise e, w') →
  ∃ msg, e = Py.HTTPException 500 ("Task processing failed: " +:+ msg).
Proof.
  rewrite process_task_cases. cbv zeta.
  destruct (Py.lookup_key skill_id service_context); [|naive_solver].
  destruct (generate_content env _); [|naive_solver].
  destruct (Py.lookup_key skill_id (PRICING env)); naive_solver.
Qed.

Lemma has_key_lookup {A} k (d : list (string * A)) :
  Py.has_key k d = true → ∃ a, Py.lookup_key k d = Some a.
Proof.
  unfold Py.has_key. destruct (Py.lookup_key k d); [eauto | done].
Qed.

Lemma submit_task_cases env p w :
  submit_task env p w =
  match Py.lookup_key (Models.skillId p) (PRICING env) with
  | None =>
      (Py.Raise (Py.HTTPException 400
         ("Invalid skillId: " +:+ Models.skillId p +:+ ". Must be one of: "
          +:+ Models.join_keys ((PRICING env).*1))), w)
  | Some details =>
      if authorized p w then
        match process_task env (task_id_of env p) (Models.skillId p)
                (Models.collect_text (Models.parts (Models.message p)) "") w with
        | (Py.Return r, w') => (Py.Return r, w')
        | (Py.Raise _, w') =>
            (Py.Raise (Py.HTTPException 500 "Task submission failed"), w')
        end
      else
        match tasks (db w) !! task_id_of env p with
        | Some _ =>
            (Py.Raise (Py.HTTPException 500 "Task submission failed"), w)
        | None =>
            (Py.Return (required_answer env p details),
             {| db := with_tasks
                        (insert (task_id_of env p) (required_row env p details))
                        (db w);
                engine_calls := engine_calls w |})
        end
  end.
Proof.
  destruct w as [d l].
  unfold submit_task, authorized, Py.try_except, Py.bind,
    Models.validate_TaskParams, Py.has_key, Py.getitem, on_db,
    PaymentMandateRepository.get, TaskRepository.create, Py.gets, Py.ret,
    Py.raise.
  unfold required_answer, required_row, task_id_of.
  destruct (Py.lookup_key (Models.skillId p) (PRICING env)) as [details|] eqn:Hk;
    simpl; [|done].
  destruct (Py.truthy (Models.paymentMandateId p)) eqn:Hpm; simpl.
  - destruct (payment_mandates d !! _) as [pay|] eqn:Hpay; simpl.
    + destruct (String.eqb (PaymentMandateDB.status pay) "authorized"); simpl.
      * destruct (process_task _ _ _ _ _) as [[r|e] w'] eqn:Hpt; simpl; [done|].
        apply process_task_raises in Hpt as [msg ->]. reflexivity.
      * rewrite Hk. simpl.
        destruct (tasks d !! _); simpl; done.
    + rewrite Hk. simpl.
      destruct (tasks d !! _); simpl; done.
  - rewrite Hk. simpl.
    destruct (tasks d !! _); simpl; done.
Qed.

End ProductionOutcomes.

(** ** agent_production.py: what the handlers leave unchanged *)


#[local] Instance same_mandates_preorder : PreOrder same_mandates.
Proof.
  split.
  - intros w. split; reflexivity.
  - intros a b c [H1 H2] [H3 H4]. split; congruence.
Qed.

#[local] Instance keeps_billing_preorder : PreOrder keeps_billing.
Proof.
  split.
  - intros w i t Ht. eauto.
  - intros a b c Hab Hbc i t Ht.
    destruct (Hab i t Ht) as (t' & Ht' & Hp & Hc).
    destruct (Hbc i t' Ht') as (t'' & Ht'' & Hp' & Hc').
    exists t''. split; [done|]. split; congruence.
Qed.

#[local] Instance keeps_row_preorder i : PreOrder (keeps_row i).
Proof.
  split.
  - intros w t Ht. done.
  - intros a b c Hab Hbc t Ht. apply Hbc, Hab, Ht.
Qed.


Section ProductionFrames.
Import AgentProduction.

Lemma setattr_billing t u :
  Task.price (setattr t u) = Task.price t ∧
  Task.currency (setattr t u) = Task.currency t.
Proof. destruct u; done. Qed.

Lemma foldl_setattr_billing ups t :
  Task.price (foldl setattr t ups) = Task.price t ∧
  Task.currency (foldl setattr t ups) = Task.currency t.
Proof.
  revert t. induction ups as [|u ups IH]; intros t; simpl; [done|].
  destruct (IH (setattr t u)) as [-> ->]. apply setattr_billing.
Qed.

(** The repository calls, relation by relation. *)

Lemma update_same_mandates j ups :
  within same_mandates (on_db (TaskRepository.update j ups)).
Proof.
  intros [d l]. unfold on_db, TaskRepository.update, Py.bind,
    TaskRepository.get, Py.gets, Py.modify, Py.ret. simpl.
  destruct (tasks d !! j); simpl; split; reflexivity.
Qed.

Lemma create_same_mandates now t :
  within same_mandates (on_db (TaskRepository.create now t)).
Proof.
  intros [d l]. unfold on_db, TaskRepository.create. simpl.
  destruct (tasks d !! _); simpl; split; reflexivity.
Qed.

Lemma prompt_same_mandates env p :
  within same_mandates (model_generate_content env p).
Proof.
  intros [d l]. unfold model_generate_content. simpl.
  destruct (generate_content env p); simpl; split; reflexivity.
Qed.

Lemma update_keeps_billing j ups :
  within keeps_billing (on_db (TaskRepository.update j ups)).
Proof.
  intros [d l]. unfold on_db, TaskRepository.update, Py.bind,
    TaskRepository.get, Py.gets, Py.modify, Py.ret. simpl.
  destruct (tasks d !! j) as [tj|] eqn:Hj; simpl; [|by intros i t ?; eauto].
  intros i t Ht. simpl in *.
  destruct (decide (j = i)) as [->|Hne].
  - rewrite lookup_insert_eq. eexists. split; [done|].
    assert (tj = t) as -> by congruence. apply foldl_setattr_billing.
  - rewrite lookup_insert_ne by done. eauto.
Qed.

Lemma create_keeps_billing now t :
  within keeps_billing (on_db (TaskRepository.create now t)).
Proof.
  intros [d l]. unfold on_db, TaskRepository.create. simpl.
  destruct (tasks d !! Task.id t) eqn:Hid; simpl; [by intros i t' ?; eauto|].
  intros i t' Ht'. simpl in *.
  destruct (decide (Task.id t = i)) as [<-|Hne]; [congruence|].
  rewrite lookup_insert_ne by done. eauto.
Qed.

Lemma same_tasks_keeps_billing w w' :
  tasks (db w') = tasks (db w) → keeps_billing w w'.
Proof. intros H i t Ht. rewrite H. eauto. Qed.

Lemma same_tasks_keeps_row i w w' :
  tasks (db w') = tasks (db w) → keeps_row i w w'.
Proof. intros H t Ht. by rewrite H. Qed.

Lemma prompt_same_tasks env p w :
  tasks (db (model_generate_content env p w).2) = tasks (db w).
Proof.
  unfold model_generate_content. by destruct (generate_content env p).
Qed.

Lemma cart_create_same_tasks now c w :
  tasks (db (on_db (CartMandateRepository.create now c) w).2) = tasks (db w).
Proof.
  destruct w as [d l]. unfold on_db, CartMandateRepository.create. simpl.
  by destruct (cart_mandates d !! _).
Qed.

Lemma payment_create_same_tasks now c w :
  tasks (db (on_db (PaymentMandateRepository.create now c) w).2) = tasks (db w).
Proof.
  destruct w as [d l]. unfold on_db, PaymentMandateRepository.create. simpl.
  by destruct (payment_mandates d !! _).
Qed.

Lemma mark_used_same_tasks c w :
  tasks (db (on_db (CartMandateRepository.mark_used c) w).2) = tasks (db w).
Proof.
  destruct w as [d l]. unfold on_db, CartMandateRepository.mark_used,
    Py.bind, CartMandateRepository.get, Py.gets, Py.modify, Py.ret. simpl.
  by destruct (cart_mandates d !! _).
Qed.

Lemma update_keeps_row i j ups :
  j ≠ i → within (keeps_row i) (on_db (TaskRepository.update j ups)).
Proof.
  intros Hne [d l]. unfold on_db, TaskRepository.update, Py.bind,
    TaskRepository.get, Py.gets, Py.modify, Py.ret. simpl.
  destruct (tasks d !! j) as [tj|] eqn:Hj; simpl; [|by intros t ?].
  intros t Ht. simpl in *. by rewrite lookup_insert_ne.
Qed.

Lemma create_keeps_row i now t :
  within (keeps_row i) (on_db (TaskRepository.create now t)).
Proof.
  intros [d l]. unfold on_db, TaskRepository.create. simpl.
  destruct (tasks d !! Task.id t) eqn:Hid; simpl; [by intros t' ?|].
  intros t' Ht'. simpl in *.
  destruct (decide (Task.id t = i)) as [<-|Hne]; [congruence|].
  by rewrite lookup_insert_ne.
Qed.

Lemma read_within {A} (R : World → World → Prop) `{!PreOrder R}
    (f : Session → A) :
  within R (on_db (Py.gets f)).
Proof. intros [d l]. simpl. reflexivity. Qed.

(** Handlers that write to the task table only. *)

Section TaskHandlers.
Context (R : World → World → Prop) `{!PreOrder R}.
Context (may_update : string → Prop).
Hypothesis R_update : ∀ j ups,
  may_update j → within R (on_db (TaskRepository.update j ups)).
Hypothesis R_create : ∀ now t, within R (on_db (TaskRepository.create now t)).
Hypothesis R_prompt : ∀ env p, within R (model_generate_content env p).

Lemma process_task_within env j skill_id user_message :
  may_update j → within R (process_task env j skill_id user_message).
Proof using All.
  intros Hj. unfold process_task.
  repeat first [ by apply R_update | apply R_prompt | within_step ].
Qed.

Lemma get_task_status_within p : within R (get_task_status p).
Proof using PreOrder0.
  unfold get_task_status, TaskRepository.get.
  repeat first [ apply read_within; solve_preorder | within_step ].
Qed.

Lemma send_message_within env p : within R (send_message env p).
Proof using PreOrder0 R_prompt.
  unfold send_message, TaskRepository.get.
  repeat first [ apply read_within; solve_preorder | apply R_prompt
               | within_step ].
Qed.

Lemma create_intent_mandate_within env p :
  within R (create_intent_mandate env p).
Proof using PreOrder0.
  unfold create_intent_mandate, Models.validate_IntentMandateParams.
  repeat within_step.
Qed.

Lemma submit_task_within env p w :
  (authorized p w = true → may_update (task_id_of env p)) →
  R w (submit_task env p w).2.
Proof using All.
  intros Hj. rewrite submit_task_cases.
  destruct (Py.lookup_key _ _) as [details|]; [|reflexivity].
  destruct (authorized p w).
  - pose proof (process_task_within env (task_id_of env p)
      (Models.skillId p)
      (Models.collect_text (Models.parts (Models.message p)) "")
      (Hj eq_refl) w) as H.
    by destruct (process_task _ _ _ _ _) as [[r|e] w'].
  - destruct (tasks (db w) !! task_id_of env p) eqn:Ht; [reflexivity|].
    pose proof (R_create (utcnow env) (required_row env p details) w) as H.
    destruct w as [d l]. unfold on_db, TaskRepository.create in H.
    simpl in *. by rewrite Ht in H.
Qed.
End TaskHandlers.

(** Handlers that write to the mandate tables. *)

Section MandateHandlers.
Context (R : World → World → Prop) `{!PreOrder R}.
Hypothesis R_create : ∀ now t, within R (on_db (TaskRepository.create now t)).
Hypothesis R_cart : ∀ now c, within R (on_db (CartMandateRepository.create now c)).
Hypothesis R_payment :
  ∀ now c, within R (on_db (PaymentMandateRepository.create now c)).
Hypothesis R_mark : ∀ c, within R (on_db (CartMandateRepository.mark_used c)).

Lemma create_cart_mandate_within env p :
  within R (create_cart_mandate env p).
Proof using PreOrder0 R_cart.
  unfold create_cart_mandate, Models.validate_CartMandateParams.
  repeat first [ apply R_cart | within_step ].
Qed.

Lemma process_payment_within env p : within R (process_payment env p).
Proof using All.
  unfold process_payment, CartMandateRepository.get.
  repeat first [ apply read_within; solve_preorder | apply R_create
               | apply R_payment | apply R_mark | within_step ].
Qed.
End MandateHandlers.

Lemma handle_a2a_request_state env req w :
  (A2A.handle_a2a_request env req w).2 = (A2A.handler env req w).2.
Proof.
  unfold A2A.handle_a2a_request.
  destruct (A2A.handler env req w) as [[r|[]] w']; done.
Qed.

Lemma handler_state env req w :
  (A2A.handler env req w).2 =
  match req with
  | A2A.submitTask p => (submit_task env p w).2
  | A2A.getTaskStatus p => (get_task_status p w).2
  | A2A.sendMessage p => (send_message env p w).2
  | A2A.createIntentMandate p => (create_intent_mandate env p w).2
  | A2A.createCartMandate p => (create_cart_mandate env p w).2
  | A2A.processPayment p => (process_payment env p w).2
  | A2A.other_method _ => w
  end.
Proof.
  destruct req; simpl; try done; unfold Py.bind;
    match goal with |- context [?c w] => destruct (c w) as [[?|?] ?] end;
    done.
Qed.

(** No request changes the price or the currency of a stored task. *)
Lemma handle_keeps_billing env req w :
  keeps_billing w (A2A.handle_a2a_request env req w).2.
Proof.
  rewrite handle_a2a_request_state, handler_state.
  assert (∀ now c, within keeps_billing (on_db (CartMandateRepository.create now c)))
    by (intros now c w0; apply same_tasks_keeps_billing, cart_create_same_tasks).
  assert (∀ now c, within keeps_billing (on_db (PaymentMandateRepository.create now c)))
    by (intros now c w0; apply same_tasks_keeps_billing, payment_create_same_tasks).
  assert (∀ c, within keeps_billing (on_db (CartMandateRepository.mark_used c)))
    by (intros c w0; apply same_tasks_keeps_billing, mark_used_same_tasks).
  assert (∀ env p, within keeps_billing (model_generate_content env p))
    by (intros e p w0; apply same_tasks_keeps_billing, prompt_same_tasks).
  destruct req.
  - apply (submit_task_within keeps_billing (λ _, True));
      auto using update_keeps_billing, create_keeps_billing.
  - by apply (get_task_status_within keeps_billing).
  - by apply (send_message_within keeps_billing).
  - by apply (create_intent_mandate_within keeps_billing).
  - by apply (create_cart_mandate_within keeps_billing).
  - apply (process_payment_within keeps_billing);
      auto using create_keeps_billing.
  - reflexivity.
Qed.

(** A request that does not re-run task [i] leaves its row as it is. *)
Lemma handle_keeps_row i env req w :
  ¬ reruns i env req w →
  keeps_row i w (A2A.handle_a2a_request env req w).2.
Proof.
  intros Hno. rewrite handle_a2a_request_state, handler_state.
  assert (∀ now c, within (keeps_row i) (on_db (CartMandateRepository.create now c)))
    by (intros now c w0; apply same_tasks_keeps_row, cart_create_same_tasks).
  assert (∀ now c, within (keeps_row i) (on_db (PaymentMandateRepository.create now c)))
    by (intros now c w0; apply same_tasks_keeps_row, payment_create_same_tasks).
  assert (∀ c, within (keeps_row i) (on_db (CartMandateRepository.mark_used c)))
    by (intros c w0; apply same_tasks_keeps_row, mark_used_same_tasks).
  assert (∀ env p, within (keeps_row i) (model_generate_content env p))
    by (intros e p w0; apply same_tasks_keeps_row, prompt_same_tasks).
  destruct req.
  - destruct (Py.has_key (Models.skillId params) (PRICING env)) eqn:Hk.
    + apply (submit_task_within (keeps_row i) (λ j, j ≠ i));
        auto using update_keeps_row, create_keeps_row.
      intros Ha Hi. apply Hno. simpl. done.
    + rewrite submit_task_cases. unfold Py.has_key in Hk.
      destruct (Py.lookup_key _ _); [done|]. reflexivity.
  - by apply (get_task_status_within (keeps_row i)).
  - by apply (send_message_within (keeps_row i)).
  - by apply (create_intent_mandate_within (keeps_row i)).
  - by apply (create_cart_mandate_within (keeps_row i)).
  - apply (process_payment_within (keeps_row i));
      auto using create_keeps_row.
  - reflexivity.
Qed.

End ProductionFrames.

(** ** Single use of a cart (agent_production.py) *)

Section SingleUse.
Import AgentProduction.

Lemma same_mandates_single_use c n w w' :
  same_mandates w w' → single_use_inv c n w → single_use_inv c n w'.
Proof.
  intros [Hc Hp]. unfold single_use_inv, cart_used, payments_for.
  by rewrite Hc, Hp.
Qed.

Lemma handle_process_payment env p w :
  A2A.handle_a2a_request env (A2A.processPayment p) w =
  match process_payment env p w with
  | (Py.Return a, w') =>
      ({| A2A.status_code := 200;
          A2A.content := A2A.rpc_result (A2A.payment_result a) |}, w')
  | (Py.Raise (Py.HTTPException code detail), w') =>
      ({| A2A.status_code := code;
          A2A.content := A2A.rpc_error code detail |}, w')
  | (Py.Raise _, w') =>
      ({| A2A.status_code := 500;
          A2A.content := A2A.rpc_error (-32603) "Internal error" |}, w')
  end.
Proof.
  unfold A2A.handle_a2a_request, A2A.handler, Py.bind.
  by destruct (process_payment env p w) as [[a|[]] w'].
Qed.

Lemma payment_ok_other c req r :
  (∀ p, req ≠ A2A.processPayment p) → payment_ok c req r = false.
Proof. intros H. destruct req; try done. by destruct (H params). Qed.

Lemma payment_ok_error c req code status detail :
  payment_ok c req {| A2A.status_code := status;
                      A2A.content := A2A.rpc_error code detail |} = false.
Proof. by destruct req. Qed.

Lemma create_cart_mandate_cases env p w :
  create_cart_mandate env p w =
  match Py.lookup_key (Models.cart_skillId p) (PRICING env) with
  | None =>
      (Py.Raise (Py.HTTPException 400
                   ("Invalid skillId: " +:+ Models.cart_skillId p)), w)
  | Some details =>
      if negb (Models.length_between 1 1000 (Models.taskDescription p))
      then (Py.Raise (Py.HTTPException 400
              "taskDescription: String should have between 1 and 1000 characters"), w)
      else
        match cart_mandates (db w) !! uuid4 env 0%nat with
        | Some _ => (Py.Raise (Py.HTTPException 500 "Failed to create cart"), w)
        | None =>
            (Py.Return
               {| cart_success := true;
                  cart_id := uuid4 env 0%nat;
                  cart_mandate := new_cart_mandate env p details;
                  cart_message :=
                    "Cart created. User must confirm and authorize payment." |},
             {| db := with_cart_mandates
                        (insert (uuid4 env 0%nat) (new_cart_row env p details))
                        (db w);
                engine_calls := engine_calls w |})
        end
  end.
Proof.
  destruct w as [d l].
  unfold create_cart_mandate, Py.try_except, Py.bind,
    Models.validate_CartMandateParams, Py.has_key, Py.getitem, on_db,
    CartMandateRepository.create, Py.ret, Py.raise.
  destruct (Py.lookup_key (Models.cart_skillId p) (PRICING env))
    as [details|] eqn:Hk; simpl; [|done].
  destruct (Models.length_between 1 1000 (Models.taskDescription p));
    simpl; [|done].
  rewrite Hk. simpl.
  destruct (cart_mandates d !! uuid4 env 0%nat); simpl; done.
Qed.

Lemma create_cart_single_use c n env p w :
  single_use_inv c n w →
  single_use_inv c n (create_cart_mandate env p w).2.
Proof.
  intros Hinv. rewrite create_cart_mandate_cases.
  destruct (Py.lookup_key _ _) as [details|]; [|done].
  destruct (negb _); [done|].
  destruct (cart_mandates (db w) !! uuid4 env 0%nat) eqn:Hid; [done|].
  revert Hinv. unfold single_use_inv, cart_used, payments_for. simpl.
  destruct (decide (uuid4 env 0%nat = c)) as [<-|Hne].
  - by rewrite lookup_insert_eq, Hid.
  - by rewrite lookup_insert_ne.
Qed.

Lemma process_payment_single_use c n env p w :
  single_use_inv c n w →
  single_use_inv c
    (n + if payment_ok c (A2A.processPayment p)
              (A2A.handle_a2a_request env (A2A.processPayment p) w).1
         then 1 else 0)
    (A2A.handle_a2a_request env (A2A.processPayment p) w).2.
Proof.
  intros Hinv. rewrite handle_process_payment, process_payment_cases.
  destruct (cart_mandates (db w) !! Models.cartId p) as [cart|] eqn:Hcart;
    [|by rewrite Nat.add_0_r].
  destruct (CartMandateDB.is_used cart) eqn:Hused; [by rewrite Nat.add_0_r|].
  destruct (_ <? _); [by rewrite Nat.add_0_r|].
  destruct (payment_mandates (db w) !! uuid4 env 0%nat) eqn:Hpay;
    [by rewrite Nat.add_0_r|].
  assert (∀ b : bool,
    single_use_inv c (n + if bool_decide (Models.cartId p = c) && b then 1 else 0)
      {| db := with_cart_mandates
                 (insert (Models.cartId p) (CartMandateRepository.set_is_used cart))
                 (with_payment_mandates
                    (insert (uuid4 env 0%nat)
                       (the_payment_row env p cart)) (db w));
         engine_calls := engine_calls w |}) as Hstep.
  { intros b. revert Hinv.
    unfold single_use_inv, cart_used, payments_for. simpl.
    destruct (decide (Models.cartId p = c)) as [<-|Hne].
    - rewrite Hcart, Hused, lookup_insert_eq. simpl.
      intros [Hn Hs]. split; [destruct (_ && _); simpl; clear -Hn; lia|].
      rewrite map_filter_insert_True by done.
      rewrite map_size_insert.
      assert (size (filter (λ kv : string * PaymentMandateDB.t,
                PaymentMandateDB.cart_id kv.2 = Models.cartId p)
                (payment_mandates (db w))) = 0%nat) as Hz
        by (clear -Hs; revert Hs; generalize (size (filter (λ kv : string * PaymentMandateDB.t,
                PaymentMandateDB.cart_id kv.2 = Models.cartId p)
                (payment_mandates (db w)))); intros; lia).
      rewrite Hz.
      match goal with |- context [match ?x with _ => _ end] => destruct x end;
        simpl; clear; lia.
    - rewrite lookup_insert_ne by done.
      rewrite bool_decide_eq_false_2 by done. simpl.
      rewrite Nat.add_0_r.
      rewrite map_filter_insert_False by done.
      by rewrite delete_id. }
  destruct (tasks (db w) !! uuid4 env 1%nat).
  - simpl. specialize (Hstep false).
    by rewrite andb_false_r in Hstep.
  - simpl. specialize (Hstep true).
    revert Hstep. unfold single_use_inv, cart_used, payments_for. simpl.
    by rewrite andb_true_r.
Qed.

Lemma handle_single_use c n env req w :
  single_use_inv c n w →
  single_use_inv c
    (n + if payment_ok c req (A2A.handle_a2a_request env req w).1
         then 1 else 0)
    (A2A.handle_a2a_request env req w).2.
Proof.
  intros Hinv.
  destruct req;
    try (rewrite payment_ok_other by done; rewrite Nat.add_0_r;
         rewrite handle_a2a_request_state, handler_state).
  - eapply same_mandates_single_use; [|done].
    apply (submit_task_within same_mandates (λ _, True));
      auto using update_same_mandates, create_same_mandates,
        prompt_same_mandates.
  - eapply same_mandates_single_use; [|done].
    by apply (get_task_status_within same_mandates).
  - eapply same_mandates_single_use; [|done].
    apply (send_message_within same_mandates);
      auto using prompt_same_mandates.
  - eapply same_mandates_single_use; [|done].
    by apply (create_intent_mandate_within same_mandates).
  - by apply create_cart_single_use.
  - by apply process_payment_single_use.
  - done.
Qed.

Lemma serve_single_use c reqs : ∀ n w,
  single_use_inv c n w →
  single_use_inv c (n + successes c reqs (A2A.serve reqs w).1)
    (A2A.serve reqs w).2.
Proof.
  induction reqs as [|[env req] reqs IH]; intros n w Hinv; simpl.
  - by rewrite Nat.add_0_r.
  - pose proof (handle_single_use c n env req w Hinv) as Hstep.
    destruct (A2A.handle_a2a_request env req w) as [r w1]. simpl in Hstep.
    specialize (IH _ _ Hstep).
    destruct (A2A.serve reqs w1) as [rs w2]. simpl in *.
    by rewrite Nat.add_assoc.
Qed.

Lemma start_single_use c : single_use_inv c 0 start.
Proof.
  unfold single_use_inv, cart_used, payments_for, start. simpl.
  rewrite lookup_empty, map_filter_empty, map_size_empty. done.
Qed.

(** Two calls in sequence on a cart that can be paid. *)
Lemma process_payment_twice env1 env2 p1 p2 w cart :
  Models.cartId p2 = Models.cartId p1 →
  cart_mandates (db w) !! Models.cartId p1 = Some cart →
  CartMandateDB.is_used cart = false →
  utcnow env1 ≤ CartMandateDB.expires_at cart →
  payment_mandates (db w) !! uuid4 env1 0%nat = None →
  tasks (db w) !! uuid4 env1 1%nat = None →
  ∃ a w1,
    process_payment env1 p1 w = (Py.Return a, w1) ∧ success a = true ∧
    process_payment env2 p2 w1 =
      (Py.Raise (Py.HTTPException 400 "Cart already used"), w1).
Proof.
  intros Hsame Hcart Hused Hexp Hpay Htask.
  rewrite process_payment_cases, Hcart, Hused, Hpay, Htask.
  rewrite (proj2 (Z.ltb_ge _ _)) by done.
  eexists _, _. split; [done|]. split; [done|].
  rewrite process_payment_cases, Hsame. simpl.
  by rewrite lookup_insert_eq.
Qed.

End SingleUse.

(** ** Claims on payment *)

Section PaymentClaims.
Import AgentProduction.

(** A used cart stays stored and used, whatever is requested. *)
Lemma handle_keeps_used c env req w :
cart_used c w = true →
cart_used c (A2A.handle_a2a_request env req w).2 = true.
Proof.
intros Hused. rewrite handle_a2a_request_state, handler_state.
assert (∀ w', same_mandates w w' → cart_used c w' = true) as Hsame.
{ intros w' [Hc _]. unfold cart_used in *. by rewrite Hc. }
destruct req.
- apply Hsame.
  apply (submit_task_within same_mandates (λ _, True));
    auto using update_same_mandates, create_same_mandates,
      prompt_same_mandates.
- apply Hsame. by apply (get_task_status_within same_mandates).
- apply Hsame. apply (send_message_within same_mandates);
    auto using prompt_same_mandates.
- apply Hsame. by apply (create_intent_mandate_within same_mandates).
- rewrite create_cart_mandate_cases.
  destruct (Py.lookup_key _ _) as [details|]; [|done].
  destruct (negb _); [done|].
  destruct (cart_mandates (db w) !! uuid4 env 0%nat) eqn:Hid; [done|].
  revert Hused. unfold cart_used. simpl.
  destruct (decide (uuid4 env 0%nat = c)) as [<-|Hne].
  + by rewrite Hid.
  + by rewrite lookup_insert_ne.
- rewrite process_payment_cases.
  destruct (cart_mandates (db w) !! Models.cartId params) as [cart|] eqn:Hcart;
    [|done].
  destruct (CartMandateDB.is_used cart); [done|].
  destruct (_ <? _); [done|].
  destruct (payment_mandates (db w) !! _); [done|].
  assert (∀ m, ((<[Models.cartId params :=
                    CartMandateRepository.set_is_used cart]> m : gmap _ _) !! c
                = m !! c) ∨ Models.cartId params = c) as Hcases.
  { intros m. destruct (decide (Models.cartId params = c)); [by right|].
    left. by rewrite lookup_insert_ne. }
  destruct (tasks (db w) !! _); unfold cart_used in *; simpl;
    (destruct (Hcases (cart_mandates (db w))) as [-> | <-];
      [done | by rewrite lookup_insert_eq]).
- done.
Qed.

Lemma serve_keeps_used c reqs : ∀ w,
cart_used c w = true → cart_used c (A2A.serve reqs w).2 = true.
Proof.
induction reqs as [|[env req] reqs IH]; intros w Hused; simpl; [done|].
pose proof (handle_keeps_used c env req w Hused) as Hstep.
destruct (A2A.handle_a2a_request env req w) as [r w1].
specialize (IH w1 Hstep). by destruct (A2A.serve reqs w1).
Qed.

Lemma used_cart_is_refused c env p w :
Models.cartId p = c → cart_used c w = true →
process_payment env p w =
  (Py.Raise (Py.HTTPException 400 "Cart already used"), w).
Proof.
intros <-. unfold cart_used. rewrite process_payment_cases.
destruct (cart_mandates (db w) !! Models.cartId p) as [cart|]; [|done].
by intros ->.
Qed.

Lemma paid_cart_is_used env p w a w1 :
process_payment env p w = (Py.Return a, w1) →
cart_used (Models.cartId p) w1 = true ∧ success a = true.
Proof.
rewrite process_payment_cases.
destruct (cart_mandates (db w) !! Models.cartId p) as [cart|]; [|done].
destruct (CartMandateDB.is_used cart); [done|].
destruct (_ <? _); [done|].
destruct (payment_mandates (db w) !! _); [done|].
destruct (tasks (db w) !! _); [done|].
intros [= <- <-]. unfold cart_used. simpl. by rewrite lookup_insert_eq.
Qed.

(** C1.  Served from the start, whatever the requests and for every cart id
  [c]: at most one [processPayment] on [c] succeeds and at most one
  stored payment mandate names [c].  And on a stored cart that is unused
  and not expired, with identifiers that are not taken, a first
  [processPayment] succeeds and a second one on the same cart id, after
  any further requests, is refused with 400 "Cart already used". *)
Theorem cart_pays_at_most_once reqs c :
((successes c reqs (A2A.serve reqs start).1 ≤ 1)%nat ∧
 (size (payments_for c (A2A.serve reqs start).2) ≤ 1)%nat) ∧
∀ env1 env2 p1 p2 w cart between,
  Models.cartId p1 = c → Models.cartId p2 = c →
  cart_mandates (db w) !! c = Some cart →
  CartMandateDB.is_used cart = false →
  utcnow env1 ≤ CartMandateDB.expires_at cart →
  payment_mandates (db w) !! uuid4 env1 0%nat = None →
  tasks (db w) !! uuid4 env1 1%nat = None →
  ∃ a w1,
    process_payment env1 p1 w = (Py.Return a, w1) ∧ success a = true ∧
    let w2 := (A2A.serve between w1).2 in
    process_payment env2 p2 w2 =
      (Py.Raise (Py.HTTPException 400 "Cart already used"), w2).
Proof.
split.
- pose proof (serve_single_use c reqs 0 start (start_single_use c))
    as [Hn Hs].
  simpl in Hn. split.
  + clear Hs. destruct (cart_used c _); lia.
  + clear Hn. destruct (cart_used c _); [done|].
    revert Hs. generalize (size (payments_for c (A2A.serve reqs start).2)).
    intros; lia.
- intros env1 env2 p1 p2 w cart between H1 H2 Hcart Hused Hexp Hpay Htask.
  subst c.
  destruct (process_payment_twice env1 env2 p1 p2 w cart)
    as (a & w1 & Hfirst & Hok & _); try done.
  exists a, w1. split; [done|]. split; [done|]. simpl.
  apply (used_cart_is_refused (Models.cartId p1)); [done|].
  apply serve_keeps_used. by apply (paid_cart_is_used env1 p1 w a).
Qed.

Lemma cart_pays_at_most_once_witness :
∃ a w1,
  process_payment (Examples.env_at 10 (Examples.ids "pm-1" "task-1")
                     Examples.engine_ok)
    (Examples.pay "cart-1") Examples.with_cart = (Py.Return a, w1) ∧
  success a = true ∧
  let w2 :=
    (A2A.serve
       [(Examples.env_at 20 (Examples.ids "t-2" "") Examples.engine_ok,
         A2A.submitTask (Examples.submit None None "quick-consult"))] w1).2 in
  process_payment (Examples.env_at 30 (Examples.ids "pm-2" "task-2")
                     Examples.engine_ok)
    (Examples.pay "cart-1") w2 =
    (Py.Raise (Py.HTTPException 400 "Cart already used"), w2).
Proof.
apply (proj2 (cart_pays_at_most_once [] "cart-1")) with
  (cart := new_cart_row (Examples.env_at 0 (Examples.ids "cart-1" "")
             Examples.engine_ok) Examples.quick_cart
             {| Config.price := 2500;
                Config.description := "Quick consultation (15 min equivalent)" |});
  vm_compute; first [reflexivity | discriminate].
Defined.

End PaymentClaims.

Section PaymentClaims2.
Import AgentProduction.

(** C2.  agent_ap2.py at the failing input: a cart made at time 0 expires
  at time 3600; [process_payment] at time 7200 succeeds on it, and
  succeeds once more on the same cart, leaving two payment mandates. *)
Theorem ap2_pays_expired_and_used_cart :
let w := Examples.ap2_with_cart "pricing help" in
let late := Examples.env_at 7200 (Examples.ids "pm-1" "task-1") Examples.engine_ok in
let later := Examples.env_at 7300 (Examples.ids "pm-2" "task-2") Examples.engine_ok in
(AP2Types.cart_expiry ∘ AP2Types.contents <$> AgentAP2.cart_mandates w !! "cart-1")
  = Some 3600 ∧
∃ r1 w1 r2 w2,
  AgentAP2.process_payment late (Examples.ap2_pay "cart-1") w = (Py.Return r1, w1) ∧
  AgentAP2.payment_success r1 = true ∧
  AgentAP2.process_payment later (Examples.ap2_pay "cart-1") w1 = (Py.Return r2, w2) ∧
  AgentAP2.payment_success r2 = true ∧
  size (AgentAP2.payment_mandates w2) = 2%nat.
Proof.
split; [by vm_compute|].
eexists _, _, _, _. split; [by vm_compute|]. split; [done|].
split; [by vm_compute|]. split; [done|]. by vm_compute.
Qed.

(** The outcomes of [process_payment] in agent_production.py, in the order
  of its checks. *)
Lemma process_payment_outcomes env p w :
match cart_mandates (db w) !! Models.cartId p with
| None =>
    process_payment env p w =
      (Py.Raise (Py.HTTPException 404 "Cart not found or expired"), w)
| Some cart =>
    if CartMandateDB.is_used cart then
      process_payment env p w =
        (Py.Raise (Py.HTTPException 400 "Cart already used"), w)
    else if CartMandateDB.expires_at cart <? utcnow env then
      process_payment env p w =
        (Py.Raise (Py.HTTPException 400 "Cart expired"), w)
    else
      (∃ w', process_payment env p w =
               (Py.Return (the_answer env p cart), w')) ∨
      (∃ w', process_payment env p w =
               (Py.Raise (Py.HTTPException 500 "Payment processing failed"), w'))
end.
Proof.
rewrite process_payment_cases.
destruct (cart_mandates (db w) !! Models.cartId p) as [cart|]; [|done].
destruct (CartMandateDB.is_used cart); [done|].
destruct (_ <? _); [done|].
destruct (payment_mandates (db w) !! _); [eauto|].
destruct (tasks (db w) !! _); eauto.
Qed.

(** [mark_used] on a stored cart sets the flag and returns [True], whatever
  the flag was. *)
Lemma mark_used_stored c cart d :
cart_mandates d !! c = Some cart →
CartMandateRepository.mark_used c d =
  (Py.Return true,
   with_cart_mandates (insert c (CartMandateRepository.set_is_used cart)) d).
Proof.
intros Hcart.
unfold CartMandateRepository.mark_used, Py.bind, CartMandateRepository.get,
  Py.gets, Py.modify, Py.ret. by rewrite Hcart.
Qed.

Lemma serve_cons env req reqs w :
A2A.serve ((env, req) :: reqs) w =
  let first := A2A.handle_a2a_request env req w in
  let rest := A2A.serve reqs first.2 in
  (first.1 :: rest.1, rest.2).
Proof.
simpl. destruct (A2A.handle_a2a_request env req w) as [r w1]. simpl.
by destruct (A2A.serve reqs w1).
Qed.

(** Once a cart is used, [processPayment] calls on it are refused one and
  all, and leave the state as it is. *)
Lemma used_cart_refuses_all c calls : ∀ w,
cart_used c w = true →
Forall (λ call : Env * Models.ProcessPaymentParams,
          Models.cartId call.2 = c) calls →
A2A.serve ((λ call, (call.1, A2A.processPayment call.2)) <$> calls) w =
  ((λ _, {| A2A.status_code := 400;
            A2A.content := A2A.rpc_error 400 "Cart already used" |})
   <$> calls, w).
Proof.
induction calls as [|[env p] calls IH]; intros w Hused Hall; [done|].
apply Forall_cons in Hall as [Hc Hall]. simpl in Hc.
rewrite !fmap_cons. cbn [fst snd].
rewrite serve_cons, handle_process_payment. cbv zeta.
rewrite (used_cart_is_refused c env p w Hc Hused). cbn [fst snd].
by rewrite (IH w Hused Hall).
Qed.

(** C3, against the claim.  [mark_used] is no compare-and-set on [is_used]:
  it returns [True] on the unused cart [cart-1], and [True] again, with
  nothing changed, once the payment [pm-1] has used the cart. *)
Lemma mark_used_is_not_conditional :
cart_used "cart-1" Examples.with_cart = false ∧
(CartMandateRepository.mark_used "cart-1" (db Examples.with_cart)).1
  = Py.Return true ∧
cart_used "cart-1" Examples.with_payment = true ∧
CartMandateRepository.mark_used "cart-1" (db Examples.with_payment)
  = (Py.Return true, db Examples.with_payment).
Proof. by vm_compute. Qed.

(** C3, amended.  [processPayment] calls on one cart id, however many and
  each in an environment of its own, are served one after the other.  On
  a stored cart that is unused and not expired, with identifiers that
  are not taken, the call served first succeeds and every other call is
  answered 400 "Cart already used": exactly one succeeds, and the state
  is the one the first call left.  This rests on the test of [is_used]
  that [process_payment] makes on the cart it reads, not on [mark_used],
  which sets the flag of every stored cart, used or not, and returns
  [True]. *)
Theorem payments_on_one_cart_succeed_once env p w cart others :
cart_mandates (db w) !! Models.cartId p = Some cart →
CartMandateDB.is_used cart = false →
utcnow env ≤ CartMandateDB.expires_at cart →
payment_mandates (db w) !! uuid4 env 0%nat = None →
tasks (db w) !! uuid4 env 1%nat = None →
Forall (λ call : Env * Models.ProcessPaymentParams,
          Models.cartId call.2 = Models.cartId p) others →
let reqs :=
  (λ call, (call.1, A2A.processPayment call.2)) <$> (env, p) :: others in
let out := A2A.serve reqs w in
out.1 =
  {| A2A.status_code := 200;
     A2A.content :=
       A2A.rpc_result (A2A.payment_result (the_answer env p cart)) |}
  :: ((λ _, {| A2A.status_code := 400;
               A2A.content := A2A.rpc_error 400 "Cart already used" |})
      <$> others) ∧
successes (Models.cartId p) reqs out.1 = 1%nat ∧
out.2 = (process_payment env p w).2 ∧
∀ c cart' d, cart_mandates d !! c = Some cart' →
  CartMandateRepository.mark_used c d =
    (Py.Return true,
     with_cart_mandates (insert c (CartMandateRepository.set_is_used cart')) d).
Proof.
intros Hcart Hunused Hexp Hpay Htask Hall. cbv zeta.
destruct (process_payment env p w) as [r w1] eqn:Hfirst.
assert (r = Py.Return (the_answer env p cart)) as ->.
{ revert Hfirst. rewrite process_payment_cases, Hcart, Hunused, Hpay, Htask.
  rewrite (proj2 (Z.ltb_ge _ _)) by done. by intros [= <- _]. }
pose proof (paid_cart_is_used env p w _ w1 Hfirst) as [Hused _].
rewrite fmap_cons. cbn [fst snd].
rewrite serve_cons, handle_process_payment. cbv zeta.
rewrite Hfirst. cbn [fst snd].
rewrite (used_cart_refuses_all (Models.cartId p) others w1 Hused Hall).
cbn [fst snd].
split; [done|]. split; [|split; [done|]].
- cbn [successes payment_ok A2A.content]. 
  rewrite bool_decide_eq_true_2 by done. cbn [success the_answer andb].
  clear. induction others as [|[env' p'] others IH]; [done|].
  cbn [fmap list_fmap successes payment_ok A2A.content].
  exact IH.
- intros c cart' d. apply mark_used_stored.
Qed.

Lemma payments_on_one_cart_succeed_once_witness :
let first := Examples.env_at 10 (Examples.ids "pm-1" "task-1") Examples.engine_ok in
let second := Examples.env_at 10 (Examples.ids "pm-2" "task-2") Examples.engine_ok in
let third := Examples.env_at 11 (Examples.ids "pm-3" "task-3") Examples.engine_ok in
let out :=
  A2A.serve
    [ (first, A2A.processPayment (Examples.pay "cart-1"));
      (second, A2A.processPayment (Examples.pay "cart-1"));
      (third, A2A.processPayment (Examples.pay "cart-1")) ]
    Examples.with_cart in
A2A.status_code <$> out.1 = [200; 400; 400] ∧
out.2 = Examples.with_payment.
Proof.
pose proof (payments_on_one_cart_succeed_once
  (Examples.env_at 10 (Examples.ids "pm-1" "task-1") Examples.engine_ok)
  (Examples.pay "cart-1") Examples.with_cart
  (new_cart_row (Examples.env_at 0 (Examples.ids "cart-1" "")
                   Examples.engine_ok) Examples.quick_cart
     {| Config.price := 2500;
        Config.description := "Quick consultation (15 min equivalent)" |})
  [ (Examples.env_at 10 (Examples.ids "pm-2" "task-2") Examples.engine_ok,
     Examples.pay "cart-1");
    (Examples.env_at 11 (Examples.ids "pm-3" "task-3") Examples.engine_ok,
     Examples.pay "cart-1") ]
  ltac:(vm_compute; reflexivity) ltac:(vm_compute; reflexivity)
  ltac:(vm_compute; discriminate) ltac:(vm_compute; reflexivity)
  ltac:(vm_compute; reflexivity) ltac:(repeat constructor))
  as (Hanswers & _ & Hstate & _).
split.
- exact (f_equal (fmap A2A.status_code) Hanswers).
- exact Hstate.
Defined.

(** C4, against the claim.  The task id drawn by [process_payment] is
  already stored: the call fails with 500, yet the payment mandate is
  stored and the cart is used, and no task was added. *)
Lemma payment_persists_without_its_task :
let w := (submit_task
            (Examples.env_at 5 (Examples.ids "" "") Examples.engine_ok)
            (Examples.submit (Some "task-1") None "quick-consult")
            Examples.with_cart).2 in
let out := process_payment
             (Examples.env_at 10 (Examples.ids "pm-1" "task-1") Examples.engine_ok)
             (Examples.pay "cart-1") w in
out.1 = Py.Raise (Py.HTTPException 500 "Payment processing failed") ∧
is_Some (payment_mandates (db out.2) !! "pm-1") ∧
cart_used "cart-1" out.2 = true ∧
tasks (db out.2) = tasks (db w).
Proof. vm_compute. split; [done|]. split; [eauto|]. done. Qed.

(** C4, amended.  The three writes of [process_payment] are committed one
  by one, in the order payment mandate, cart flag, task.  A call that
  returns has made all three.  A call that raises has either written
  nothing, or it failed with 500 on the task, whose id was taken, after
  the payment mandate was stored and the cart marked used. *)
Theorem payment_writes_commit_one_by_one env p w :
match process_payment env p w with
| (Py.Return a, w') =>
    is_Some (payment_mandates (db w') !! payment_mandate_id a) ∧
    cart_used (Models.cartId p) w' = true ∧
    is_Some (tasks (db w') !! task_id a) ∧
    payment_mandates (db w) !! payment_mandate_id a = None ∧
    cart_used (Models.cartId p) w = false ∧
    tasks (db w) !! task_id a = None
| (Py.Raise e, w') =>
    w' = w ∨
    (e = Py.HTTPException 500 "Payment processing failed" ∧
     is_Some (tasks (db w) !! uuid4 env 1%nat) ∧
     payment_mandates (db w) !! uuid4 env 0%nat = None ∧
     is_Some (payment_mandates (db w') !! uuid4 env 0%nat) ∧
     cart_used (Models.cartId p) w = false ∧
     cart_used (Models.cartId p) w' = true ∧
     tasks (db w') = tasks (db w))
end.
Proof.
rewrite process_payment_cases. unfold cart_used.
destruct (cart_mandates (db w) !! Models.cartId p) as [cart|] eqn:Hcart;
  [|by left].
destruct (CartMandateDB.is_used cart) eqn:Hused; [by left|].
destruct (_ <? _); [by left|].
destruct (payment_mandates (db w) !! _) eqn:Hpay; [by left|].
destruct (tasks (db w) !! _) eqn:Htask; simpl.
- right. rewrite !lookup_insert_eq. eauto 10.
- rewrite !lookup_insert_eq. eauto 10.
Qed.

End PaymentClaims2.

(** ** agent_ap2.py: the outcomes of the handlers *)

Section InMemoryOutcomes.
Import AgentAP2.

Lemma ap2_process_task_cases env task_id skill_id user_message w t :
tasks w !! task_id = Some t →
process_task env task_id skill_id user_message w =
match Py.lookup_key skill_id AgentProduction.service_context with
| None =>
    let msg := "'" +:+ skill_id +:+ "'" in
    (Py.Return (ap2_failed_answer task_id msg),
     with_tasks (insert task_id (set_failed msg t)) w)
| Some context =>
    let prompt := AgentProduction.consulting_prompt context user_message in
    let w1 := ap2_prompted prompt w in
    match generate_content env prompt with
    | inr msg =>
        (Py.Return (ap2_failed_answer task_id msg),
         with_tasks (insert task_id (set_failed msg t)) w1)
    | inl text =>
        let done := set_completed text (utcnow env) t in
        let w2 := with_tasks (insert task_id done) w1 in
        match Py.lookup_key skill_id (PRICING env) with
        | None =>
            let msg := "'" +:+ skill_id +:+ "'" in
            (Py.Return (ap2_failed_answer task_id msg),
             with_tasks (insert task_id (set_failed msg done)) w2)
        | Some details =>
            (Py.Return (ap2_completed_answer task_id skill_id text details), w2)
        end
    end
end.
Proof.
intros Ht. destruct w as [ts cs ps l]. simpl in Ht.
unfold process_task, ap2_prompted, Py.try_except, Py.bind, Py.getitem,
  update_task, model_generate_content, Py.ret, Py.raise. simpl.
destruct (Py.lookup_key skill_id AgentProduction.service_context) as [ctx|];
  simpl.
- destruct (generate_content env _) as [text|msg]; simpl.
  + rewrite Ht. simpl.
    destruct (Py.lookup_key skill_id (PRICING env)); simpl; [done|].
    by rewrite lookup_insert_eq.
  + by rewrite Ht.
- by rewrite Ht.
Qed.

Lemma ap2_submit_task_cases env p w :
submit_task env p w =
match task_skillId p ≫= λ k, Py.lookup_key k (PRICING env) with
| None =>
    (Py.Return {| taskId := Some (ap2_task_id_of env p);
                  result_status := "failed";
                  message :=
                    Some (AgentProduction.agent_text
                            ("Unknown service: " +:+ fmt (task_skillId p)));
                  artifacts := [];
                  metadata := None;
                  next_steps := [] |}, w)
| Some details =>
    let w1 := ap2_registered env p details w in
    if ap2_authorized p w
    then process_task env (ap2_task_id_of env p)
           (default "" (task_skillId p)) (ap2_user_message p) w1
    else (Py.Return (ap2_required_answer env p details), w1)
end.
Proof.
unfold submit_task, has_opt_key, Py.has_key, ap2_registered,
  ap2_authorized, ap2_required_answer, ap2_new_row, ap2_user_message,
  ap2_task_id_of.
destruct (task_skillId p) as [k|]; simpl; [|done].
destruct (Py.lookup_key k (PRICING env)) as [details|] eqn:Hk; simpl; [|done].
unfold Py.bind at 1, Py.gets at 1.
unfold Py.bind at 1, Py.getitem. rewrite Hk. unfold Py.ret at 1.
unfold Py.bind at 1, Py.gets at 1.
unfold Py.bind at 1.
set (id := if Py.truthy (task_taskId p) then default "" (task_taskId p)
           else uuid4 env 0%nat).
set (known := bool_decide (is_Some (task_paymentMandateId p ≫= _))).
destruct (tasks w !! id) as [t|] eqn:Ht.
- rewrite bool_decide_eq_true_2 by eauto. simpl.
  by destruct (Py.truthy (task_paymentMandateId p) && known).
- rewrite bool_decide_eq_false_2 by (intros [? ?]; done). simpl.
  by destruct (Py.truthy (task_paymentMandateId p) && known).
Qed.

End InMemoryOutcomes.

(** ** Claims on tasks *)

Section TaskClaims.
Import AgentProduction.

Lemma updated_engine_calls i ups w :
engine_calls (updated i ups w) = engine_calls w.
Proof.
destruct w as [d l]. unfold updated, on_db, TaskRepository.update, Py.bind,
  TaskRepository.get, Py.gets, Py.modify, Py.ret. simpl.
by destruct (tasks d !! i).
Qed.

Lemma updated_mandates i ups w : same_mandates w (updated i ups w).
Proof. apply update_same_mandates. Qed.

Lemma updated_stored i ups w t :
tasks (db w) !! i = Some t →
tasks (db (updated i ups w)) !! i = Some (foldl setattr t ups).
Proof.
destruct w as [d l]. unfold updated, on_db, TaskRepository.update, Py.bind,
  TaskRepository.get, Py.gets, Py.modify, Py.ret. simpl.
intros ->. simpl. by rewrite lookup_insert_eq.
Qed.

Lemma updated_missing i ups w :
tasks (db w) !! i = None → updated i ups w = w.
Proof.
destruct w as [d l]. unfold updated, on_db, TaskRepository.update, Py.bind,
  TaskRepository.get, Py.gets, Py.modify, Py.ret. simpl.
by intros ->.
Qed.

(** What [process_task] does whatever the engine answers: one prompt is
  sent, the mandates are left alone, and no task is stored. *)
Lemma process_task_frame env i skill_id user_message ctx w :
Py.lookup_key skill_id service_context = Some ctx →
let out := process_task env i skill_id user_message w in
engine_calls out.2 = consulting_prompt ctx user_message :: engine_calls w ∧
same_mandates w out.2 ∧
(tasks (db w) !! i = None → tasks (db out.2) = tasks (db w)).
Proof.
intros Hctx. cbv zeta. rewrite process_task_cases, Hctx. cbv zeta.
assert (∀ ups1 ups2 w',
  engine_calls (updated i ups2 (prompted (consulting_prompt ctx user_message)
                                  (updated i ups1 w')))
    = consulting_prompt ctx user_message :: engine_calls w' ∧
  same_mandates w' (updated i ups2 (prompted (consulting_prompt ctx user_message)
                                      (updated i ups1 w'))) ∧
  (tasks (db w') !! i = None →
   tasks (db (updated i ups2 (prompted (consulting_prompt ctx user_message)
                                (updated i ups1 w')))) = tasks (db w')))
  as Htwo.
{ intros ups1 ups2 w'. split; [|split].
  - rewrite updated_engine_calls. simpl. by rewrite updated_engine_calls.
  - destruct (updated_mandates i ups1 w') as [Hc1 Hp1].
    destruct (updated_mandates i ups2
      (prompted (consulting_prompt ctx user_message) (updated i ups1 w')))
      as [Hc2 Hp2].
    split; simpl in *; [by rewrite Hc2, Hc1 | by rewrite Hp2, Hp1].
  - intros Hnone. rewrite (updated_missing i ups1 w' Hnone).
    by rewrite (updated_missing i ups2 (prompted _ w') Hnone). }
destruct (generate_content env _) as [text|msg]; [|apply Htwo].
destruct (Py.lookup_key skill_id (PRICING env)); [apply Htwo|].
destruct (Htwo [set_status "working"; set_started_at (utcnow env)]
            [set_status "completed"; set_result text;
             set_completed_at (utcnow env)] w) as (Hl & [Hc Hp] & Ht).
cbn [snd]. split; [|split].
- by rewrite updated_engine_calls.
- match goal with |- same_mandates _ (updated ?j ?ups ?w') =>
    destruct (updated_mandates j ups w') as [Hc3 Hp3] end.
  split; simpl in *; [by rewrite Hc3, Hc | by rewrite Hp3, Hp].
- intros Hnone. rewrite updated_missing; [by apply Ht|].
  by rewrite (Ht Hnone).
Qed.

(** C5, against the claim.  Payment mandate [pm-1] is stored with status
  [authorized]; with the engine down, the [submitTask] that carries it
  returns no task status in agent_production.py: it raises, and the
  endpoint answers with the error 500 "Task submission failed".  The
  status [failed] is written to the stored task only. *)
Lemma paid_submission_returns_no_status :
let env := Examples.env_at 20 (Examples.ids "" "") Examples.engine_down in
let p := Examples.submit (Some "task-1") (Some "pm-1") "quick-consult" in
let out := submit_task env p Examples.with_payment in
(PaymentMandateDB.status <$>
   payment_mandates (db Examples.with_payment) !! "pm-1") = Some "authorized" ∧
out.1 = Py.Raise (Py.HTTPException 500 "Task submission failed") ∧
(A2A.handle_a2a_request env (A2A.submitTask p) Examples.with_payment).1 =
  {| A2A.status_code := 500;
     A2A.content := A2A.rpc_error 500 "Task submission failed" |} ∧
(Task.status <$> tasks (db out.2) !! "task-1") = Some "failed".
Proof. by vm_compute. Qed.

(** C5, amended.  A [submitTask] whose [paymentMandateId] names a stored
  payment mandate (with status authorized, in agent_production.py), for
  a skill of the catalogue that has a consulting context, runs the task
  before it returns: one prompt is sent to the engine, the mandates are
  left as they are, and the answer is never [payment_required].  When
  the engine answers, both variants return [completed] with the engine's
  text, and a stored task is set to [completed].  When the engine fails,
  agent_ap2.py returns [failed], while agent_production.py returns no
  status: it raises 500 "Task submission failed", a stored task being
  set to [failed].  agent_production.py stores no task of its own on
  this path. *)
Theorem paid_submission_runs_at_once env p w q v ctx ctx' details details' :
Py.lookup_key (Models.skillId p) (PRICING env) = Some details →
authorized p w = true →
Py.lookup_key (Models.skillId p) service_context = Some ctx →
(AgentAP2.task_skillId q ≫= λ k, Py.lookup_key k (PRICING env))
  = Some details' →
ap2_authorized q v = true →
Py.lookup_key (default "" (AgentAP2.task_skillId q)) service_context
  = Some ctx' →
(let out := submit_task env p w in
 let i := task_id_of env p in
 let prompt :=
   consulting_prompt ctx
     (Models.collect_text (Models.parts (Models.message p)) "") in
 engine_calls out.2 = prompt :: engine_calls w ∧
 same_mandates w out.2 ∧
 (tasks (db w) !! i = None → tasks (db out.2) = tasks (db w)) ∧
 match generate_content env prompt with
 | inl text =>
     (∃ r, out.1 = Py.Return r ∧ taskId r = i ∧ status r = "completed" ∧
           message r = Some (agent_text text)) ∧
     ∀ t, tasks (db w) !! i = Some t →
       ∃ t', tasks (db out.2) !! i = Some t' ∧
             Task.status t' = "completed" ∧ Task.result t' = Some text
 | inr msg =>
     out.1 = Py.Raise (Py.HTTPException 500 "Task submission failed") ∧
     ∀ t, tasks (db w) !! i = Some t →
       ∃ t', tasks (db out.2) !! i = Some t' ∧
             Task.status t' = "failed" ∧ Task.error t' = Some msg
 end) ∧
(let out := AgentAP2.submit_task env q v in
 let i := ap2_task_id_of env q in
 let prompt := consulting_prompt ctx' (ap2_user_message q) in
 AgentAP2.engine_calls out.2 = prompt :: AgentAP2.engine_calls v ∧
 ap2_same_mandates v out.2 ∧
 ∃ r u, out.1 = Py.Return r ∧ AgentAP2.taskId r = Some i ∧
        AgentAP2.tasks out.2 !! i = Some u ∧
        match generate_content env prompt with
        | inl text =>
            AgentAP2.result_status r = "completed" ∧
            AgentAP2.message r = Some (agent_text text) ∧
            AgentAP2.status u = "completed" ∧
            AgentAP2.result u = Some text
        | inr msg =>
            AgentAP2.result_status r = "failed" ∧
            AgentAP2.status u = "failed" ∧
            AgentAP2.error u = Some msg
        end).
Proof.
intros Hk Hauth Hctx Hk' Hauth' Hctx'. split.
- cbv zeta.
  pose proof (process_task_frame env (task_id_of env p) (Models.skillId p)
    (Models.collect_text (Models.parts (Models.message p)) "") ctx w Hctx)
    as Hframe. cbv zeta in Hframe.
  assert ((submit_task env p w).2 =
          (process_task env (task_id_of env p) (Models.skillId p)
             (Models.collect_text (Models.parts (Models.message p)) "") w).2)
    as Hstate.
  { rewrite submit_task_cases, Hk, Hauth.
    by destruct (process_task _ _ _ _ _) as [[?|?] ?]. }
  rewrite Hstate. destruct Hframe as (Hl & Hm & Hnone).
  split; [done|]. split; [done|]. split; [done|].
  rewrite submit_task_cases, Hk, Hauth, process_task_cases, Hctx.
  cbv zeta. destruct (generate_content env _) as [text|msg].
  + rewrite Hk. split; [by eexists|].
    intros t Ht. eexists. split.
    * apply updated_stored. simpl. by apply updated_stored.
    * done.
  + split; [done|].
    intros t Ht. eexists. split.
    * apply updated_stored. simpl. by apply updated_stored.
    * done.
- destruct (AgentAP2.task_skillId q) as [k|] eqn:Hq; [|done]. simpl in *.
  cbv zeta. rewrite ap2_submit_task_cases, Hq. simpl. rewrite Hk', Hauth'.
  assert (∃ t, AgentAP2.tasks (ap2_registered env q details' v)
                 !! ap2_task_id_of env q = Some t ∧
               AgentAP2.engine_calls (ap2_registered env q details' v)
                 = AgentAP2.engine_calls v ∧
               ap2_same_mandates v (ap2_registered env q details' v))
    as (t & Ht & Hl & Hc & Hp).
  { unfold ap2_registered.
    destruct (AgentAP2.tasks v !! ap2_task_id_of env q) eqn:Hold;
      [by eexists|].
    eexists. simpl. by rewrite lookup_insert_eq. }
  rewrite (ap2_process_task_cases _ _ _ _ _ t Ht), Hctx'. cbv zeta.
  destruct (generate_content env _) as [text|msg].
  + rewrite Hk'. simpl. rewrite Hl. split; [done|]. split; [done|].
    eexists _, _. split; [done|]. split; [done|].
    rewrite lookup_insert_eq. done.
  + simpl. rewrite Hl. split; [done|]. split; [done|].
    eexists _, _. split; [done|]. split; [done|].
    rewrite lookup_insert_eq. done.
Qed.

Lemma paid_submission_runs_at_once_witness :
let env := Examples.env_at 20 (Examples.ids "task-2" "") Examples.engine_ok in
let out := submit_task env
  (Examples.submit (Some "task-1") (Some "pm-1") "quick-consult")
  Examples.with_payment in
(∃ r, out.1 = Py.Return r ∧ taskId r = "task-1" ∧ status r = "completed" ∧
      message r = Some (agent_text "Advice.")) ∧
∃ t', tasks (db out.2) !! "task-1" = Some t' ∧
      Task.status t' = "completed" ∧ Task.result t' = Some "Advice.".
Proof.
pose proof (paid_submission_runs_at_once
  (Examples.env_at 20 (Examples.ids "task-2" "") Examples.engine_ok)
  (Examples.submit (Some "task-1") (Some "pm-1") "quick-consult")
  Examples.with_payment
  (Examples.ap2_submit None (Some "pm-1") "quick-consult")
  Examples.ap2_with_payment
  "You are a business consultant. Provide quick, actionable advice."
  "You are a business consultant. Provide quick, actionable advice."
  {| Config.price := 2500;
     Config.description := "Quick consultation (15 min equivalent)" |}
  {| Config.price := 2500;
     Config.description := "Quick consultation (15 min equivalent)" |}
  ltac:(vm_compute; reflexivity) ltac:(vm_compute; reflexivity)
  ltac:(vm_compute; reflexivity) ltac:(vm_compute; reflexivity)
  ltac:(vm_compute; reflexivity) ltac:(vm_compute; reflexivity))
  as [(_ & _ & _ & Hanswer & Hrow) _].
split; [exact Hanswer|].
exact (Hrow
  (the_task_row
     (Examples.env_at 10 (Examples.ids "pm-1" "task-1") Examples.engine_ok)
     (Examples.pay "cart-1")
     (new_cart_row (Examples.env_at 0 (Examples.ids "cart-1" "")
                      Examples.engine_ok) Examples.quick_cart
        {| Config.price := 2500;
           Config.description := "Quick consultation (15 min equivalent)" |}))
  ltac:(vm_compute; reflexivity)).
Defined.

End TaskClaims.

Section TaskClaims2.
Import AgentProduction.

(** C6, against the claim.  A second [submitTask] that names the task id of
  the first creates no task: agent_production.py fails with 500 and
  leaves the tables as they were; agent_ap2.py answers
  [payment_required] although the stored task, here a completed one, is
  kept as it is. *)
Lemma resubmission_creates_no_task :
let env := Examples.env_at 5 (Examples.ids "" "") Examples.engine_ok in
let p := Examples.submit (Some "t-1") None "quick-consult" in
let w1 := (submit_task env p start).2 in
let q := Examples.ap2_submit (Some "t-1") (Some "pm-1") "quick-consult" in
let q' := Examples.ap2_submit (Some "t-1") None "quick-consult" in
let v1 := (AgentAP2.submit_task env q Examples.ap2_with_payment).2 in
submit_task env p w1 =
  (Py.Raise (Py.HTTPException 500 "Task submission failed"), w1) ∧
(AgentAP2.status <$> AgentAP2.tasks v1 !! "t-1") = Some "completed" ∧
(AgentAP2.result_status <$>
   match (AgentAP2.submit_task env q' v1).1 with
   | Py.Return r => Some r
   | Py.Raise _ => None
   end) = Some "payment_required" ∧
(AgentAP2.submit_task env q' v1).2 = v1.
Proof. by vm_compute. Qed.

(** C6, amended.  A [submitTask] for a skill of the catalogue, with no
  stored authorized payment mandate named and with a task id that is not
  stored yet, stores a task with status [payment_required] and the price
  of the catalogue, and answers [payment_required] with [next_steps]
  listing createIntentMandate, createCartMandate, processPayment in this
  order. *)
Theorem unpaid_submission_waits_for_payment env p w q v details details' :
Py.lookup_key (Models.skillId p) (PRICING env) = Some details →
authorized p w = false →
tasks (db w) !! task_id_of env p = None →
(AgentAP2.task_skillId q ≫= λ k, Py.lookup_key k (PRICING env)) = Some details' →
ap2_authorized q v = false →
AgentAP2.tasks v !! ap2_task_id_of env q = None →
(let out := submit_task env p w in
 ∃ r t,
   out.1 = Py.Return r ∧ status r = "payment_required" ∧
   next_steps r =
     [("ap2_flow", [("1", "createIntentMandate");
                    ("2", "createCartMandate");
                    ("3", "processPayment")])] ∧
   tasks (db out.2) !! taskId r = Some t ∧
   Task.status t = "payment_required" ∧
   Task.price t = Config.price details ∧
   Task.currency t = Config.default_currency (settings env)) ∧
(let out := AgentAP2.submit_task env q v in
 ∃ r i t,
   out.1 = Py.Return r ∧ AgentAP2.result_status r = "payment_required" ∧
   AgentAP2.next_steps r =
     [("ap2_flow", [("1", "createIntentMandate");
                    ("2", "createCartMandate");
                    ("3", "processPayment")])] ∧
   AgentAP2.taskId r = Some i ∧
   AgentAP2.tasks out.2 !! i = Some t ∧
   AgentAP2.status t = "payment_required" ∧
   AgentAP2.price t = Config.price details').
Proof.
intros Hk Hauth Hnew Hk' Hauth' Hnew'. split.
- cbv zeta. rewrite submit_task_cases, Hk, Hauth, Hnew.
  exists (required_answer env p details), (required_row env p details).
  simpl. by rewrite lookup_insert_eq.
- cbv zeta. rewrite ap2_submit_task_cases, Hk'. cbv zeta.
  rewrite Hauth'. unfold ap2_registered. rewrite Hnew', Hauth'.
  exists (ap2_required_answer env q details'), (ap2_task_id_of env q),
    (ap2_new_row env q details' false).
  simpl. by rewrite lookup_insert_eq.
Qed.

Lemma unpaid_submission_waits_for_payment_witness :
let env := Examples.env_at 5 (Examples.ids "t-1" "") Examples.engine_ok in
let out := submit_task env (Examples.submit None None "quick-consult") start in
∃ r t,
  out.1 = Py.Return r ∧ status r = "payment_required" ∧
  next_steps r =
    [("ap2_flow", [("1", "createIntentMandate");
                   ("2", "createCartMandate");
                   ("3", "processPayment")])] ∧
  tasks (db out.2) !! taskId r = Some t ∧
  Task.status t = "payment_required" ∧
  Task.price t = 2500 ∧
  Task.currency t = "USD".
Proof.
refine (proj1 (unpaid_submission_waits_for_payment
  (Examples.env_at 5 (Examples.ids "t-1" "") Examples.engine_ok)
  (Examples.submit None None "quick-consult") start
  (Examples.ap2_submit None None "quick-consult") AgentAP2.start
  {| Config.price := 2500;
     Config.description := "Quick consultation (15 min equivalent)" |}
  {| Config.price := 2500;
     Config.description := "Quick consultation (15 min equivalent)" |}
  _ _ _ _ _ _)); vm_compute; reflexivity.
Defined.

Lemma serve_keeps_billing reqs : ∀ w, keeps_billing w (A2A.serve reqs w).2.
Proof.
induction reqs as [|[env req] reqs IH]; intros w; simpl; [reflexivity|].
pose proof (handle_keeps_billing env req w) as Hstep.
destruct (A2A.handle_a2a_request env req w) as [r w1].
specialize (IH w1). destruct (A2A.serve reqs w1). simpl in *.
by etrans.
Qed.

Lemma get_task_status_cases p w :
get_task_status p w =
match tasks (db w) !! Models.status_taskId p with
| None => (Py.Raise (Py.HTTPException 404 "Task not found"), w)
| Some task =>
    (Py.Return
       {| taskId := Task.id task;
          status := Task.status task;
          message :=
            (if String.eqb (Task.status task) "completed"
             then Some (agent_text
                          (if Py.truthy (Task.result task)
                           then default "" (Task.result task)
                           else "Task completed"))
             else None);
          artifacts := [];
          metadata :=
            (if String.eqb (Task.status task) "completed"
             then Some {| service := Task.skill_id task;
                          price := Task.price task;
                          currency := Task.currency task;
                          billable := true;
                          payment_protocol := None |}
             else None);
          next_steps := [] |}, w)
end.
Proof.
destruct w as [d l].
unfold get_task_status, Py.try_except, Py.bind, on_db, TaskRepository.get,
  Py.gets, Py.ret, Py.raise. simpl.
destruct (tasks d !! Models.status_taskId p) as [task|]; simpl; [|done].
by destruct (String.eqb (Task.status task) "completed").
Qed.

(** C7.  A stored task keeps its price and currency through any requests,
  each served with an environment, hence a catalogue, of its own; and
  [getTaskStatus] answers from the stored row: the price and currency it
  reports, which it does for a completed task, are the stored ones. *)
Theorem billed_price_is_fixed reqs w i t :
tasks (db w) !! i = Some t →
let w' := (A2A.serve reqs w).2 in
∃ t' r,
  tasks (db w') !! i = Some t' ∧
  Task.price t' = Task.price t ∧ Task.currency t' = Task.currency t ∧
  get_task_status {| Models.status_taskId := i |} w' = (Py.Return r, w') ∧
  status r = Task.status t' ∧
  metadata r =
    if String.eqb (Task.status t') "completed"
    then Some {| service := Task.skill_id t';
                 price := Task.price t;
                 currency := Task.currency t;
                 billable := true;
                 payment_protocol := None |}
    else None.
Proof.
intros Ht. cbv zeta.
destruct (serve_keeps_billing reqs w i t Ht) as (t' & Ht' & Hp & Hc).
eexists t', _. split; [done|]. split; [done|]. split; [done|].
rewrite get_task_status_cases. simpl. rewrite Ht'.
split; [done|]. split; [done|]. simpl. by rewrite Hp, Hc.
Qed.

Lemma billed_price_is_fixed_witness :
let reqs :=
  [ (Examples.raised_env_at 20 (Examples.ids "" "") Examples.engine_ok,
     A2A.submitTask (Examples.submit (Some "t-1") (Some "pm-1") "quick-consult")) ] in
let w' := (A2A.serve reqs Examples.with_waiting_task).2 in
∃ t' r,
  tasks (db w') !! "t-1" = Some t' ∧
  Task.price t' = 2500 ∧ Task.currency t' = "USD" ∧
  get_task_status {| Models.status_taskId := "t-1" |} w' = (Py.Return r, w') ∧
  status r = Task.status t' ∧
  metadata r =
    if String.eqb (Task.status t') "completed"
    then Some {| service := Task.skill_id t';
                 price := 2500;
                 currency := "USD";
                 billable := true;
                 payment_protocol := None |}
    else None.
Proof.
refine (billed_price_is_fixed
  [ (Examples.raised_env_at 20 (Examples.ids "" "") Examples.engine_ok,
     A2A.submitTask (Examples.submit (Some "t-1") (Some "pm-1") "quick-consult")) ]
  Examples.with_waiting_task "t-1"
  (required_row (Examples.env_at 15 (Examples.ids "" "") Examples.engine_ok)
     (Examples.submit (Some "t-1") None "quick-consult")
     {| Config.price := 2500;
        Config.description := "Quick consultation (15 min equivalent)" |}) _).
vm_compute; reflexivity.
Defined.

End TaskClaims2.

#[local] Instance ap2_keeps_row_preorder i : PreOrder (ap2_keeps_row i).
Proof.
  split.
  - intros w t Ht. done.
  - intros a b c Hab Hbc t Ht. apply Hbc, Hab, Ht.
Qed.

Section TaskClaims3.
Import AgentProduction.

(** C8, against the claim.  In agent_production.py a [submitTask] with an
  authorized payment mandate whose generation fails is answered with
  HTTP status 500 and a JSON-RPC error; the task id drawn for it names
  no stored task afterwards. *)
Lemma failed_generation_is_an_http_error :
let env := Examples.env_at 20 (Examples.ids "task-2" "") Examples.engine_down in
let out := A2A.handle_a2a_request env
  (A2A.submitTask (Examples.submit None (Some "pm-1") "quick-consult"))
  Examples.with_payment in
out.1 = {| A2A.status_code := 500;
           A2A.content := A2A.rpc_error 500 "Task submission failed" |} ∧
tasks (db out.2) !! "task-2" = None.
Proof. by vm_compute. Qed.

(** C8, amended.  When the engine fails with [msg] during the execution of
  a task that is stored, the task is set to [failed] with [msg] as its
  error and the carts and payment mandates are left as they are;
  [getTaskStatus] then shows [failed].  agent_ap2.py returns the failure
  as an answer with status [failed]; agent_production.py raises it as an
  HTTP error 500. *)
Theorem failed_generation_marks_the_task env i skill_id user_message ctx msg
  w t v u :
Py.lookup_key skill_id service_context = Some ctx →
generate_content env (consulting_prompt ctx user_message) = inr msg →
tasks (db w) !! i = Some t →
AgentAP2.tasks v !! i = Some u →
(let out := process_task env i skill_id user_message w in
 out.1 = Py.Raise (Py.HTTPException 500 ("Task processing failed: " +:+ msg)) ∧
 same_mandates w out.2 ∧
 (∃ t', tasks (db out.2) !! i = Some t' ∧
        Task.status t' = "failed" ∧ Task.error t' = Some msg) ∧
 ∃ r, get_task_status {| Models.status_taskId := i |} out.2 = (Py.Return r, out.2) ∧
      status r = "failed") ∧
(let out := AgentAP2.process_task env i skill_id user_message v in
 (∃ r, out.1 = Py.Return r ∧ AgentAP2.result_status r = "failed") ∧
 ap2_same_mandates v out.2 ∧
 (∃ u', AgentAP2.tasks out.2 !! i = Some u' ∧
        AgentAP2.status u' = "failed" ∧ AgentAP2.error u' = Some msg) ∧
 ∃ r, AgentAP2.get_task_status (Some i) out.2 = (Py.Return r, out.2) ∧
      AgentAP2.result_status r = "failed").
Proof.
intros Hctx Hgen Ht Hu. split.
- cbv zeta. rewrite process_task_cases, Hctx. cbv zeta. rewrite Hgen.
  set (w1 := updated i [set_status "working"; set_started_at (utcnow env)] w).
  assert (∃ t1, tasks (db (prompted (consulting_prompt ctx user_message) w1))
                  !! i = Some t1) as [t1 Ht1].
  { eexists. simpl. unfold w1. by apply updated_stored. }
  pose proof (updated_stored i [set_status "failed"; set_error msg] _ _ Ht1)
    as Hfailed.
  split; [done|]. split; [|split].
  + simpl.
    destruct (updated_mandates i
      [set_status "working"; set_started_at (utcnow env)] w) as [Hc1 Hp1].
    destruct (updated_mandates i [set_status "failed"; set_error msg]
      (prompted (consulting_prompt ctx user_message) w1)) as [Hc Hp].
    fold w1 in Hc1, Hp1.
    split; simpl in *; [by rewrite Hc, Hc1 | by rewrite Hp, Hp1].
  + eexists. split; [exact Hfailed|]. done.
  + eexists. rewrite get_task_status_cases. simpl.
    rewrite Hfailed. done.
- cbv zeta. rewrite (ap2_process_task_cases _ _ _ _ _ u Hu), Hctx.
  cbv zeta. rewrite Hgen. simpl.
  split; [eauto|]. split; [done|]. split.
  + eexists. rewrite lookup_insert_eq. done.
  + eexists. unfold AgentAP2.get_task_status, Py.bind, Py.gets. simpl.
    rewrite lookup_insert_eq. simpl. done.
Qed.

Lemma failed_generation_marks_the_task_witness :
let env := Examples.env_at 20 (Examples.ids "" "") Examples.engine_down in
let out := process_task env "task-1" "quick-consult" "Help" Examples.with_payment in
out.1 = Py.Raise (Py.HTTPException 500
          ("Task processing failed: " +:+ "503 service unavailable")) ∧
same_mandates Examples.with_payment out.2 ∧
(∃ t', tasks (db out.2) !! "task-1" = Some t' ∧
       Task.status t' = "failed" ∧
       Task.error t' = Some "503 service unavailable") ∧
∃ r, get_task_status {| Models.status_taskId := "task-1" |} out.2
       = (Py.Return r, out.2) ∧
     status r = "failed".
Proof.
refine (proj1 (failed_generation_marks_the_task
  (Examples.env_at 20 (Examples.ids "" "") Examples.engine_down)
  "task-1" "quick-consult" "Help"
  "You are a business consultant. Provide quick, actionable advice."
  "503 service unavailable" Examples.with_payment
  (the_task_row
     (Examples.env_at 10 (Examples.ids "pm-1" "task-1") Examples.engine_ok)
     (Examples.pay "cart-1")
     (new_cart_row (Examples.env_at 0 (Examples.ids "cart-1" "")
                      Examples.engine_ok) Examples.quick_cart
        {| Config.price := 2500;
           Config.description := "Quick consultation (15 min equivalent)" |}))
  Examples.ap2_with_payment
  {| AgentAP2.skillId := "quick-consult";
     AgentAP2.status := "payment_authorized";
     AgentAP2.cartId := Some "cart-1";
     AgentAP2.paymentMandateId := Some "pm-1";
     AgentAP2.userMessage := None;
     AgentAP2.price := 2500;
     AgentAP2.currency := "USD";
     AgentAP2.paymentStatus := None;
     AgentAP2.startTime := 10;
     AgentAP2.result := None;
     AgentAP2.completedTime := None;
     AgentAP2.error := None |}
  _ _ _ _)); vm_compute; reflexivity.
Defined.

(** C9, against the claim.  Task [task-1] is completed by a [submitTask]
  that carries payment mandate [pm-1]; the same [submitTask] sent again,
  when the engine is down, leaves the task [failed].  The same holds in
  agent_ap2.py. *)
Lemma resubmission_changes_a_completed_task :
let up := Examples.env_at 20 (Examples.ids "" "") Examples.engine_ok in
let down := Examples.env_at 30 (Examples.ids "" "") Examples.engine_down in
let p := Examples.submit (Some "task-1") (Some "pm-1") "quick-consult" in
let q := Examples.ap2_submit (Some "task-1") (Some "pm-1") "quick-consult" in
let w1 := (submit_task up p Examples.with_payment).2 in
let w2 := (submit_task down p w1).2 in
let v1 := (AgentAP2.submit_task up q Examples.ap2_with_payment).2 in
let v2 := (AgentAP2.submit_task down q v1).2 in
(Task.status <$> tasks (db w1) !! "task-1") = Some "completed" ∧
(Task.status <$> tasks (db w2) !! "task-1") = Some "failed" ∧
(AgentAP2.status <$> AgentAP2.tasks v1 !! "task-1") = Some "completed" ∧
(AgentAP2.status <$> AgentAP2.tasks v2 !! "task-1") = Some "failed".
Proof. by vm_compute. Qed.

Lemma ap2_within_modify (R : AgentAP2.World → AgentAP2.World → Prop) f :
(∀ w, R w (f w)) → within R (Py.modify f).
Proof. intros H w. apply H. Qed.

Lemma ap2_prompt_keeps_row i env p :
within (ap2_keeps_row i) (AgentAP2.model_generate_content env p).
Proof.
intros [ts cs ps l]. unfold AgentAP2.model_generate_content. simpl.
destruct (generate_content env p); simpl; by intros t Ht.
Qed.

Lemma ap2_update_keeps_row i j f :
j ≠ i → within (ap2_keeps_row i) (AgentAP2.update_task j f).
Proof.
intros Hne w. unfold AgentAP2.update_task.
destruct (AgentAP2.tasks w !! j); simpl; [|done].
intros ti Hi. simpl. by rewrite lookup_insert_ne.
Qed.

Lemma ap2_process_task_keeps_row i env j skill_id user_message :
j ≠ i →
within (ap2_keeps_row i) (AgentAP2.process_task env j skill_id user_message).
Proof.
intros Hne. unfold AgentAP2.process_task.
repeat first [ by apply ap2_update_keeps_row | apply ap2_prompt_keeps_row
             | within_step ].
Qed.

(** In agent_ap2.py a request that does not write to the entry of task [i]
  leaves it as it is. *)
Lemma ap2_handle_keeps_row i env req v :
¬ ap2_rewrites i env req v →
ap2_keeps_row i v (AgentAP2.handle_a2a_request env req v).2.
Proof.
intros Hno.
assert (∀ {A B} (c : Py.M AgentAP2.World A) (f : A → B),
  (Py.bind c (λ r, Py.ret (f r)) v).2 = (c v).2) as Hbind.
{ intros A B c f. unfold Py.bind. by destruct (c v) as [[?|?] ?]. }
destruct req; simpl; rewrite ?Hbind.
- rewrite ap2_submit_task_cases.
  destruct (AgentAP2.task_skillId params ≫= _) as [details|] eqn:Hk;
    [|done].
  assert (ap2_keeps_row i v (ap2_registered env params details v)) as Hreg.
  { unfold ap2_registered.
    destruct (AgentAP2.tasks v !! ap2_task_id_of env params) eqn:Hid; [done|].
    intros t Ht. simpl.
    destruct (decide (ap2_task_id_of env params = i)) as [<-|Hne];
      [congruence|]. by rewrite lookup_insert_ne. }
  cbv zeta. destruct (ap2_authorized params v) eqn:Hauth; [|done].
  etrans; [exact Hreg|]. apply ap2_process_task_keeps_row.
  intros Hi. apply Hno. simpl. split; [|done].
  destruct (AgentAP2.task_skillId params) as [k|]; [|done]. simpl in *.
  unfold Py.has_key. by rewrite Hk.
- unfold AgentAP2.get_task_status, Py.bind, Py.gets. simpl.
  match goal with |- context [match ?x with _ => _ end] =>
    destruct x as [task|] end; [|done].
  by destruct (String.eqb _ _).
- unfold AgentAP2.send_message, Py.bind, Py.gets. simpl.
  destruct (AgentAP2.send_taskId params ≫= _); [|done].
  pose proof (ap2_prompt_keeps_row i env
    ("Continue the consulting conversation: " +:+
     AgentAP2.collect_text (default [] (AgentAP2.send_parts params)) "") v) as H.
  by destruct (AgentAP2.model_generate_content env _ v) as [[?|?] ?].
- unfold AgentAP2.create_intent_mandate.
  destruct (_ && _); simpl; by intros ? ?.
- unfold AgentAP2.create_cart_mandate.
  destruct (negb _); [done|].
  unfold Py.bind, Py.getitem.
  destruct (Py.lookup_key _ _); simpl; by intros ? ?.
- simpl in Hno. unfold AgentAP2.process_payment, Py.bind, Py.gets. simpl.
  destruct (AgentAP2.payment_cartId params) as [c|]; simpl;
    [|by intros ? ?].
  destruct (AgentAP2.cart_mandates v !! c) as [cart|]; simpl;
    [|by intros ? ?].
  destruct (negb _); simpl; [by intros ? ?|].
  intros ti Hi. simpl. rewrite lookup_insert_ne; [done|].
  intros Heq. by apply Hno.
- done.
Qed.

(** C9, amended.  A stored task is changed only by a [submitTask] that
  works on its id and carries an authorized payment mandate (in
  agent_ap2.py also by a [processPayment] that draws its id for the new
  task): every other request leaves the whole row, the status with it,
  as it was. *)
Theorem only_a_paid_resubmission_changes_a_task env req w i t areq v u :
tasks (db w) !! i = Some t →
¬ reruns i env req w →
AgentAP2.tasks v !! i = Some u →
¬ ap2_rewrites i env areq v →
tasks (db (A2A.handle_a2a_request env req w).2) !! i = Some t ∧
AgentAP2.tasks (AgentAP2.handle_a2a_request env areq v).2 !! i = Some u.
Proof.
intros Ht Hno Hu Hno'. split.
- by apply (handle_keeps_row i env req w Hno).
- by apply (ap2_handle_keeps_row i env areq v Hno').
Qed.

Lemma only_a_paid_resubmission_changes_a_task_witness :
let env := Examples.env_at 20 (Examples.ids "task-2" "") Examples.engine_ok in
(Task.status <$>
   tasks (db (A2A.handle_a2a_request env
     (A2A.submitTask (Examples.submit (Some "task-1") None "quick-consult"))
     Examples.with_payment).2) !! "task-1") = Some "payment_authorized".
Proof.
cbv zeta.
rewrite (proj1 (only_a_paid_resubmission_changes_a_task
  (Examples.env_at 20 (Examples.ids "task-2" "") Examples.engine_ok)
  (A2A.submitTask (Examples.submit (Some "task-1") None "quick-consult"))
  Examples.with_payment "task-1"
  (the_task_row
     (Examples.env_at 10 (Examples.ids "pm-1" "task-1") Examples.engine_ok)
     (Examples.pay "cart-1")
     (new_cart_row (Examples.env_at 0 (Examples.ids "cart-1" "")
                      Examples.engine_ok) Examples.quick_cart
        {| Config.price := 2500;
           Config.description := "Quick consultation (15 min equivalent)" |}))
  (AgentAP2.getTaskStatus (Some "task-1"))
  Examples.ap2_with_payment
  {| AgentAP2.skillId := "quick-consult";
     AgentAP2.status := "payment_authorized";
     AgentAP2.cartId := Some "cart-1";
     AgentAP2.paymentMandateId := Some "pm-1";
     AgentAP2.userMessage := None;
     AgentAP2.price := 2500;
     AgentAP2.currency := "USD";
     AgentAP2.paymentStatus := None;
     AgentAP2.startTime := 10;
     AgentAP2.result := None;
     AgentAP2.completedTime := None;
     AgentAP2.error := None |}
  ltac:(vm_compute; reflexivity)
  ltac:(vm_compute; intros (_ & _ & H); discriminate H)
  ltac:(vm_compute; reflexivity)
  ltac:(vm_compute; intros H; exact H))).
reflexivity.
Defined.

(** C10.  agent_ap2.py at the failing input: the cart is made for
  [quick-consult] with a description that mentions [business-analysis];
  the task created by [process_payment] has the price of the cart, 25.00,
  but its skill is [business-analysis]. *)
Theorem ap2_task_takes_its_skill_from_the_description :
let v := Examples.ap2_with_cart "compare with business-analysis" in
let env := Examples.env_at 10 (Examples.ids "pm-1" "task-1") Examples.engine_ok in
let out := AgentAP2.process_payment env (Examples.ap2_pay "cart-1") v in
(AP2Types.label <$>
   (AgentAP2.cart_mandates v !! "cart-1" ≫= λ cart,
    head (AP2Types.display_items (AP2Types.details
            (AP2Types.payment_request (AP2Types.contents cart))))))
  = Some "quick-consult - compare with business-analysis" ∧
(∃ pm msg, out.1 = Py.Return
   (AgentAP2.payment_done "task-1" "pm-1" pm "payment_authorized" msg)) ∧
(AgentAP2.skillId <$> AgentAP2.tasks out.2 !! "task-1") = Some "business-analysis" ∧
(AgentAP2.price <$> AgentAP2.tasks out.2 !! "task-1") = Some 2500.
Proof.
vm_compute. split; [done|]. split; [eauto|]. done.
Qed.

End TaskClaims3.
(** * Further properties *)

#[local] Open Scope list_scope.


(** ** Further properties of agent_production.py *)

Section ProductionHandlers.
Import AgentProduction.

(** [process_payment] succeeds exactly on a stored cart that is unused and
  not expired (its expiry is not before the clock), when the two
  identifiers it draws are not taken. *)
Theorem payment_succeeds_iff env p w :
(∃ a w', process_payment env p w = (Py.Return a, w')) ↔
∃ cart,
  cart_mandates (db w) !! Models.cartId p = Some cart ∧
  CartMandateDB.is_used cart = false ∧
  utcnow env ≤ CartMandateDB.expires_at cart ∧
  payment_mandates (db w) !! uuid4 env 0%nat = None ∧
  tasks (db w) !! uuid4 env 1%nat = None.
Proof.
rewrite process_payment_cases.
destruct (cart_mandates (db w) !! Models.cartId p) as [cart|];
  [|split; [intros (? & ? & ?) | intros (? & ? & ?)]; done].
destruct (CartMandateDB.is_used cart) eqn:Hused;
  [split; [intros (? & ? & ?) | intros (? & [= <-] & ? & ?)]; congruence|].
destruct (Z.ltb_spec (CartMandateDB.expires_at cart) (utcnow env)).
{ split; [intros (? & ? & ?); done|]. intros (? & [= <-] & _ & ? & _). lia. }
destruct (payment_mandates (db w) !! uuid4 env 0%nat);
  [split; [intros (? & ? & ?) | intros (? & _ & _ & _ & ? & _)]; done|].
destruct (tasks (db w) !! uuid4 env 1%nat);
  [split; [intros (? & ? & ?) | intros (? & _ & _ & _ & _ & ?)]; done|].
split; [|eauto]. intros _. exists cart. done.
Qed.

(** A successful [process_payment] stores a payment mandate with status
  [authorized] for the amount and currency of the cart total, and a task
  with status [payment_authorized] that takes its skill, cart id and
  price from the cart and names the new payment mandate; the answer
  carries both ids; nothing is sent to the engine. *)
Theorem paid_task_is_copied_from_the_cart env p w a w' :
process_payment env p w = (Py.Return a, w') →
∃ cart t pay,
  cart_mandates (db w) !! Models.cartId p = Some cart ∧
  tasks (db w') !! task_id a = Some t ∧
  Task.status t = "payment_authorized" ∧
  Task.skill_id t = CartMandateDB.skill_id cart ∧
  Task.cart_id t = Some (Models.cartId p) ∧
  Task.payment_mandate_id t = Some (payment_mandate_id a) ∧
  Task.price t = AP2Types.value (AP2Types.amount (the_total cart)) ∧
  payment_mandates (db w') !! payment_mandate_id a = Some pay ∧
  PaymentMandateDB.cart_id pay = Models.cartId p ∧
  PaymentMandateDB.status pay = "authorized" ∧
  PaymentMandateDB.amount pay =
    AP2Types.value (AP2Types.amount (the_total cart)) ∧
  PaymentMandateDB.currency pay =
    AP2Types.currency (AP2Types.amount (the_total cart)) ∧
  payment_status a = "payment_authorized" ∧
  engine_calls w' = engine_calls w.
Proof.
rewrite process_payment_cases.
destruct (cart_mandates (db w) !! Models.cartId p) as [cart|]; [|done].
destruct (CartMandateDB.is_used cart); [done|].
destruct (_ <? _); [done|].
destruct (payment_mandates (db w) !! _); [done|].
destruct (tasks (db w) !! _); [done|].
intros [= <- <-].
exists cart, (the_task_row env p cart),
  (the_payment_row env p cart).
simpl. rewrite !lookup_insert_eq. done.
Qed.

Lemma paid_task_is_copied_from_the_cart_witness :
∃ cart t pay,
  cart_mandates (db Examples.with_cart) !! "cart-1" = Some cart ∧
  tasks (db Examples.with_payment) !! "task-1" = Some t ∧
  Task.status t = "payment_authorized" ∧
  Task.skill_id t = CartMandateDB.skill_id cart ∧
  Task.cart_id t = Some "cart-1" ∧
  Task.payment_mandate_id t = Some "pm-1" ∧
  Task.price t = AP2Types.value (AP2Types.amount (the_total cart)) ∧
  payment_mandates (db Examples.with_payment) !! "pm-1" = Some pay ∧
  PaymentMandateDB.cart_id pay = "cart-1" ∧
  PaymentMandateDB.status pay = "authorized" ∧
  PaymentMandateDB.amount pay =
    AP2Types.value (AP2Types.amount (the_total cart)) ∧
  PaymentMandateDB.currency pay =
    AP2Types.currency (AP2Types.amount (the_total cart)) ∧
  "payment_authorized" = "payment_authorized" ∧
  engine_calls Examples.with_payment = engine_calls Examples.with_cart.
Proof.
refine (paid_task_is_copied_from_the_cart
  (Examples.env_at 10 (Examples.ids "pm-1" "task-1") Examples.engine_ok)
  (Examples.pay "cart-1") Examples.with_cart
  (the_answer
     (Examples.env_at 10 (Examples.ids "pm-1" "task-1") Examples.engine_ok)
     (Examples.pay "cart-1")
     (new_cart_row (Examples.env_at 0 (Examples.ids "cart-1" "")
                      Examples.engine_ok) Examples.quick_cart
        {| Config.price := 2500;
           Config.description := "Quick consultation (15 min equivalent)" |}))
  Examples.with_payment _).
vm_compute; reflexivity.
Defined.

(** The bounds of [Field(min_length=lo, max_length=hi)] are bounds on the
  number of characters. *)
Lemma length_between_spec lo hi s :
Models.length_between lo hi s = bool_decide ((lo ≤ Py.len s ≤ hi)%nat).
Proof.
unfold Models.length_between.
destruct (Nat.leb_spec lo (Py.len s)), (Nat.leb_spec (Py.len s) hi); simpl;
  [by rewrite bool_decide_eq_true_2 | ..];
  rewrite bool_decide_eq_false_2; try done; lia.
Qed.

(** The outcomes of [create_cart_mandate], by their causes.  A skill that
  is not in the catalogue, or a description that has not 1 to 1000
  characters, gives 400 and stores nothing.  Valid parameters with a
  cart id that is taken give 500 "Failed to create cart" and store
  nothing.  Otherwise the cart is stored under the new id, unused,
  expiring [cart_expiry_hours] after the clock, its total the catalogue
  price in the default currency; the other tables and the engine are
  not touched. *)
Theorem cart_is_created_unused_at_catalogue_price env p w :
match Py.lookup_key (Models.cart_skillId p) (PRICING env) with
| None =>
    ∃ detail,
      create_cart_mandate env p w = (Py.Raise (Py.HTTPException 400 detail), w)
| Some details =>
    if bool_decide ((1 ≤ Py.len (Models.taskDescription p) ≤ 1000)%nat) then
      match cart_mandates (db w) !! uuid4 env 0%nat with
      | Some _ =>
          create_cart_mandate env p w =
            (Py.Raise (Py.HTTPException 500 "Failed to create cart"), w)
      | None =>
          ∃ r w' cart,
            create_cart_mandate env p w = (Py.Return r, w') ∧
            cart_success r = true ∧
            cart_id r = uuid4 env 0%nat ∧
            cart_mandate r = CartMandateDB.cart_data cart ∧
            cart_mandates (db w') =
              <[uuid4 env 0%nat := cart]> (cart_mandates (db w)) ∧
            CartMandateDB.id cart = uuid4 env 0%nat ∧
            CartMandateDB.is_used cart = false ∧
            CartMandateDB.skill_id cart = Models.cart_skillId p ∧
            CartMandateDB.expires_at cart =
              utcnow env + 3600 * Config.cart_expiry_hours (settings env) ∧
            AP2Types.amount (the_total cart) =
              {| AP2Types.currency := Config.default_currency (settings env);
                 AP2Types.value := Config.price details |} ∧
            tasks (db w') = tasks (db w) ∧
            payment_mandates (db w') = payment_mandates (db w) ∧
            engine_calls w' = engine_calls w
      end
    else
      ∃ detail,
        create_cart_mandate env p w = (Py.Raise (Py.HTTPException 400 detail), w)
end.
Proof.
rewrite create_cart_mandate_cases, length_between_spec.
destruct (Py.lookup_key _ _) as [details|]; [|by eexists].
destruct (bool_decide _); simpl; [|by eexists].
destruct (cart_mandates (db w) !! uuid4 env 0%nat); [done|].
eexists _, _, (new_cart_row env p details). split; [done|]. done.
Qed.

Lemma cart_is_created_unused_at_catalogue_price_witness :
let env := Examples.env_at 0 (Examples.ids "cart-1" "") Examples.engine_ok in
let p := {| Models.cart_skillId := "quick-consult";
            Models.taskDescription := Examples.accented 600 |} in
String.length (Models.taskDescription p) = 1200%nat ∧
∃ r w' cart,
  create_cart_mandate env p start = (Py.Return r, w') ∧
  cart_id r = "cart-1" ∧
  cart_mandates (db w') = {[ "cart-1" := cart ]} ∧
  CartMandateDB.is_used cart = false ∧
  CartMandateDB.expires_at cart = 3600 ∧
  AP2Types.amount (the_total cart) =
    {| AP2Types.currency := "USD"; AP2Types.value := 2500 |}.
Proof.
split; [by vm_compute|].
pose proof (cart_is_created_unused_at_catalogue_price
  (Examples.env_at 0 (Examples.ids "cart-1" "") Examples.engine_ok)
  {| Models.cart_skillId := "quick-consult";
     Models.taskDescription := Examples.accented 600 |} start) as H.
change (Py.lookup_key _ _) with
  (Some {| Config.price := 2500;
           Config.description := "Quick consultation (15 min equivalent)" |})
  in H.
cbv iota in H.
assert (bool_decide ((1 ≤ Py.len (Examples.accented 600) ≤ 1000)%nat) = true)
  as Hlen by (apply bool_decide_eq_true_2; vm_compute; split; by apply Nat.leb_le).
simpl Models.taskDescription in H. rewrite Hlen in H.
destruct H as (r & w' & cart & Hr & _ & Hid & _ & Hcarts & _ & Hused & _ &
               Hexp & Htotal & _).
exists r, w', cart. split; [exact Hr|]. split; [exact Hid|].
split; [exact Hcarts|]. split; [exact Hused|]. split; [exact Hexp|].
exact Htotal.
Defined.

(** [create_intent_mandate] has no durable effect: it never changes the
  state.  For a description of 1 to 500 characters, with no skill or a
  skill of the catalogue, it returns a mandate for the merchant that
  expires [intent_expiry_hours] after the clock and lists the skill, if
  one is given and not empty, as its only sku; for any other parameters
  it raises 400. *)
Theorem intent_mandate_has_no_durable_effect env p w :
(create_intent_mandate env p w).2 = w ∧
if bool_decide ((1 ≤ Py.len (Models.intent_description p) ≤ 500)%nat) &&
   match Models.intent_skillId p with
   | Some k => Py.has_key k (PRICING env)
   | None => true
   end
then
  ∃ r, (create_intent_mandate env p w).1 = Py.Return r ∧
       intent_success r = true ∧
       AP2Types.natural_language_description (intent_mandate r) =
         Models.intent_description p ∧
       AP2Types.merchants (intent_mandate r) =
         [Config.merchant_id (settings env)] ∧
       AP2Types.intent_expiry (intent_mandate r) =
         utcnow env + 3600 * Config.intent_expiry_hours (settings env) ∧
       AP2Types.skus (intent_mandate r) =
         match Models.intent_skillId p with
         | Some k => if String.eqb k "" then None else Some [k]
         | None => None
         end
else
  ∃ detail,
    (create_intent_mandate env p w).1 = Py.Raise (Py.HTTPException 400 detail).
Proof.
unfold create_intent_mandate, Py.try_except, Py.bind,
  Models.validate_IntentMandateParams.
rewrite length_between_spec.
destruct (bool_decide _); simpl; [|eauto].
destruct (Models.intent_skillId p) as [k|] eqn:Hk; simpl.
- destruct (Py.has_key k (PRICING env)); simpl; [|eauto].
  split; [done|]. eexists. split; [done|]. simpl. rewrite Hk. simpl.
  by destruct (String.eqb k "").
- split; [done|]. eexists. split; [done|]. simpl. by rewrite Hk.
Qed.

Lemma intent_mandate_has_no_durable_effect_witness :
let env := Examples.env_at 0 (Examples.ids "" "") Examples.engine_ok in
let p := {| Models.intent_description := Examples.accented 300;
            Models.intent_skillId := Some "quick-consult" |} in
String.length (Models.intent_description p) = 600%nat ∧
∃ r, (create_intent_mandate env p start).1 = Py.Return r ∧
     AP2Types.intent_expiry (intent_mandate r) = 86400 ∧
     AP2Types.skus (intent_mandate r) = Some ["quick-consult"].
Proof.
split; [by vm_compute|].
pose proof (proj2 (intent_mandate_has_no_durable_effect
  (Examples.env_at 0 (Examples.ids "" "") Examples.engine_ok)
  {| Models.intent_description := Examples.accented 300;
     Models.intent_skillId := Some "quick-consult" |} start)) as H.
simpl Models.intent_description in H. simpl Models.intent_skillId in H.
destruct H as (r & Hr & _ & _ & _ & Hexp & Hskus).
exists r. split; [exact Hr|]. split; [exact Hexp|]. exact Hskus.
Defined.

(** [get_task_status] only reads: the state is never changed; it raises
  404 exactly when the task id is not stored, and otherwise answers with
  the stored id and status. *)
Theorem task_status_is_read_only p w :
(get_task_status p w).2 = w ∧
match tasks (db w) !! Models.status_taskId p with
| None =>
    (get_task_status p w).1 = Py.Raise (Py.HTTPException 404 "Task not found")
| Some task =>
    ∃ r, (get_task_status p w).1 = Py.Return r ∧
         taskId r = Task.id task ∧ status r = Task.status task ∧
         (is_Some (metadata r) ↔ Task.status task = "completed")
end.
Proof.
rewrite get_task_status_cases.
destruct (tasks (db w) !! Models.status_taskId p) as [task|]; [|done].
split; [done|]. eexists. split; [done|]. simpl. split; [done|].
split; [done|].
destruct (String.eqb_spec (Task.status task) "completed").
- split; eauto.
- split; [intros [? ?]; done | done].
Qed.

Lemma send_message_cases env p w :
  send_message env p w =
  match tasks (db w) !! Models.send_taskId p with
  | None => (Py.Raise (Py.HTTPException 404 "Task not found"), w)
  | Some _ =>
      let prompt :=
        "Continue the consulting conversation: " +:+
        Models.collect_text (Models.parts (Models.send_message p)) "" in
      match generate_content env prompt with
      | inl text =>
          (Py.Return {| taskId := Models.send_taskId p;
                        status := "working";
                        message := Some (agent_text text);
                        artifacts := [];
                        metadata := None;
                        next_steps := [] |}, prompted prompt w)
      | inr _ =>
          (Py.Raise (Py.HTTPException 500 "Failed to send message"),
           prompted prompt w)
      end
  end.
Proof.
  destruct w as [d l].
  unfold send_message, prompted, Py.try_except, Py.bind, on_db,
    TaskRepository.get, Py.gets, model_generate_content, Py.ret, Py.raise.
  simpl.
  destruct (tasks d !! Models.send_taskId p); simpl; [|done].
  by destruct (generate_content env _).
Qed.

(** [send_message] changes no table: it raises 404 for a task id that is
  not stored; for a stored one, whatever its status, it sends one prompt
  to the engine and answers [working] with the engine's text, or raises
  500 when the engine fails. *)
Theorem conversation_leaves_the_tables env p w :
db (send_message env p w).2 = db w ∧
match tasks (db w) !! Models.send_taskId p with
| None =>
    send_message env p w =
      (Py.Raise (Py.HTTPException 404 "Task not found"), w)
| Some _ =>
    let prompt :=
      "Continue the consulting conversation: " +:+
      Models.collect_text (Models.parts (Models.send_message p)) "" in
    engine_calls (send_message env p w).2 = prompt :: engine_calls w ∧
    match generate_content env prompt with
    | inl text =>
        ∃ r, (send_message env p w).1 = Py.Return r ∧
             status r = "working" ∧ message r = Some (agent_text text) ∧
             taskId r = Models.send_taskId p
    | inr _ =>
        (send_message env p w).1 =
          Py.Raise (Py.HTTPException 500 "Failed to send message")
    end
end.
Proof.
  rewrite send_message_cases.
  destruct (tasks (db w) !! Models.send_taskId p); [|done].
  cbv zeta. destruct (generate_content env _); simpl; eauto 10.
Qed.

(** A method that is not one of the six leaves the state as it is and is
    answered with an error: status and code 400 in agent_production.py,
    the JSON-RPC code -32601 in agent_ap2.py. *)
Theorem unknown_method_is_refused env m w v :
  A2A.handle_a2a_request env (A2A.other_method m) w =
    ({| A2A.status_code := 400;
        A2A.content := A2A.rpc_error 400 ("Method not found: " +:+ m) |}, w) ∧
  AgentAP2.handle_a2a_request env (AgentAP2.other_method (Some m)) v =
    (Py.Return (AgentAP2.rpc_error (-32601) ("Method not found: " +:+ m)), v).
Proof. done. Qed.

(** A [submitTask] for a skill that is not in the catalogue stores nothing
    and sends nothing to the engine: agent_production.py answers with
    status 400, agent_ap2.py with a result whose status is [failed]. *)
Theorem unknown_skill_is_refused env p w q v :
  Py.has_key (Models.skillId p) (PRICING env) = false →
  AgentAP2.has_opt_key (AgentAP2.task_skillId q) (PRICING env) = false →
  (∃ detail,
     A2A.handle_a2a_request env (A2A.submitTask p) w =
     ({| A2A.status_code := 400;
         A2A.content := A2A.rpc_error 400 detail |}, w)) ∧
  ∃ r, AgentAP2.submit_task env q v = (Py.Return r, v) ∧
       AgentAP2.result_status r = "failed" ∧
       AgentAP2.next_steps r = [].
Proof.
  intros Hk Hk'. split.
  - unfold A2A.handle_a2a_request, A2A.handler, Py.bind.
    rewrite submit_task_cases. unfold Py.has_key in Hk.
    destruct (Py.lookup_key _ _); [done|]. eauto.
  - unfold AgentAP2.submit_task. rewrite Hk'. simpl. eauto.
Qed.

Lemma unknown_skill_is_refused_witness :
  ∃ detail,
    A2A.handle_a2a_request
      (Examples.env_at 5 (Examples.ids "t-1" "") Examples.engine_ok)
      (A2A.submitTask (Examples.submit None None "invalid-skill"))
      AgentProduction.start =
    ({| A2A.status_code := 400;
        A2A.content := A2A.rpc_error 400 detail |}, AgentProduction.start).
Proof.
  refine (proj1 (unknown_skill_is_refused
    (Examples.env_at 5 (Examples.ids "t-1" "") Examples.engine_ok)
    (Examples.submit None None "invalid-skill") AgentProduction.start
    (Examples.ap2_submit None None "invalid-skill") AgentAP2.start _ _));
    vm_compute; reflexivity.
Defined.

End ProductionHandlers.

(** ** What persists across requests (agent_production.py) *)

Section ProductionHistory.
Import AgentProduction.

Lemma set_is_used_twice cart :
CartMandateRepository.set_is_used (CartMandateRepository.set_is_used cart)
= CartMandateRepository.set_is_used cart.
Proof. done. Qed.

(** One request keeps every stored cart, changing at most its flag to
  used, and keeps every stored payment mandate as it is. *)
Lemma handle_keeps_mandates env req w :
(∀ c cart, cart_mandates (db w) !! c = Some cart →
   let w' := (A2A.handle_a2a_request env req w).2 in
   cart_mandates (db w') !! c = Some cart ∨
   cart_mandates (db w') !! c = Some (CartMandateRepository.set_is_used cart)) ∧
(∀ i pay, payment_mandates (db w) !! i = Some pay →
   payment_mandates (db (A2A.handle_a2a_request env req w).2) !! i = Some pay).
Proof.
rewrite handle_a2a_request_state, handler_state.
assert (∀ w', same_mandates w w' →
  (∀ c cart, cart_mandates (db w) !! c = Some cart →
     cart_mandates (db w') !! c = Some cart ∨
     cart_mandates (db w') !! c = Some (CartMandateRepository.set_is_used cart)) ∧
  (∀ i pay, payment_mandates (db w) !! i = Some pay →
     payment_mandates (db w') !! i = Some pay)) as Hsame.
{ intros w' [Hc Hp]. rewrite Hc, Hp. eauto. }
destruct req.
- apply Hsame.
  apply (submit_task_within same_mandates (λ _, True));
    auto using update_same_mandates, create_same_mandates,
      prompt_same_mandates.
- apply Hsame. by apply (get_task_status_within same_mandates).
- apply Hsame. apply (send_message_within same_mandates);
    auto using prompt_same_mandates.
- apply Hsame. by apply (create_intent_mandate_within same_mandates).
- rewrite create_cart_mandate_cases.
  destruct (Py.lookup_key _ _) as [details|]; [|eauto].
  destruct (negb _); [eauto|].
  destruct (cart_mandates (db w) !! uuid4 env 0%nat) eqn:Hid; [eauto|].
  simpl. split; [|eauto]. intros c cart Hc. left.
  rewrite lookup_insert_ne; [done|]. congruence.
- rewrite process_payment_cases.
  destruct (cart_mandates (db w) !! Models.cartId params) as [cart0|] eqn:Hcart;
    [|eauto].
  destruct (CartMandateDB.is_used cart0); [eauto|].
  destruct (_ <? _); [eauto|].
  destruct (payment_mandates (db w) !! uuid4 env 0%nat) eqn:Hpay; [eauto|].
  assert (∀ c cart, cart_mandates (db w) !! c = Some cart →
    (<[Models.cartId params := CartMandateRepository.set_is_used cart0]>
       (cart_mandates (db w)) : gmap _ _) !! c = Some cart ∨
    (<[Models.cartId params := CartMandateRepository.set_is_used cart0]>
       (cart_mandates (db w)) : gmap _ _) !! c
      = Some (CartMandateRepository.set_is_used cart)) as Hc.
  { intros c cart Hc.
    destruct (decide (Models.cartId params = c)) as [<-|Hne].
    - right. rewrite lookup_insert_eq. congruence.
    - left. by rewrite lookup_insert_ne. }
  assert (∀ i pay, payment_mandates (db w) !! i = Some pay →
    (<[uuid4 env 0%nat := the_payment_row env params cart0]>
       (payment_mandates (db w)) : gmap _ _) !! i = Some pay) as Hp.
  { intros i pay Hi. rewrite lookup_insert_ne; [done|]. congruence. }
  destruct (tasks (db w) !! _); simpl; done.
- eauto.
Qed.

(** A cart is never deleted and is changed only by having its flag set to
  used; a payment mandate, once stored, is never changed or deleted. *)
Lemma serve_keeps_mandates reqs : ∀ w,
(∀ c cart, cart_mandates (db w) !! c = Some cart →
   let w' := (A2A.serve reqs w).2 in
   cart_mandates (db w') !! c = Some cart ∨
   cart_mandates (db w') !! c = Some (CartMandateRepository.set_is_used cart)) ∧
(∀ i pay, payment_mandates (db w) !! i = Some pay →
   payment_mandates (db (A2A.serve reqs w).2) !! i = Some pay).
Proof.
induction reqs as [|[env req] reqs IH]; intros w; simpl; [eauto|].
pose proof (handle_keeps_mandates env req w) as [Hc Hp].
destruct (A2A.handle_a2a_request env req w) as [r w1]. simpl in *.
destruct (IH w1) as [Hc' Hp'].
destruct (A2A.serve reqs w1) as [rs w2]. simpl in *. split.
- intros c cart Hcart. destruct (Hc c cart Hcart) as [H1|H1].
  + by apply Hc'.
  + right. destruct (Hc' _ _ H1) as [H2|H2]; [done|].
    by rewrite set_is_used_twice in H2.
- intros i pay Hi. by apply Hp', Hp.
Qed.

(** A cart is never deleted and is changed only by having its flag set to
    used; a payment mandate, once stored, is never changed or deleted. *)
Theorem mandates_are_kept reqs w :
  (∀ c cart, cart_mandates (db w) !! c = Some cart →
     let w' := (A2A.serve reqs w).2 in
     cart_mandates (db w') !! c = Some cart ∨
     cart_mandates (db w') !! c = Some (CartMandateRepository.set_is_used cart)) ∧
  (∀ i pay, payment_mandates (db w) !! i = Some pay →
     payment_mandates (db (A2A.serve reqs w).2) !! i = Some pay).
Proof. apply serve_keeps_mandates. Qed.

(** Served from the start, every stored payment mandate names a stored
  cart that is used. *)
Theorem payment_names_a_used_cart reqs i pay :
payment_mandates (db (A2A.serve reqs start).2) !! i = Some pay →
cart_used (PaymentMandateDB.cart_id pay) (A2A.serve reqs start).2 = true.
Proof.
intros Hi.
pose proof (serve_single_use (PaymentMandateDB.cart_id pay) reqs 0 start
  (start_single_use _)) as [_ Hs].
destruct (cart_used _ _) eqn:Hused; [done|].
assert (payments_for (PaymentMandateDB.cart_id pay) (A2A.serve reqs start).2
        !! i = Some pay) as Hin.
{ unfold payments_for. by apply map_lookup_filter_Some. }
assert (payments_for (PaymentMandateDB.cart_id pay) (A2A.serve reqs start).2
        = ∅) as Hempty.
{ apply map_size_empty_iff.
  revert Hs. generalize (size (payments_for (PaymentMandateDB.cart_id pay)
    (A2A.serve reqs start).2)). clear. intros; lia. }
rewrite Hempty in Hin. by rewrite lookup_empty in Hin.
Qed.

Lemma payment_names_a_used_cart_witness :
cart_used "cart-1"
  (A2A.serve
     [ (Examples.env_at 0 (Examples.ids "cart-1" "") Examples.engine_ok,
        A2A.createCartMandate Examples.quick_cart);
       (Examples.env_at 10 (Examples.ids "pm-1" "task-1") Examples.engine_ok,
        A2A.processPayment (Examples.pay "cart-1")) ] start).2 = true.
Proof.
refine (payment_names_a_used_cart
  [ (Examples.env_at 0 (Examples.ids "cart-1" "") Examples.engine_ok,
     A2A.createCartMandate Examples.quick_cart);
    (Examples.env_at 10 (Examples.ids "pm-1" "task-1") Examples.engine_ok,
     A2A.processPayment (Examples.pay "cart-1")) ]
  "pm-1"
  (the_payment_row
     (Examples.env_at 10 (Examples.ids "pm-1" "task-1") Examples.engine_ok)
     (Examples.pay "cart-1")
     (new_cart_row (Examples.env_at 0 (Examples.ids "cart-1" "")
                      Examples.engine_ok) Examples.quick_cart
        {| Config.price := 2500;
           Config.description := "Quick consultation (15 min equivalent)" |}))
  _).
vm_compute; reflexivity.
Defined.

(** The price is fixed when the cart is made: whatever is served between
  the creation of a cart and a successful payment of it, and whatever the
  catalogue says at the time of the payment, the payment mandate and the
  task are for the catalogue price at the time the cart was made. *)
Theorem payment_charges_the_price_of_the_cart env0 cp w r w1 between env p a w2 :
create_cart_mandate env0 cp w = (Py.Return r, w1) →
Models.cartId p = cart_id r →
process_payment env p (A2A.serve between w1).2 = (Py.Return a, w2) →
∃ details t pay,
  Py.lookup_key (Models.cart_skillId cp) (PRICING env0) = Some details ∧
  tasks (db w2) !! task_id a = Some t ∧
  Task.price t = Config.price details ∧
  Task.skill_id t = Models.cart_skillId cp ∧
  payment_mandates (db w2) !! payment_mandate_id a = Some pay ∧
  PaymentMandateDB.amount pay = Config.price details ∧
  PaymentMandateDB.currency pay = Config.default_currency (settings env0).
Proof.
intros Hcreate Hid Hpay. revert Hcreate. rewrite create_cart_mandate_cases.
destruct (Py.lookup_key _ _) as [details|] eqn:Hk; [|done].
destruct (negb _); [done|].
destruct (cart_mandates (db w) !! uuid4 env0 0%nat); [done|].
intros [= <- <-]. simpl in Hid.
assert (cart_mandates (db {| db := with_cart_mandates
                                     (insert (uuid4 env0 0%nat)
                                        (new_cart_row env0 cp details)) (db w);
                             engine_calls := engine_calls w |})
          !! uuid4 env0 0%nat = Some (new_cart_row env0 cp details)) as Hcart
  by (simpl; apply lookup_insert_eq).
apply (proj1 (serve_keeps_mandates between _)) in Hcart. cbv zeta in Hcart.
revert Hpay. rewrite process_payment_cases, Hid.
destruct Hcart as [-> | ->]; simpl; [|done].
destruct (_ <? _); [done|].
destruct (payment_mandates _ !! _); [done|].
destruct (tasks _ !! _); [done|].
intros [= <- <-].
exists details, (the_task_row env p (new_cart_row env0 cp details)),
  (the_payment_row env p (new_cart_row env0 cp details)).
simpl. rewrite !lookup_insert_eq. done.
Qed.

Lemma payment_charges_the_price_of_the_cart_witness :
  let env0 := Examples.env_at 0 (Examples.ids "cart-1" "") Examples.engine_ok in
  let later := Examples.raised_env_at 10 (Examples.ids "pm-1" "task-1")
                 Examples.engine_ok in
  let between :=
    [ (Examples.raised_env_at 5 (Examples.ids "t-9" "") Examples.engine_ok,
       A2A.submitTask (Examples.submit None None "quick-consult")) ] in
  let w2 := (process_payment later (Examples.pay "cart-1")
               (A2A.serve between Examples.with_cart).2).2 in
  ∃ details t pay,
    Py.lookup_key "quick-consult" Config.PRICING = Some details ∧
    tasks (db w2) !! "task-1" = Some t ∧
    Task.price t = Config.price details ∧
    Task.skill_id t = "quick-consult" ∧
    payment_mandates (db w2) !! "pm-1" = Some pay ∧
    PaymentMandateDB.amount pay = Config.price details ∧
    PaymentMandateDB.currency pay = "USD".
Proof.
  refine (payment_charges_the_price_of_the_cart
    (Examples.env_at 0 (Examples.ids "cart-1" "") Examples.engine_ok)
    Examples.quick_cart start
    {| cart_success := true;
       cart_id := "cart-1";
       cart_mandate :=
         new_cart_mandate
           (Examples.env_at 0 (Examples.ids "cart-1" "") Examples.engine_ok)
           Examples.quick_cart
           {| Config.price := 2500;
              Config.description := "Quick consultation (15 min equivalent)" |};
       cart_message := "Cart created. User must confirm and authorize payment." |}
    Examples.with_cart
    [ (Examples.raised_env_at 5 (Examples.ids "t-9" "") Examples.engine_ok,
       A2A.submitTask (Examples.submit None None "quick-consult")) ]
    (Examples.raised_env_at 10 (Examples.ids "pm-1" "task-1") Examples.engine_ok)
    (Examples.pay "cart-1")
    (the_answer
       (Examples.raised_env_at 10 (Examples.ids "pm-1" "task-1") Examples.engine_ok)
       (Examples.pay "cart-1")
       (new_cart_row (Examples.env_at 0 (Examples.ids "cart-1" "")
                        Examples.engine_ok) Examples.quick_cart
          {| Config.price := 2500;
             Config.description := "Quick consultation (15 min equivalent)" |}))
    _ _ _ _); vm_compute; reflexivity.
Defined.

Lemma serve_without_submit_keeps_row i reqs : ∀ w,
  Forall (λ er : Env * A2A.Request, ∀ p, er.2 ≠ A2A.submitTask p) reqs →
  keeps_row i w (A2A.serve reqs w).2.
Proof.
  induction reqs as [|[env req] reqs IH]; intros w Hall; simpl; [done|].
  apply Forall_cons in Hall as [Hreq Hall]. simpl in Hreq.
  assert (¬ reruns i env req w) as Hno.
  { destruct req; simpl; try (by intros []). by destruct (Hreq params). }
  pose proof (handle_keeps_row i env req w Hno) as Hstep.
  destruct (A2A.handle_a2a_request env req w) as [r w1].
  specialize (IH w1 Hall). destruct (A2A.serve reqs w1). simpl in *.
  by etrans.
Qed.

(** Only [submitTask] writes to a stored task: through any requests of the
    other methods every task that is stored keeps its whole row; a task
    left [payment_authorized] by a payment is therefore not promoted by
    anything but a later [submitTask]. *)
Theorem only_submit_task_changes_a_task reqs w i t :
  Forall (λ er : Env * A2A.Request, ∀ p, er.2 ≠ A2A.submitTask p) reqs →
  tasks (db w) !! i = Some t →
  tasks (db (A2A.serve reqs w).2) !! i = Some t.
Proof. intros Hall Ht. by apply (serve_without_submit_keeps_row i reqs w Hall). Qed.

Lemma only_submit_task_changes_a_task_witness :
  (Task.status <$>
     tasks (db (A2A.serve
       [ (Examples.env_at 20 (Examples.ids "cart-2" "") Examples.engine_ok,
          A2A.createCartMandate Examples.quick_cart);
         (Examples.env_at 30 (Examples.ids "pm-2" "task-2") Examples.engine_ok,
          A2A.processPayment (Examples.pay "cart-2"));
         (Examples.env_at 40 (Examples.ids "" "") Examples.engine_ok,
          A2A.sendMessage
            {| Models.send_taskId := "task-1";
               Models.send_message := Examples.user_text "And then?" |}) ]
       Examples.with_payment).2) !! "task-1") = Some "payment_authorized".
Proof.
  rewrite (only_submit_task_changes_a_task
    [ (Examples.env_at 20 (Examples.ids "cart-2" "") Examples.engine_ok,
       A2A.createCartMandate Examples.quick_cart);
      (Examples.env_at 30 (Examples.ids "pm-2" "task-2") Examples.engine_ok,
       A2A.processPayment (Examples.pay "cart-2"));
      (Examples.env_at 40 (Examples.ids "" "") Examples.engine_ok,
       A2A.sendMessage
         {| Models.send_taskId := "task-1";
            Models.send_message := Examples.user_text "And then?" |}) ]
    Examples.with_payment "task-1"
    (the_task_row
       (Examples.env_at 10 (Examples.ids "pm-1" "task-1") Examples.engine_ok)
       (Examples.pay "cart-1")
       (new_cart_row (Examples.env_at 0 (Examples.ids "cart-1" "")
                        Examples.engine_ok) Examples.quick_cart
          {| Config.price := 2500;
             Config.description := "Quick consultation (15 min equivalent)" |}))
    ltac:(repeat constructor; simpl; intros; discriminate)
    ltac:(vm_compute; reflexivity)).
  reflexivity.
Defined.

End ProductionHistory.

(** ** database.py: the repositories *)

Section Repositories.

(** [CartMandateRepository.mark_used] returns whether the cart is stored.
    It changes nothing but the flag of that cart, which it sets whatever it
    was, so that marking twice is marking once. *)
Theorem mark_used_sets_the_flag c db :
  match cart_mandates db !! c with
  | None => CartMandateRepository.mark_used c db = (Py.Return false, db)
  | Some cart =>
      ∃ db', CartMandateRepository.mark_used c db = (Py.Return true, db') ∧
        cart_mandates db' !! c = Some (CartMandateRepository.set_is_used cart) ∧
        (∀ k, k ≠ c → cart_mandates db' !! k = cart_mandates db !! k) ∧
        tasks db' = tasks db ∧ payment_mandates db' = payment_mandates db ∧
        CartMandateRepository.mark_used c db' = (Py.Return true, db')
  end.
Proof.
  unfold CartMandateRepository.mark_used, Py.bind, CartMandateRepository.get,
    Py.gets, Py.modify, Py.ret.
  destruct (cart_mandates db !! c) as [cart|] eqn:Hc; [|done].
  eexists. split; [done|]. simpl. rewrite lookup_insert_eq.
  split; [done|]. split; [by intros k Hk; rewrite lookup_insert_ne|].
  split; [done|]. split; [done|].
  unfold with_cart_mandates. simpl. by rewrite insert_insert_eq.
Qed.

End Repositories.

(** ** models.py: the text of a message *)

Section MessageText.

Lemma collect_text_app ps : ∀ qs acc,
  Models.collect_text (ps ++ qs) acc
  = Models.collect_text qs (Models.collect_text ps acc).
Proof.
  induction ps as [|p ps IH]; intros qs acc; simpl; [done|].
  destruct (Models.type p); try apply IH.
  destruct (Models.text p) as [t|]; [|apply IH].
  destruct (negb (t =? ""))%string; apply IH.
Qed.

Lemma string_app_cons x (a b : string) : String x a +:+ b = String x (a +:+ b).
Proof. reflexivity. Qed.

Lemma string_app_assoc (a b c : string) : (a +:+ b) +:+ c = a +:+ (b +:+ c).
Proof.
  induction a as [|x a IH]; [reflexivity|].
  rewrite !string_app_cons. by f_equal.
Qed.

Lemma string_app_empty (a : string) : a +:+ "" = a.
Proof.
  induction a as [|x a IH]; [reflexivity|].
  rewrite string_app_cons. by f_equal.
Qed.

(** The text collected from a message is the concatenation, in order, of
    the texts of its parts of type text; parts of another type and parts
    without text add nothing.  Hence the text of two lists of parts is the
    text of the first followed by the text of the second. *)
Theorem collected_text_is_the_concatenation ps qs acc :
  Models.collect_text ps acc = acc +:+ Models.collect_text ps "" ∧
  Models.collect_text (ps ++ qs) "" =
    Models.collect_text ps "" +:+ Models.collect_text qs "" ∧
  (∀ p, Models.type p ≠ Models.text_part ∨ Models.text p = None →
        Models.collect_text (p :: ps) acc = Models.collect_text ps acc) ∧
  (∀ p t, Models.type p = Models.text_part → Models.text p = Some t →
        Models.collect_text (p :: ps) acc = Models.collect_text ps (acc +:+ t)).
Proof.
  assert (∀ ps acc,
    Models.collect_text ps acc = acc +:+ Models.collect_text ps "") as Hacc.
  { clear. induction ps as [|p ps IH]; intros acc; simpl.
    - by rewrite string_app_empty.
    - destruct (Models.type p); try apply IH.
      destruct (Models.text p) as [t|]; [|apply IH].
      destruct (negb (t =? ""))%string; [|apply IH].
      change ("" +:+ t) with t.
    rewrite (IH (acc +:+ t)), (IH t). apply string_app_assoc. }
  split; [apply Hacc|]. split.
  - rewrite collect_text_app. apply Hacc.
  - split.
    + intros p [Hty|Htx]; simpl.
      * by destruct (Models.type p).
      * rewrite Htx. by destruct (Models.type p).
    + intros p t Hty Htx. simpl. rewrite Hty, Htx.
      destruct (String.eqb_spec t "") as [->|]; simpl; [|done].
      by rewrite string_app_empty.
Qed.

End MessageText.

(** ** Further properties of agent_ap2.py *)

Section InMemoryHandlers.
Import AgentAP2.

(** In agent_ap2.py [process_payment] asks nothing of a stored cart but
    that a skill can be read from its display items: whatever the clock and
    whatever was paid before, it stores a payment mandate and a task with
    status [payment_authorized] priced at the cart total, and leaves the
    carts as they are, so that the same cart can be paid again. *)
Theorem ap2_payment_ignores_clock_and_use env p w c cart skill :
  payment_cartId p = Some c →
  cart_mandates w !! c = Some cart →
  extract_skill (PRICING env).*1
    (AP2Types.display_items (AP2Types.details
       (AP2Types.payment_request (AP2Types.contents cart)))) None = Some skill →
  skill ≠ "" →
  ∃ pm msg w' t,
    process_payment env p w =
      (Py.Return (payment_done (uuid4 env 1%nat) (uuid4 env 0%nat) pm
                    "payment_authorized" msg), w') ∧
    cart_mandates w' = cart_mandates w ∧
    payment_mandates w' !! uuid4 env 0%nat = Some pm ∧
    tasks w' !! uuid4 env 1%nat = Some t ∧
    status t = "payment_authorized" ∧ skillId t = skill ∧
    cartId t = Some c ∧ paymentMandateId t = Some (uuid4 env 0%nat) ∧
    price t =
      AP2Types.value (AP2Types.amount (AP2Types.total (AP2Types.details
        (AP2Types.payment_request (AP2Types.contents cart))))) ∧
    engine_calls w' = engine_calls w.
Proof.
  intros Hc Hcart Hskill Hne.
  unfold process_payment, Py.bind, Py.gets, Py.modify, Py.ret.
  rewrite Hc. simpl. rewrite Hcart. simpl. rewrite Hskill.
  destruct skill as [|ch skill]; [done|]. simpl.
  eexists _, _, _, _. split; [done|]. simpl.
  rewrite !lookup_insert_eq. done.
Qed.

Lemma ap2_payment_ignores_clock_and_use_witness :
  ∃ pm msg w' t,
    process_payment
      (Examples.env_at 7200 (Examples.ids "pm-2" "task-2") Examples.engine_ok)
      (Examples.ap2_pay "cart-1") Examples.ap2_with_payment =
      (Py.Return (payment_done "task-2" "pm-2" pm "payment_authorized" msg), w') ∧
    cart_mandates w' = cart_mandates Examples.ap2_with_payment ∧
    payment_mandates w' !! "pm-2" = Some pm ∧
    tasks w' !! "task-2" = Some t ∧
    status t = "payment_authorized" ∧ skillId t = "quick-consult" ∧
    cartId t = Some "cart-1" ∧ paymentMandateId t = Some "pm-2" ∧
    price t = 2500 ∧
    engine_calls w' = engine_calls Examples.ap2_with_payment.
Proof.
  destruct (AgentAP2.cart_mandates Examples.ap2_with_payment !! "cart-1")
    as [cart|] eqn:Hcart; [|by vm_compute in Hcart].
  destruct (ap2_payment_ignores_clock_and_use
    (Examples.env_at 7200 (Examples.ids "pm-2" "task-2") Examples.engine_ok)
    (Examples.ap2_pay "cart-1") Examples.ap2_with_payment "cart-1" cart
    "quick-consult" eq_refl Hcart) as (pm & msg & w' & t & H);
    [vm_compute in Hcart; injection Hcart as <-; vm_compute; reflexivity
    | discriminate |].
  exists pm, msg, w', t.
  vm_compute in Hcart. injection Hcart as <-. exact H.
Defined.

Lemma prefix_of_app (s rest : string) : String.prefix s (s +:+ rest) = true.
Proof.
  induction s as [|a s IH]; simpl.
  - by destruct rest.
  - destruct (Ascii.ascii_dec a a); [exact IH | done].
Qed.

Lemma contains_of_prefix (s hay : string) :
  String.prefix s hay = true → Py.contains s hay = true.
Proof. destruct hay; simpl; by intros ->. Qed.

Lemma contains_app (s rest : string) : Py.contains s (s +:+ rest) = true.
Proof. apply contains_of_prefix, prefix_of_app. Qed.

Lemma find_first_match {A} (f : A → bool) before x after :
  f x = true →
  (∃ y, List.find f (before ++ x :: after) = Some y ∧ f y = true ∧
        (y = x ∨ y ∈ before)) ∧
  (Forall (λ y, f y = false) before →
   List.find f (before ++ x :: after) = Some x).
Proof.
  intros Hx. induction before as [|b before IH]; simpl.
  - rewrite Hx. split; [eauto|done].
  - destruct (f b) eqn:Hb.
    + split.
      { exists b. split; [done|]. split; [done|]. right. left. }
      intros Hall.
      apply Forall_cons in Hall as [Hfb _]. congruence.
    + destruct IH as [(y & Hy & Hfy & Hin) IH]. split.
      * exists y. split; [done|]. split; [done|].
        destruct Hin as [->|Hin]; [by left | right; by right].
      * intros Hall. apply Forall_cons in Hall as [_ Hall]. by apply IH.
Qed.

(** How agent_ap2.py reads the skill of a cart back: from a cart with one
    display item it takes the first key of the catalogue that occurs in the
    label.  When the label starts with a key of the catalogue, as the
    labels written by [create_cart_mandate] do, some key is always found;
    it is the one the label starts with when no earlier key of the
    catalogue occurs in the label. *)
Theorem ap2_skill_is_the_first_key_in_the_label before skill after item rest :
  AP2Types.label item = skill +:+ rest →
  let keys := before ++ skill :: after in
  extract_skill keys [item] None = first_skill_in (AP2Types.label item) keys ∧
  (∃ k, extract_skill keys [item] None = Some k ∧
        Py.contains k (AP2Types.label item) = true ∧
        (k = skill ∨ k ∈ before)) ∧
  (Forall (λ k, Py.contains k (AP2Types.label item) = false) before →
   extract_skill keys [item] None = Some skill).
Proof.
  intros Hlabel. cbv zeta.
  assert (extract_skill (before ++ skill :: after) [item] None
          = first_skill_in (AP2Types.label item) (before ++ skill :: after))
    as Hone.
  { simpl. by destruct (first_skill_in _ _). }
  rewrite Hone. split; [done|]. unfold first_skill_in.
  apply (find_first_match (λ k, Py.contains k (AP2Types.label item))).
  rewrite Hlabel. apply contains_app.
Qed.

Lemma ap2_skill_is_the_first_key_in_the_label_witness :
  let item :=
    {| AP2Types.label := "quick-consult - pricing help";
       AP2Types.amount := {| AP2Types.currency := "USD"; AP2Types.value := 2500 |};
       AP2Types.refund_period := 30 |} in
  ∃ k, extract_skill (Config.PRICING.*1) [item] None = Some k ∧
       Py.contains k (AP2Types.label item) = true ∧
       (k = "quick-consult" ∨
        k ∈ ["business-analysis"; "market-research"; "strategy-planning"]).
Proof.
  refine (proj1 (proj2 (ap2_skill_is_the_first_key_in_the_label
    ["business-analysis"; "market-research"; "strategy-planning"]
    "quick-consult" []
    {| AP2Types.label := "quick-consult - pricing help";
       AP2Types.amount := {| AP2Types.currency := "USD"; AP2Types.value := 2500 |};
       AP2Types.refund_period := 30 |}
    " - pricing help" _))).
  reflexivity.
Defined.

End InMemoryHandlers.

(** ** The paid flow from cart to completed task (agent_production.py) *)

Section PaidFlow.
Import AgentProduction.

(** Cart, payment, submission.  After [create_cart_mandate] and a
    successful [process_payment] on the cart, a [submit_task] that names
    the task and the payment mandate of the payment's answer, for the skill
    of the cart and with the engine answering [text], completes that task:
    the stored task is [completed] with [text] as result, still tied to the
    cart and the payment mandate, and priced as the catalogue was when the
    cart was made. *)
Theorem paid_flow_completes_the_task
    env0 cp w r w1 env1 p a w2 env2 msg ctx text :
  create_cart_mandate env0 cp w = (Py.Return r, w1) →
  Models.cartId p = cart_id r →
  process_payment env1 p w1 = (Py.Return a, w2) →
  task_id a ≠ "" → payment_mandate_id a ≠ "" →
  Py.has_key (Models.cart_skillId cp) (PRICING env2) = true →
  Py.lookup_key (Models.cart_skillId cp) service_context = Some ctx →
  generate_content env2
    (consulting_prompt ctx (Models.collect_text (Models.parts msg) "")) = inl text →
  let sp := {| Models.taskId := Some (task_id a);
               Models.skillId := Models.cart_skillId cp;
               Models.message := msg;
               Models.paymentMandateId := Some (payment_mandate_id a) |} in
  ∃ answer w3 details t,
    submit_task env2 sp w2 = (Py.Return answer, w3) ∧
    status answer = "completed" ∧ taskId answer = task_id a ∧
    Py.lookup_key (Models.cart_skillId cp) (PRICING env0) = Some details ∧
    tasks (db w3) !! task_id a = Some t ∧
    Task.status t = "completed" ∧ Task.result t = Some text ∧
    Task.price t = Config.price details ∧
    Task.skill_id t = Models.cart_skillId cp ∧
    Task.cart_id t = Some (cart_id r) ∧
    Task.payment_mandate_id t = Some (payment_mandate_id a).
Proof.
  intros Hcreate Hid Hpay Htask Hpm Hk2 Hctx Hgen. cbv zeta.
  revert Hcreate. rewrite create_cart_mandate_cases.
  destruct (Py.lookup_key _ (PRICING env0)) as [details|] eqn:Hk0; [|done].
  destruct (negb _); [done|].
  destruct (cart_mandates (db w) !! uuid4 env0 0%nat); [done|].
  intros [= <- <-]. simpl in Hid.
  revert Hpay. rewrite process_payment_cases, Hid. simpl.
  rewrite lookup_insert_eq. simpl.
  destruct (_ <? _); [done|].
  destruct (payment_mandates (db w) !! _); [done|].
  destruct (tasks (db w) !! _); [done|].
  intros [= <- <-]. simpl in Htask, Hpm.
  apply has_key_lookup in Hk2 as [details2 Hk2].
  rewrite submit_task_cases. simpl. rewrite Hk2.
  unfold authorized, task_id_of. simpl.
  rewrite (proj2 (String.eqb_neq _ "") Hpm), (proj2 (String.eqb_neq _ "") Htask).
  simpl. rewrite lookup_insert_eq. simpl.
  rewrite process_task_cases, Hctx. cbv zeta. rewrite Hgen, Hk2.
  set (row := the_task_row env1 p (new_cart_row env0 cp details)).
  eexists _, _, details, _. split; [done|]. split; [done|]. split; [done|].
  split; [done|].
  split.
  - apply updated_stored. simpl. apply (updated_stored _ _ _ row).
    simpl. apply lookup_insert_eq.
  - simpl. by rewrite Hid.
Qed.

Lemma paid_flow_completes_the_task_witness :
  let env2 := Examples.raised_env_at 20 (Examples.ids "" "") Examples.engine_ok in
  ∃ answer w3 details t,
    submit_task env2
      (Examples.submit (Some "task-1") (Some "pm-1") "quick-consult")
      Examples.with_payment = (Py.Return answer, w3) ∧
    status answer = "completed" ∧ taskId answer = "task-1" ∧
    Py.lookup_key "quick-consult" Config.PRICING = Some details ∧
    tasks (db w3) !! "task-1" = Some t ∧
    Task.status t = "completed" ∧ Task.result t = Some "Advice." ∧
    Task.price t = Config.price details ∧
    Task.skill_id t = "quick-consult" ∧
    Task.cart_id t = Some "cart-1" ∧
    Task.payment_mandate_id t = Some "pm-1".
Proof.
  refine (paid_flow_completes_the_task
    (Examples.env_at 0 (Examples.ids "cart-1" "") Examples.engine_ok)
    Examples.quick_cart start
    {| cart_success := true;
       cart_id := "cart-1";
       cart_mandate :=
         new_cart_mandate
           (Examples.env_at 0 (Examples.ids "cart-1" "") Examples.engine_ok)
           Examples.quick_cart
           {| Config.price := 2500;
              Config.description := "Quick consultation (15 min equivalent)" |};
       cart_message := "Cart created. User must confirm and authorize payment." |}
    Examples.with_cart
    (Examples.env_at 10 (Examples.ids "pm-1" "task-1") Examples.engine_ok)
    (Examples.pay "cart-1")
    (the_answer
       (Examples.env_at 10 (Examples.ids "pm-1" "task-1") Examples.engine_ok)
       (Examples.pay "cart-1")
       (new_cart_row (Examples.env_at 0 (Examples.ids "cart-1" "")
                        Examples.engine_ok) Examples.quick_cart
          {| Config.price := 2500;
             Config.description := "Quick consultation (15 min equivalent)" |}))
    Examples.with_payment
    (Examples.raised_env_at 20 (Examples.ids "" "") Examples.engine_ok)
    (Examples.user_text "Analyze my startup idea")
    "You are a business consultant. Provide quick, actionable advice."
    "Advice." _ _ _ _ _ _ _ _); vm_compute; first [reflexivity | discriminate].
Defined.

End PaidFlow.

(** ** middleware.py: the rate limiter *)

Section RateLimit.
Import Middleware.

Lemma clean_sorted cutoff h :
  StronglySorted Z.le h → clean cutoff h = filter (λ t, cutoff ≤ t) h.
Proof.
  induction 1 as [|t h Hs IH Hall]; simpl; [done|].
  destruct (Z.ltb_spec t cutoff) as [Hlt|Hge].
  - rewrite filter_cons_False by lia. apply IH.
  - rewrite filter_cons_True by done. f_equal. symmetry.
    clear IH Hs. induction Hall as [|x h Hx Hall IH]; [done|].
    rewrite filter_cons_True by lia. by f_equal.
Qed.

Lemma filter_sorted (P : Z → Prop) `{!∀ t, Decision (P t)} h :
  StronglySorted Z.le h → StronglySorted Z.le (filter P h).
Proof.
  induction 1 as [|t h Hs IH Hall]; [constructor|].
  destruct (decide (P t)).
  - rewrite filter_cons_True by done. constructor; [done|].
    apply Forall_forall. intros x Hx%list_elem_of_filter.
    rewrite Forall_forall in Hall. apply Hall. by destruct Hx.
  - by rewrite filter_cons_False.
Qed.

(** One request, seen from the list [adm] of the times admitted so far. *)
Lemma dispatch_window ip now self adm last :
  0 ≤ period self → last ≤ now →
  StronglySorted Z.le adm → Forall (λ t, t ≤ last) adm →
  history ip self = filter (λ t, last - period self ≤ t) adm →
  let recent := filter (λ t, now - period self ≤ t) adm in
  let out := dispatch ip now self in
  calls out.2 = calls self ∧ period out.2 = period self ∧
  (out.1 = Py.Return call_next ↔ Z.of_nat (List.length recent) < calls self) ∧
  (∀ r, out.1 = Py.Return (rate_limit_exceeded r) → 0 ≤ r ≤ period self) ∧
  (∀ e, out.1 = Py.Raise e → calls self ≤ 0) ∧
  history ip out.2 =
    filter (λ t, now - period self ≤ t)
      (adm ++ admitted [now]
                [match out.1 with Py.Return v => Some v | Py.Raise _ => None end]).
Proof.
  intros Hperiod Hlast Hsorted Hbound Hhist. cbv zeta.
  unfold dispatch. fold (history ip self). rewrite Hhist.
  rewrite clean_sorted by by apply filter_sorted.
  rewrite list_filter_filter_l by (intros; lia).
  set (recent := filter (λ t, now - period self ≤ t) adm).
  destruct (Z.leb_spec (calls self) (Z.of_nat (List.length recent))) as [Hfull|Hroom].
  - destruct recent as [|oldest rest] eqn:Hrecent; simpl.
    + split; [done|]. split; [done|]. split; [split; [done|simpl in *; lia]|].
      split; [done|]. split; [intros; simpl in *; lia|].
      unfold history. simpl. rewrite lookup_insert_eq. simpl.
      by rewrite app_nil_r.
    + split; [done|]. split; [done|].
      split; [split; [done|simpl in *; lia]|].
      assert (oldest ∈ filter (λ t, now - period self ≤ t) adm) as Hin
        by (fold recent; rewrite Hrecent; left).
      apply list_elem_of_filter in Hin as [Hlo Hin].
      rewrite Forall_forall in Hbound. specialize (Hbound _ Hin).
      split; [intros r [= <-]; lia|]. split; [done|].
      unfold history. simpl. rewrite lookup_insert_eq. simpl.
      by rewrite app_nil_r.
  - simpl. split; [done|]. split; [done|]. split; [done|].
    split; [done|]. split; [done|].
    unfold history. simpl. rewrite lookup_insert_eq. simpl.
    rewrite filter_app. fold recent. f_equal.
    rewrite filter_cons_True by lia. done.
Qed.

Lemma dispatch_all_window ip times : ∀ self adm last,
  0 ≤ period self →
  StronglySorted Z.le (last :: times) →
  StronglySorted Z.le adm → Forall (λ t, t ≤ last) adm →
  history ip self = filter (λ t, last - period self ≤ t) adm →
  let out := dispatch_all ip times self in
  let adm' := adm ++ admitted times out.1 in
  let last' := List.last times last in
  calls out.2 = calls self ∧ period out.2 = period self ∧
  StronglySorted Z.le adm' ∧ Forall (λ t, t ≤ last') adm' ∧
  history ip out.2 = filter (λ t, last' - period self ≤ t) adm'.
Proof.
  induction times as [|now times IH]; intros self adm last Hperiod Htimes
    Hsorted Hbound Hhist; cbv zeta.
  - simpl. rewrite app_nil_r. done.
  - apply StronglySorted_inv in Htimes as [Htimes Hle].
    apply Forall_cons in Hle as [Hnow Hle].
    pose proof (dispatch_window ip now self adm last Hperiod Hnow Hsorted
      Hbound Hhist) as (Hc & Hp & _ & _ & _ & Hh). cbv zeta in Hh.
    simpl. destruct (dispatch ip now self) as [r self1]. simpl in *.
    set (v := match r with Py.Return v => Some v | Py.Raise _ => None end) in *.
    set (adm1 := adm ++ admitted [now] [v]) in *.
    assert (StronglySorted Z.le adm1 ∧ Forall (λ t, t ≤ now) adm1) as [Hs1 Hb1].
    { assert (Forall (λ t, t ≤ now) adm) as Hb
        by (eapply Forall_impl; [exact Hbound | intros; simpl in *; lia]).
      unfold adm1.
      destruct v as [[|]|]; simpl; rewrite ?app_nil_r; try done.
      split.
      - apply StronglySorted_app_2; [|done|repeat constructor].
        intros x1 x2 Hx1 Hx2%list_elem_of_singleton. subst x2.
        rewrite Forall_forall in Hb. by apply Hb.
      - apply Forall_app. split; [done|]. by constructor. }
    rewrite <- Hp in Hh, Hperiod.
    specialize (IH self1 adm1 now Hperiod Htimes Hs1 Hb1 Hh).
    cbv zeta in IH. destruct (dispatch_all ip times self1) as [vs self2].
    simpl in *. destruct IH as (Hc2 & Hp2 & Hs2 & Hb2 & Hh2).
    assert (adm ++ match v with
                   | Some call_next => now :: admitted times vs
                   | _ => admitted times vs
                   end
            = adm1 ++ admitted times vs) as ->.
    { unfold adm1. destruct v as [[|]|]; simpl; rewrite ?app_nil_r; try done.
      by rewrite <- app_assoc. }
    assert (match times with [] => now | _ :: _ => List.last times last end
            = List.last times now) as ->.
    { clear. destruct times as [|t ts]; [done|]. revert t.
      induction ts as [|t' ts IH]; intros t; [done|]. apply (IH t'). }
    rewrite Hc2, Hp2, Hc, Hp. rewrite Hp in Hh2. done.
Qed.

(** The rate limiter counts a window.  When the requests of a client come
    at times that do not decrease and [period] is not negative, a request
    is admitted exactly when fewer than [calls] of the client's requests
    admitted before lie in the last [period] seconds; a refused request is
    told to retry after 0 to [period] seconds; and the limiter raises only
    when [calls] is not positive. *)
Theorem rate_limiter_counts_the_window ip earlier now calls period :
  0 ≤ period →
  StronglySorted Z.le (earlier ++ [now]) →
  let served := dispatch_all ip earlier (init calls period) in
  let recent :=
    filter (λ t, now - period ≤ t) (admitted earlier served.1) in
  let out := dispatch ip now served.2 in
  (out.1 = Py.Return call_next ↔ Z.of_nat (List.length recent) < calls) ∧
  (∀ r, out.1 = Py.Return (rate_limit_exceeded r) → 0 ≤ r ≤ period) ∧
  (∀ e, out.1 = Py.Raise e → calls ≤ 0).
Proof.
  intros Hperiod Hsorted. cbv zeta.
  set (first := List.hd now earlier).
  assert (StronglySorted Z.le (first :: earlier)) as Hfirst.
  { apply StronglySorted_app_1_l in Hsorted as Hs. unfold first.
    destruct earlier as [|t ts]; simpl; [repeat constructor|].
    constructor; [done|]. constructor; [lia|].
    by apply StronglySorted_inv in Hs as [_ ?]. }
  pose proof (dispatch_all_window ip earlier (init calls period) [] first
    Hperiod Hfirst (SSorted_nil _) (List.Forall_nil _) eq_refl) as H.
  cbv zeta in H. simpl in H. destruct H as (Hc & Hp & Hs & Hb & Hh).
  assert (List.last earlier first ≤ now) as Hlast.
  { clear -Hsorted. unfold first.
    destruct earlier as [|t ts] using rev_ind; [simpl; lia|].
    rewrite last_last.
    apply (StronglySorted_app_1_elem_of _ _ _ t now Hsorted);
      [set_solver | set_solver]. }
  rewrite <- Hp in Hperiod.
  pose proof (dispatch_window ip now _ _ _ Hperiod Hlast Hs Hb) as H.
  rewrite Hp in H. specialize (H Hh). cbv zeta in H.
  destruct H as (_ & _ & Hiff & Hretry & Hraise & _).
  rewrite Hc, Hp in *. done.
Qed.

Lemma rate_limiter_counts_the_window_witness :
  let served := dispatch_all "10.0.0.1" [0; 10; 20] (init 2 60) in
  (dispatch "10.0.0.1" 30 served.2).1 = Py.Return call_next ↔
  Z.of_nat (List.length
              (filter (λ t, 30 - 60 ≤ t) (admitted [0; 10; 20] served.1))) < 2.
Proof.
  refine (proj1 (rate_limiter_counts_the_window "10.0.0.1" [0; 10; 20] 30 2 60
                   _ _)).
  - lia.
  - repeat constructor; lia.
Defined.

End RateLimit.
